(** * scrapy-selenium: the [SeleniumMiddleware] downloader middleware

    A shallow embedding of [scrapy_selenium/middlewares.py].  The
    middleware is stateful Python: it owns a selenium [WebDriver], talks
    to it through method calls that may raise, mutates the request object
    it is handed, and reads the clock and the random generator.  The
    embedding therefore runs in a state-and-exception monad over an
    explicit program state, and every call that leaves the repository
    (selenium, urllib3, [random], [time], [importlib]) goes through an
    environment [Env] that decides, from the history of calls issued so
    far, whether the call raises and what it returns. *)

From Stdlib Require Import ZArith QArith Lia.
From stdpp Require Import gmap strings list.

Local Open Scope string_scope.

(** ** Values *)

(** Identity of a [WebDriver] object: its index in the table of sessions. *)
Abbreviation sid := nat (only parsing).

(** Identity of a request object: its index in the table of objects. *)
Abbreviation ref := nat (only parsing).

(** A Python [str] whose contents matter code point by code point. *)
Definition pystr := list Z.

(** A Python [bytes] value, one number below 256 per byte. *)
Definition bytes := list Z.

Inductive exn :=
| NotConfigured (msg : string)
| AttributeError (attr : string)
| TypeError (msg : string)
| UnicodeEncodeError
| TimeoutException
| ReferenceError
| LibraryError (msg : string).

(** The options object built by [__init__] ([Options()] of the driver's
    package, then [binary_location], [add_argument], [set_preference]). *)
Record DriverOptions := {
  binary_location : option string;
  arguments : list string;
  preferences : list (string * string)
}.

(** The dictionary [self._driver_kwargs].  Its keys are
    ['executable_path'], [f'{driver_name}_options'] and, for firefox with a
    profile, ['firefox_profile'] ([None] here: the key is absent). *)
Record DriverKwargs := {
  executable_path : option string;
  options_key : string;
  options_value : DriverOptions;
  firefox_profile : option string
}.

Inductive DriverSource :=
| Local (klass : string) (kwargs : DriverKwargs)
| Remote (command_executor : string) (desired_capabilities : DriverOptions).

(** Calls that leave the repository, as they appear in the trace. *)
Inductive Call :=
| ImportModule (name : string)
| NewWebDriver (how : DriverSource)
| DeleteAllCookies (d : sid)
| Quit (d : sid)
| SetWindowSize (d : sid) (width height : Q)
| ConnClear (d : sid)
| NewPoolManager (d : sid) (maxsize : Z) (block : bool)
| AddCookie (d : sid) (name value : string)
| Get (d : sid) (url : string)
| WaitUntil (d : sid) (timeout : option Q) (method : string)
| GetScreenshotAsPng (d : sid)
| ExecuteScript (d : sid) (script : string)
| PageSource (d : sid)
| CurrentUrl (d : sid)
| RandomUniform (a b : Q)
| TimeSleep (secs : Q).

(** The world outside the repository.  [raises h c] tells whether call
    [c], issued after the calls [h], raises; the other fields give what a
    call returns when it does not raise. *)
Record Env := {
  raises : list Call -> Call -> option exn;
  uniform_sample : list Call -> Q -> Q -> Q;
  screenshot_png : list Call -> sid -> bytes;
  page_source_text : list Call -> sid -> pystr;
  current_url_text : list Call -> sid -> string
}.

(** ** Objects *)

Inductive MetaValue :=
| MetaBytes (b : bytes)
| MetaDriver (d : sid)
| MetaStr (s : string).

(** Modelled from the spec: the request class [SeleniumRequest] of
    [scrapy_selenium/http.py], which is not among the sources.  A request
    carries [url], [cookies] (a mapping, kept in insertion order), [meta],
    and, for a browser-fetch request, [wait_time], [wait_until],
    [screenshot] and [script].  [is_selenium] is
    [isinstance(request, SeleniumRequest)]. *)
Record Request := {
  is_selenium : bool;
  url : string;
  cookies : list (string * string);
  meta : gmap string MetaValue;
  wait_time : option Q;
  wait_until : option string;
  screenshot : bool;
  script : option string
}.

Record HtmlResponse := {
  resp_url : string;
  resp_body : bytes;
  resp_encoding : string;
  resp_request : ref
}.

(** What the settings accessors return: [get] gives [None] for a missing
    key, [getint] and [getbool] give the converted value. *)
Record Settings := {
  SELENIUM_DRIVER_NAME : option string;
  SELENIUM_DRIVER_EXECUTABLE_PATH : option string;
  SELENIUM_BROWSER_EXECUTABLE_PATH : option string;
  SELENIUM_COMMAND_EXECUTOR : option string;
  SELENIUM_DRIVER_ARGUMENTS : option (list string);
  SELENIUM_DRIVER_PREFERENCES : option (list (string * string));
  SELENIUM_DRIVER_PROFILE : option string;
  CONCURRENT_REQUESTS : Z;
  CONCURRENT_REQUESTS_PER_DOMAIN : Z;
  DOWNLOAD_DELAY : Z;
  RANDOMIZE_DOWNLOAD_DELAY : bool
}.

Record Spider := { settings : Settings }.

(** A [WebDriver] object as the middleware sees it.  [alive] holds from a
    successful construction until a [quit()] that returns. *)
Record Session := {
  alive : bool;
  single_connection_pool : bool;
  has_replace_driver : bool
}.

(** The attributes of the middleware object.  [driver = None] means that
    the attribute is not set ([hasattr(self, 'driver')] is false). *)
Record SeleniumMiddleware := {
  _command_executor : option string;
  _driver_name : string;
  _driver_klass : string;
  _driver_kwargs : DriverKwargs;
  driver : option sid
}.

Record State := {
  self : SeleniumMiddleware;
  sessions : list Session;
  trace : list Call;
  objects : list Request;
  spider_closed_connected : bool
}.

(** ** The monad: state and exceptions *)

Inductive Result (A : Type) :=
| Ok (a : A)
| Raise (e : exn).
Arguments Ok {A} a.
Arguments Raise {A} e.

Definition M (A : Type) : Type := State -> Result A * State.

#[global] Instance M_ret : MRet M := fun A a st => (Ok a, st).

#[global] Instance M_bind : MBind M := fun A B f m st =>
  match m st with
  | (Ok a, st') => f a st'
  | (Raise e, st') => (Raise e, st')
  end.

Definition raise {A} (e : exn) : M A := fun st => (Raise e, st).

Definition get_state : M State := fun st => (Ok st, st).

Definition modify (f : State -> State) : M unit := fun st => (Ok tt, f st).

Fixpoint for_each {A} (l : list A) (body : A -> M unit) : M unit :=
  match l with
  | [] => mret tt
  | x :: l' => body x ;; for_each l' body
  end.

(** ** State updates *)

Definition log (c : Call) (st : State) : State :=
  {| self := self st; sessions := sessions st; trace := trace st ++ [c];
     objects := objects st;
     spider_closed_connected := spider_closed_connected st |}.

Definition with_self (s : SeleniumMiddleware) (st : State) : State :=
  {| self := s; sessions := sessions st; trace := trace st;
     objects := objects st;
     spider_closed_connected := spider_closed_connected st |}.

Definition with_sessions (l : list Session) (st : State) : State :=
  {| self := self st; sessions := l; trace := trace st;
     objects := objects st;
     spider_closed_connected := spider_closed_connected st |}.

Definition with_objects (l : list Request) (st : State) : State :=
  {| self := self st; sessions := sessions st; trace := trace st;
     objects := l;
     spider_closed_connected := spider_closed_connected st |}.

Definition with_connected (st : State) : State :=
  {| self := self st; sessions := sessions st; trace := trace st;
     objects := objects st; spider_closed_connected := true |}.

Definition set_driver (d : sid) (s : SeleniumMiddleware) : SeleniumMiddleware :=
  {| _command_executor := _command_executor s; _driver_name := _driver_name s;
     _driver_klass := _driver_klass s; _driver_kwargs := _driver_kwargs s;
     driver := Some d |}.

Definition update_session (d : sid) (f : Session -> Session) (st : State) : State :=
  match sessions st !! d with
  | Some s => with_sessions (<[d := f s]> (sessions st)) st
  | None => st
  end.

Definition mark_dead (s : Session) : Session :=
  {| alive := false; single_connection_pool := single_connection_pool s;
     has_replace_driver := has_replace_driver s |}.

Definition mark_single_pool (s : Session) : Session :=
  {| alive := alive s; single_connection_pool := true;
     has_replace_driver := has_replace_driver s |}.

Definition mark_replace_driver (s : Session) : Session :=
  {| alive := alive s; single_connection_pool := single_connection_pool s;
     has_replace_driver := true |}.

Definition fresh_session : Session :=
  {| alive := true; single_connection_pool := false;
     has_replace_driver := false |}.

Definition set_meta (k : string) (v : MetaValue) (r : Request) : Request :=
  {| is_selenium := is_selenium r; url := url r; cookies := cookies r;
     meta := <[k := v]> (meta r); wait_time := wait_time r;
     wait_until := wait_until r; screenshot := screenshot r;
     script := script r |}.

(** ** Python built-ins used by the middleware *)

(** Truth value of a string-or-[None]: [None] and [''] are false. *)
Definition truthy (o : option string) : bool :=
  match o with
  | Some s => negb (String.eqb s "")
  | None => false
  end.

Definition is_None {A} (o : option A) : bool :=
  match o with
  | Some _ => false
  | None => true
  end.

(** [str.encode] with its defaults (utf-8, strict) on one code point:
    surrogates and numbers that are not code points cannot be encoded. *)
Definition utf8_char (c : Z) : option bytes :=
  let cont (k : Z) := Z.lor 0x80 (Z.land (Z.shiftr c k) 0x3F) in
  if (c <? 0)%Z then None
  else if (c <? 0x80)%Z then Some [c]
  else if (c <? 0x800)%Z then Some [Z.lor 0xC0 (Z.shiftr c 6); cont 0%Z]
  else if ((0xD800 <=? c) && (c <=? 0xDFFF))%Z then None
  else if (c <? 0x10000)%Z then
    Some [Z.lor 0xE0 (Z.shiftr c 12); cont 6%Z; cont 0%Z]
  else if (c <? 0x110000)%Z then
    Some [Z.lor 0xF0 (Z.shiftr c 18); cont 12%Z; cont 6%Z; cont 0%Z]
  else None.

Fixpoint utf8 (s : pystr) : option bytes :=
  match s with
  | [] => Some []
  | c :: s' =>
      match utf8_char c, utf8 s' with
      | Some b, Some bs => Some (b ++ bs)%list
      | _, _ => None
      end
  end.

Definition str_encode (s : pystr) : M bytes :=
  match utf8 s with
  | Some b => mret b
  | None => raise UnicodeEncodeError
  end.

(** ** The middleware *)

Section Middleware.

Variable env : Env.

(** Issue a call: it enters the trace, and raises when the environment
    says so. *)
Definition call_with {A} (c : Call) (value : list Call -> A) : M A := fun st =>
  match raises env (trace st) c with
  | Some e => (Raise e, log c st)
  | None => (Ok (value (trace st)), log c st)
  end.

Definition call (c : Call) : M unit := call_with c (fun _ => tt).

Definition random_uniform (a b : Q) : M Q :=
  call_with (RandomUniform a b) (fun h => uniform_sample env h a b).

Definition time_sleep (secs : Q) : M unit := call (TimeSleep secs).

(** [self.driver] *)
Definition self_driver : M sid := fun st =>
  match driver (self st) with
  | Some d => (Ok d, st)
  | None => (Raise (AttributeError "driver"), st)
  end.

(** Evaluating [request]: the object behind the reference. *)
Definition deref (request : ref) : M Request := fun st =>
  match objects st !! request with
  | Some r => (Ok r, st)
  | None => (Raise ReferenceError, st)
  end.

Definition update_object (request : ref) (f : Request -> Request) : M unit :=
  modify (fun st => with_objects (alter f request (objects st)) st).

(** [klass(...)]: a new driver object, alive, entered in the table. *)
Definition new_webdriver (how : DriverSource) : M sid :=
  call (NewWebDriver how);;
  st ← get_state;
  modify (with_sessions (sessions st ++ [fresh_session]));;
  mret (length (sessions st)).

Definition driver_quit (d : sid) : M unit :=
  call (Quit d);;
  modify (update_session d mark_dead).

(** The names [getattr(self, name)] finds on the middleware object. *)
Definition middleware_attrs (s : SeleniumMiddleware) : list string :=
  (["_command_executor"; "_driver_name"; "_driver_klass"; "_driver_kwargs";
   "replace_driver"; "from_crawler"; "process_request"; "spider_closed"]
   ++ match driver s with Some _ => ["driver"] | None => [] end)%list.

(** [f'{self.<name>}']: the attribute, formatted. *)
Definition format_self_attr (name : string) : M string := fun st =>
  if bool_decide (name ∈ middleware_attrs (self st)) then
    if String.eqb name "_driver_name" then (Ok (_driver_name (self st)), st)
    else (Ok ("<" ++ name ++ ">"), st)
  else (Raise (AttributeError name), st).

(** [kwargs[key].to_capabilities()]: only the options entry has the
    method. *)
Definition kwargs_capabilities (kwargs : DriverKwargs) (key : string)
  : M DriverOptions :=
  if String.eqb key (options_key kwargs) then mret (options_value kwargs)
  else if String.eqb key "executable_path" then
    raise (AttributeError "to_capabilities")
  else if String.eqb key "firefox_profile" && negb (is_None (firefox_profile kwargs))
  then raise (AttributeError "to_capabilities")
  else raise (LibraryError "KeyError").

(** [replace_driver], lines 81-112. *)
Definition replace_driver : M sid :=
  st ← get_state;
  match driver (self st) with
  | Some _ =>
      (d ← self_driver; call (DeleteAllCookies d));;
      (d ← self_driver; driver_quit d)
  | None => mret tt
  end;;
  st ← get_state;
  match executable_path (_driver_kwargs (self st)) with
  | Some _ =>
      (* locally installed driver *)
      d ← new_webdriver (Local (_driver_klass (self st)) (_driver_kwargs (self st)));
      modify (fun st => with_self (set_driver d (self st)) st);;
      (d ← self_driver;
       width ← random_uniform (inject_Z 1920 * (1 # 2)) (inject_Z 1920);
       height ← random_uniform (inject_Z 1080 * (1 # 2)) (inject_Z 1080);
       call (SetWindowSize d width height));;
      (* we replace the default PoolManager *)
      (d ← self_driver; call (ConnClear d));;
      (d ← self_driver;
       call (NewPoolManager d 1 false);;
       d ← self_driver;
       modify (update_session d mark_single_pool))
  | None =>
      match _command_executor (self st) with
      | Some command_executor =>
          (* remote driver *)
          key ← format_self_attr "_driver_name_options";
          capabilities ← kwargs_capabilities (_driver_kwargs (self st)) key;
          d ← new_webdriver (Remote command_executor capabilities);
          modify (fun st => with_self (set_driver d (self st)) st)
      | None => mret tt
      end
  end;;
  (d ← self_driver; modify (update_session d mark_replace_driver));;
  self_driver.

(** [Options.add_argument] and [set_preference] as [__init__] uses them:
    the argument, or the preference, is appended.  (selenium's
    [add_argument] rejects an empty argument with [ValueError]; that check
    is selenium's own and is not part of this model.) *)
Definition add_argument (o : DriverOptions) (argument : string) : DriverOptions :=
  {| binary_location := binary_location o;
     arguments := arguments o ++ [argument];
     preferences := preferences o |}.

Definition set_preference (o : DriverOptions) (kv : string * string) : DriverOptions :=
  {| binary_location := binary_location o;
     arguments := arguments o;
     preferences := preferences o ++ [kv] |}.

(** [__init__], lines 18-79.  Looking up [WebDriver] and [Options] in the
    imported modules and calling [Options()] are part of the two imports.
    Line 77 of the source is indented like the [if] of line 76 that guards
    it; it is read here as the body of that [if]. *)
Definition __init__
    (driver_name : string)
    (driver_executable_path browser_executable_path command_executor : option string)
    (driver_arguments : option (list string))
    (driver_preferences : option (list (string * string)))
    (driver_profile : option string)
    (concurrent_requests concurrent_requests_per_domain : Z) : M unit :=
  let webdriver_base_path := "selenium.webdriver." ++ driver_name in
  call (ImportModule (webdriver_base_path ++ ".webdriver"));;
  let driver_klass := webdriver_base_path ++ ".webdriver.WebDriver" in
  call (ImportModule (webdriver_base_path ++ ".options"));;
  let driver_options :=
    {| binary_location :=
         if truthy browser_executable_path then browser_executable_path else None;
       arguments := []; preferences := [] |} in
  driver_options ←
    match driver_arguments with
    | Some l => mret (fold_left add_argument l driver_options)
    | None => raise (TypeError "'NoneType' object is not iterable")
    end;
  driver_options ←
    (if String.eqb driver_name "firefox" then
       match driver_preferences with
       | Some l => mret (fold_left set_preference l driver_options)
       | None => raise (AttributeError "items")
       end
     else mret driver_options);
  modify (fun st => with_self
    {| _command_executor := command_executor;
       _driver_name := driver_name;
       _driver_klass := driver_klass;
       _driver_kwargs :=
         {| executable_path := driver_executable_path;
            options_key := driver_name ++ "_options";
            options_value := driver_options;
            firefox_profile :=
              if String.eqb driver_name "firefox" then driver_profile else None |};
       driver := driver (self st) |} st);;
  replace_driver;;
  mret tt.

(** A middleware object on which no attribute has been set yet. *)
Definition blank : SeleniumMiddleware :=
  {| _command_executor := None; _driver_name := ""; _driver_klass := "";
     _driver_kwargs :=
       {| executable_path := None; options_key := "";
          options_value :=
            {| binary_location := None; arguments := []; preferences := [] |};
          firefox_profile := None |};
     driver := None |}.

(** [from_crawler], lines 114-149.  [cls(...)] allocates a new object and
    runs [__init__] on it; the new middleware is the [self] of the state. *)
Definition from_crawler (crawler : Spider) : M unit :=
  let driver_name := SELENIUM_DRIVER_NAME (settings crawler) in
  let driver_executable_path := SELENIUM_DRIVER_EXECUTABLE_PATH (settings crawler) in
  let browser_executable_path := SELENIUM_BROWSER_EXECUTABLE_PATH (settings crawler) in
  let command_executor := SELENIUM_COMMAND_EXECUTOR (settings crawler) in
  let driver_arguments := SELENIUM_DRIVER_ARGUMENTS (settings crawler) in
  let driver_preferences := SELENIUM_DRIVER_PREFERENCES (settings crawler) in
  let driver_profile := SELENIUM_DRIVER_PROFILE (settings crawler) in
  let concurrent_requests := CONCURRENT_REQUESTS (settings crawler) in
  let concurrent_requests_per_domain :=
    CONCURRENT_REQUESTS_PER_DOMAIN (settings crawler) in
  match driver_name with
  | None => raise (NotConfigured "SELENIUM_DRIVER_NAME must be set")
  | Some name =>
      if is_None driver_executable_path && is_None command_executor then
        raise (NotConfigured
          "Either SELENIUM_DRIVER_EXECUTABLE_PATH or SELENIUM_COMMAND_EXECUTOR must be set")
      else
        modify (with_self blank);;
        __init__ name driver_executable_path browser_executable_path
          command_executor driver_arguments driver_preferences driver_profile
          concurrent_requests concurrent_requests_per_domain;;
        modify with_connected
  end.

(** [process_request], lines 151-195. *)
Definition process_request (request : ref) (spider : Spider)
  : M (option HtmlResponse) :=
  req ← deref request;
  if negb (is_selenium req) then mret None
  else
    let delay := DOWNLOAD_DELAY (settings spider) in
    let randomize_delay := RANDOMIZE_DOWNLOAD_DELAY (settings spider) in
    (if negb (delay =? 0)%Z then
       delay ← (if randomize_delay
                then random_uniform ((1 # 2) * inject_Z delay)
                                    ((3 # 2) * inject_Z delay)
                else mret (inject_Z delay));
       time_sleep delay
     else mret tt);;
    for_each (cookies req) (fun cookie =>
      d ← self_driver;
      call (AddCookie d cookie.1 cookie.2));;
    (d ← self_driver; call (Get d (url req)));;
    match wait_until req with
    | Some method =>
        d ← self_driver; call (WaitUntil d (wait_time req) method)
    | None => mret tt
    end;;
    (if screenshot req then
       d ← self_driver;
       png ← call_with (GetScreenshotAsPng d) (fun h => screenshot_png env h d);
       update_object request (set_meta "screenshot" (MetaBytes png))
     else mret tt);;
    (if truthy (script req) then
       d ← self_driver;
       call (ExecuteScript d (default "" (script req)))
     else mret tt);;
    page_source ← (d ← self_driver;
                   call_with (PageSource d) (fun h => page_source_text env h d));
    body ← str_encode page_source;
    (* Expose the driver via the "meta" attribute *)
    (d ← self_driver; update_object request (set_meta "driver" (MetaDriver d)));;
    current_url ← (d ← self_driver;
                   call_with (CurrentUrl d) (fun h => current_url_text env h d));
    mret (Some {| resp_url := current_url; resp_body := body;
                  resp_encoding := "utf-8"; resp_request := request |}).

(** [spider_closed], lines 197-200. *)
Definition spider_closed : M unit :=
  d ← self_driver; driver_quit d.

(** *** The steps of [replace_driver]

    The same code, step by step, for the proofs: [replace_driver_steps]
    below shows that [replace_driver] is their sequence. *)

(** Lines 82-84. *)
Definition old_driver_cleanup : M unit :=
  st ← get_state;
  match driver (self st) with
  | Some _ =>
      (d ← self_driver; call (DeleteAllCookies d));;
      (d ← self_driver; driver_quit d)
  | None => mret tt
  end.

(** Lines 86-108. *)
Definition driver_creation : M unit :=
  st ← get_state;
  match executable_path (_driver_kwargs (self st)) with
  | Some _ =>
      d ← new_webdriver (Local (_driver_klass (self st)) (_driver_kwargs (self st)));
      modify (fun st => with_self (set_driver d (self st)) st);;
      (d ← self_driver;
       width ← random_uniform (inject_Z 1920 * (1 # 2)) (inject_Z 1920);
       height ← random_uniform (inject_Z 1080 * (1 # 2)) (inject_Z 1080);
       call (SetWindowSize d width height));;
      (d ← self_driver; call (ConnClear d));;
      (d ← self_driver;
       call (NewPoolManager d 1 false);;
       d ← self_driver;
       modify (update_session d mark_single_pool))
  | None =>
      match _command_executor (self st) with
      | Some command_executor =>
          key ← format_self_attr "_driver_name_options";
          capabilities ← kwargs_capabilities (_driver_kwargs (self st)) key;
          d ← new_webdriver (Remote command_executor capabilities);
          modify (fun st => with_self (set_driver d (self st)) st)
      | None => mret tt
      end
  end.

(** Lines 110-112. *)
Definition hook_installation : M sid :=
  (d ← self_driver; modify (update_session d mark_replace_driver));;
  self_driver.

(** *** The steps of [process_request]

    The same code, step by step, for the proofs: [process_request_steps]
    below shows that [process_request] is their sequence. *)

(** Lines 157-162.  [delay] is the integer that [getint] made of the
    configured delay ([getint] below); the bounds of the draw are the
    exact half and three-halves of it, which the binary64 products of line
    160 are as long as [exact_in_binary64 delay]. *)
Definition pacing (spider : Spider) : M unit :=
  let delay := DOWNLOAD_DELAY (settings spider) in
  let randomize_delay := RANDOMIZE_DOWNLOAD_DELAY (settings spider) in
  if negb (delay =? 0)%Z then
    delay ← (if randomize_delay
             then random_uniform ((1 # 2) * inject_Z delay)
                                 ((3 # 2) * inject_Z delay)
             else mret (inject_Z delay));
    time_sleep delay
  else mret tt.

(** Lines 164-170. *)
Definition cookie_injection (req : Request) : M unit :=
  for_each (cookies req) (fun cookie =>
    d ← self_driver;
    call (AddCookie d cookie.1 cookie.2)).

(** Line 172. *)
Definition navigation (req : Request) : M unit :=
  d ← self_driver; call (Get d (url req)).

(** Lines 174-177. *)
Definition waiting (req : Request) : M unit :=
  match wait_until req with
  | Some method =>
      d ← self_driver; call (WaitUntil d (wait_time req) method)
  | None => mret tt
  end.

(** Lines 179-180. *)
Definition screenshot_capture (request : ref) (req : Request) : M unit :=
  if screenshot req then
    d ← self_driver;
    png ← call_with (GetScreenshotAsPng d) (fun h => screenshot_png env h d);
    update_object request (set_meta "screenshot" (MetaBytes png))
  else mret tt.

(** Lines 182-183. *)
Definition script_execution (req : Request) : M unit :=
  if truthy (script req) then
    d ← self_driver;
    call (ExecuteScript d (default "" (script req)))
  else mret tt.

(** Lines 185-195. *)
Definition extraction (request : ref) : M (option HtmlResponse) :=
  page_source ← (d ← self_driver;
                 call_with (PageSource d) (fun h => page_source_text env h d));
  body ← str_encode page_source;
  (d ← self_driver; update_object request (set_meta "driver" (MetaDriver d)));;
  current_url ← (d ← self_driver;
                 call_with (CurrentUrl d) (fun h => current_url_text env h d));
  mret (Some {| resp_url := current_url; resp_body := body;
                resp_encoding := "utf-8"; resp_request := request |}).

End Middleware.

(** ** Observations on a state *)

(** [isAlive] of the session behind a driver identity. *)
Definition is_alive (st : State) (d : sid) : bool :=
  match sessions st !! d with
  | Some s => alive s
  | None => false
  end.

(** The identities of the sessions alive in a state. *)
Definition live_sessions (st : State) : list sid :=
  filter (fun d => is_alive st d = true) (seq 0 (length (sessions st))).

(** The state before any middleware exists: no session, no call issued. *)
Definition initial (objs : list Request) : State :=
  {| self := blank; sessions := []; trace := []; objects := objs;
     spider_closed_connected := false |}.

(** The calls of the pacing step. *)
Definition is_pacing (c : Call) : bool :=
  match c with
  | RandomUniform _ _ | TimeSleep _ => true
  | _ => false
  end.

Definition is_add_cookie (c : Call) : bool :=
  match c with
  | AddCookie _ _ _ => true
  | _ => false
  end.

Definition not_pacing (c : Call) : bool := negb (is_pacing c).

Definition not_add_cookie (c : Call) : bool := negb (is_add_cookie c).

(** The [add_cookie] call for one item of [request.cookies]. *)
Definition add_cookie_call (d : sid) (cookie : string * string) : Call :=
  AddCookie d cookie.1 cookie.2.

(** [random.uniform(a, b)] keeps its promise: the sample lies between
    the bounds. *)
Definition honours_uniform (env : Env) : Prop :=
  forall h a b, (a <= b)%Q ->
    (a <= uniform_sample env h a b)%Q /\ (uniform_sample env h a b <= b)%Q.

(** What the pipeline and the middleware's users may do to a state once
    the middleware exists. *)
Inductive step (env : Env) : State -> State -> Prop :=
| step_replace_driver st :
    step env st (replace_driver env st).2
| step_process_request st request spider :
    step env st (process_request env request spider st).2
| step_spider_closed st :
    step env st (spider_closed env st).2
| step_new_request st r :
    step env st (with_objects (objects st ++ [r]) st).

Inductive reachable (env : Env) : State -> Prop :=
| reachable_created crawler objs :
    reachable env (from_crawler env crawler (initial objs)).2
| reachable_step st st' :
    reachable env st -> step env st st' -> reachable env st'.

(** ** What a computation keeps

    [keeps R m]: whatever [m] does and however it ends, the state it
    leaves is related by [R] to the state it started from. *)

Definition keeps (R : State -> State -> Prop) {A} (m : M A) : Prop :=
  forall st, R st (m st).2.

(** ** Relations between the state before and the state after *)

(** The middleware object and the sessions are the same. *)
Definition same_sessions (st st' : State) : Prop :=
  self st' = self st /\ sessions st' = sessions st.

(** The request objects are the same. *)
Definition same_objects (st st' : State) : Prop :=
  objects st' = objects st.

(** The trace has grown by calls that satisfy [P]. *)
Definition emits (P : Call -> bool) (st st' : State) : Prop :=
  exists evs, trace st' = (trace st ++ evs)%list /\ forallb P evs = true.

(** ** The session manager's invariant *)

(** The [driver] attribute, when set, names a session of the table. *)
Definition driver_in_range (st : State) : Prop :=
  forall d, driver (self st) = Some d -> d < length (sessions st).

(** Every session alive is the one the middleware holds as [driver]. *)
Definition owns_live (st : State) : Prop :=
  forall i, is_alive st i = true -> driver (self st) = Some i.

Definition single_session (st : State) : Prop :=
  driver_in_range st /\ owns_live st.

Definition all_dead (st : State) : Prop :=
  forall i, is_alive st i = false.

(** The invariant is carried over. *)
Definition carries_invariant (st st' : State) : Prop :=
  single_session st -> single_session st'.

(** No session is lost, and the sessions that are dead stay dead. *)
Definition dead_stay_dead (st st' : State) : Prop :=
  length (sessions st) <= length (sessions st') /\
  forall i, i < length (sessions st) ->
    is_alive st i = false -> is_alive st' i = false.

(** The middleware object is the same and the sessions alive stay alive. *)
Definition live_stay_live (st st' : State) : Prop :=
  self st' = self st /\
  forall i, is_alive st i = true -> is_alive st' i = true.

(** ** Concrete settings, environments and states

    Used to run the middleware on explicit inputs. *)

(** An environment in which no call raises. *)
Definition quiet_env : Env :=
  {| raises := fun _ _ => None;
     uniform_sample := fun _ a _ => a;
     screenshot_png := fun _ _ => [137; 80; 78; 71]%Z;
     page_source_text := fun _ _ => [60; 104; 233; 62]%Z;
     current_url_text := fun _ _ => "http://example.test/" |}.

Definition is_quit (c : Call) : bool :=
  match c with
  | Quit _ => true
  | _ => false
  end.

(** A backend whose [quit()] raises on a driver that was quit before. *)
Definition strict_quit_env : Env :=
  {| raises := fun h c =>
       if is_quit c && existsb is_quit h
       then Some (LibraryError "invalid session id") else None;
     uniform_sample := uniform_sample quiet_env;
     screenshot_png := screenshot_png quiet_env;
     page_source_text := page_source_text quiet_env;
     current_url_text := current_url_text quiet_env |}.

(** A backend whose [delete_all_cookies()] raises. *)
Definition failing_purge_env : Env :=
  {| raises := fun _ c =>
       match c with
       | DeleteAllCookies _ => Some (LibraryError "unable to delete cookies")
       | _ => None
       end;
     uniform_sample := uniform_sample quiet_env;
     screenshot_png := screenshot_png quiet_env;
     page_source_text := page_source_text quiet_env;
     current_url_text := current_url_text quiet_env |}.

(** A page on which no wait condition ever becomes true. *)
Definition timeout_env : Env :=
  {| raises := fun _ c =>
       match c with
       | WaitUntil _ _ _ => Some TimeoutException
       | _ => None
       end;
     uniform_sample := uniform_sample quiet_env;
     screenshot_png := screenshot_png quiet_env;
     page_source_text := page_source_text quiet_env;
     current_url_text := current_url_text quiet_env |}.

Definition local_settings : Settings :=
  {| SELENIUM_DRIVER_NAME := Some "chrome";
     SELENIUM_DRIVER_EXECUTABLE_PATH := Some "/usr/bin/chromedriver";
     SELENIUM_BROWSER_EXECUTABLE_PATH := None;
     SELENIUM_COMMAND_EXECUTOR := None;
     SELENIUM_DRIVER_ARGUMENTS := Some ["--headless"];
     SELENIUM_DRIVER_PREFERENCES := None;
     SELENIUM_DRIVER_PROFILE := None;
     CONCURRENT_REQUESTS := 16;
     CONCURRENT_REQUESTS_PER_DOMAIN := 8;
     DOWNLOAD_DELAY := 2;
     RANDOMIZE_DOWNLOAD_DELAY := true |}.

Definition remote_settings : Settings :=
  {| SELENIUM_DRIVER_NAME := Some "chrome";
     SELENIUM_DRIVER_EXECUTABLE_PATH := None;
     SELENIUM_BROWSER_EXECUTABLE_PATH := None;
     SELENIUM_COMMAND_EXECUTOR := Some "http://localhost:4444/wd/hub";
     SELENIUM_DRIVER_ARGUMENTS := Some ["--headless"];
     SELENIUM_DRIVER_PREFERENCES := None;
     SELENIUM_DRIVER_PROFILE := None;
     CONCURRENT_REQUESTS := 16;
     CONCURRENT_REQUESTS_PER_DOMAIN := 8;
     DOWNLOAD_DELAY := 0;
     RANDOMIZE_DOWNLOAD_DELAY := false |}.

Definition plain_request : Request :=
  {| is_selenium := false; url := "http://example.test/robots.txt";
     cookies := [("a", "1")]; meta := ∅; wait_time := None;
     wait_until := None; screenshot := false; script := None |}.

Definition browser_request : Request :=
  {| is_selenium := true; url := "http://example.test";
     cookies := [("a", "1"); ("b", "2")]; meta := ∅;
     wait_time := Some (2 # 1); wait_until := Some "title_is";
     screenshot := true; script := Some "window.scrollTo(0, 0)" |}.

(** The response to [browser_request] in [quiet_env]. *)
Definition example_response : HtmlResponse :=
  {| resp_url := "http://example.test/";
     resp_body := [60; 104; 195; 169; 62]%Z;
     resp_encoding := "utf-8";
     resp_request := 1 |}.

(** The state in which the middleware has just been created from
    [local_settings], with the two requests above as objects 0 and 1. *)
Definition live_state (env : Env) : State :=
  (from_crawler env {| settings := local_settings |}
     (initial [plain_request; browser_request])).2.

(** The middleware configured for a remote driver only, before its
    [__init__] reaches [replace_driver]. *)
Definition remote_state : State :=
  {| self :=
       {| _command_executor := Some "http://localhost:4444/wd/hub";
          _driver_name := "chrome";
          _driver_klass := "selenium.webdriver.chrome.webdriver.WebDriver";
          _driver_kwargs :=
            {| executable_path := None; options_key := "chrome_options";
               options_value :=
                 {| binary_location := None; arguments := ["--headless"];
                    preferences := [] |};
               firefox_profile := None |};
          driver := None |};
     sessions := []; trace := []; objects := [];
     spider_closed_connected := false |}.

(** ** More observations, for the properties beyond the claims *)

(** Calls that create, configure or end a driver. *)
Definition is_lifecycle (c : Call) : bool :=
  match c with
  | ImportModule _ | NewWebDriver _ | DeleteAllCookies _ | Quit _
  | SetWindowSize _ _ _ | ConnClear _ | NewPoolManager _ _ _ => true
  | _ => false
  end.

Definition not_lifecycle (c : Call) : bool := negb (is_lifecycle c).

(** The attributes set by [__init__] are the same. *)
Definition same_config (st st' : State) : Prop :=
  _command_executor (self st') = _command_executor (self st) /\
  _driver_name (self st') = _driver_name (self st) /\
  _driver_klass (self st') = _driver_klass (self st) /\
  _driver_kwargs (self st') = _driver_kwargs (self st).

(** The calls of [replace_driver] on the old driver. *)
Definition cleanup_calls (s : SeleniumMiddleware) : list Call :=
  match driver s with
  | Some d => [DeleteAllCookies d; Quit d]
  | None => []
  end.

(** The calls of the pacing step after the history [h] when none raises. *)
Definition pacing_calls (env : Env) (spider : Spider) (h : list Call) : list Call :=
  let delay := DOWNLOAD_DELAY (settings spider) in
  let lo := ((1 # 2) * inject_Z delay)%Q in
  let hi := ((3 # 2) * inject_Z delay)%Q in
  if (delay =? 0)%Z then []
  else if RANDOMIZE_DOWNLOAD_DELAY (settings spider)
       then [RandomUniform lo hi; TimeSleep (uniform_sample env h lo hi)]
       else [TimeSleep (inject_Z delay)].

Definition waiting_calls (d : sid) (req : Request) : list Call :=
  match wait_until req with
  | Some method => [WaitUntil d (wait_time req) method]
  | None => []
  end.

Definition screenshot_calls (d : sid) (req : Request) : list Call :=
  if screenshot req then [GetScreenshotAsPng d] else [].

Definition script_calls (d : sid) (req : Request) : list Call :=
  if truthy (script req) then [ExecuteScript d (default "" (script req))] else [].

(** The calls of [process_request] up to the navigation. *)
Definition calls_to_navigation (env : Env) (spider : Spider) (d : sid)
    (req : Request) (h : list Call) : list Call :=
  (pacing_calls env spider h ++ map (add_cookie_call d) (cookies req)
   ++ [Get d (url req)])%list.

(** A code point that utf-8 can encode: in range and not a surrogate. *)
Definition is_scalar (c : Z) : bool :=
  ((0 <=? c) && (c <? 0x110000) && negb ((0xD800 <=? c) && (c <=? 0xDFFF)))%Z.

Definition is_ascii (c : Z) : bool := ((0 <=? c) && (c <? 0x80))%Z.

Definition is_byte (b : Z) : bool := ((0 <=? b) && (b <? 256))%Z.

(** An environment in which no call raises. *)
Definition never_raises (env : Env) : Prop :=
  forall h c, raises env h c = None.

(** The page source is never a string with a lone surrogate. *)
Definition encodable_pages (env : Env) : Prop :=
  forall h d, forallb is_scalar (page_source_text env h d) = true.

(** A backend that hands out a page with a lone surrogate. *)
Definition surrogate_env : Env :=
  {| raises := raises quiet_env;
     uniform_sample := uniform_sample quiet_env;
     screenshot_png := screenshot_png quiet_env;
     page_source_text := fun _ _ => [60; 0xD800; 62]%Z;
     current_url_text := current_url_text quiet_env |}.

(** The handler is connected to the signal as before. *)
Definition same_connected (st st' : State) : Prop :=
  spider_closed_connected st' = spider_closed_connected st.

Definition any_call (c : Call) : bool := true.

(** The same settings with other values for the two firefox-only keys. *)
Definition with_firefox_settings
    (driver_preferences : option (list (string * string)))
    (driver_profile : option string) (s : Settings) : Settings :=
  {| SELENIUM_DRIVER_NAME := SELENIUM_DRIVER_NAME s;
     SELENIUM_DRIVER_EXECUTABLE_PATH := SELENIUM_DRIVER_EXECUTABLE_PATH s;
     SELENIUM_BROWSER_EXECUTABLE_PATH := SELENIUM_BROWSER_EXECUTABLE_PATH s;
     SELENIUM_COMMAND_EXECUTOR := SELENIUM_COMMAND_EXECUTOR s;
     SELENIUM_DRIVER_ARGUMENTS := SELENIUM_DRIVER_ARGUMENTS s;
     SELENIUM_DRIVER_PREFERENCES := driver_preferences;
     SELENIUM_DRIVER_PROFILE := driver_profile;
     CONCURRENT_REQUESTS := CONCURRENT_REQUESTS s;
     CONCURRENT_REQUESTS_PER_DOMAIN := CONCURRENT_REQUESTS_PER_DOMAIN s;
     DOWNLOAD_DELAY := DOWNLOAD_DELAY s;
     RANDOMIZE_DOWNLOAD_DELAY := RANDOMIZE_DOWNLOAD_DELAY s |}.

(** The keyword arguments [__init__] stores for given settings. *)
Definition configured_kwargs (name : string) (s : Settings) : DriverKwargs :=
  {| executable_path := SELENIUM_DRIVER_EXECUTABLE_PATH s;
     options_key := name ++ "_options";
     options_value :=
       {| binary_location :=
            if truthy (SELENIUM_BROWSER_EXECUTABLE_PATH s)
            then SELENIUM_BROWSER_EXECUTABLE_PATH s else None;
          arguments := default [] (SELENIUM_DRIVER_ARGUMENTS s);
          preferences :=
            if String.eqb name "firefox"
            then default [] (SELENIUM_DRIVER_PREFERENCES s) else [] |};
     firefox_profile :=
       if String.eqb name "firefox" then SELENIUM_DRIVER_PROFILE s else None |}.

(** Settings without [SELENIUM_DRIVER_ARGUMENTS]. *)
Definition no_arguments_settings : Settings :=
  {| SELENIUM_DRIVER_NAME := Some "chrome";
     SELENIUM_DRIVER_EXECUTABLE_PATH := Some "/usr/bin/chromedriver";
     SELENIUM_BROWSER_EXECUTABLE_PATH := None;
     SELENIUM_COMMAND_EXECUTOR := None;
     SELENIUM_DRIVER_ARGUMENTS := None;
     SELENIUM_DRIVER_PREFERENCES := None;
     SELENIUM_DRIVER_PROFILE := None;
     CONCURRENT_REQUESTS := 16;
     CONCURRENT_REQUESTS_PER_DOMAIN := 8;
     DOWNLOAD_DELAY := 0;
     RANDOMIZE_DOWNLOAD_DELAY := false |}.

(** ** [setup.py]: the requirements of the package *)

(** [s.startswith(p)] *)
Definition startswith (s p : string) : bool := String.prefix p s.

(** [sub in s] *)
Definition str_contains (sub s : string) : bool :=
  match String.index 0 sub s with
  | Some _ => true
  | None => false
  end.

(** [s.find(sub)]: the first index of [sub] in [s], or -1. *)
Definition str_find (sub s : string) : Z :=
  match String.index 0 sub s with
  | Some n => Z.of_nat n
  | None => (-1)%Z
  end.

(** [s[k:]], with Python's reading of a negative [k]. *)
Definition slice_from (k : Z) (s : string) : string :=
  let n := String.length s in
  let start := if (k <? 0)%Z then Z.max 0 (k + Z.of_nat n) else k in
  String.substring (Z.to_nat start) (n - Z.to_nat start) s.

Definition EGG_MARK : string := "#egg=".

(** The variables of [get_requirements] and what it has printed. *)
Record Requirements := {
  required : list string;
  dependency_links : list string;
  stdout : list string
}.

Definition is_git_line (line : string) : bool :=
  startswith line "-e git:" || startswith line "-e git+"
  || startswith line "git:" || startswith line "git+".

(** The body of the loop of [get_requirements], lines 13-24. *)
Definition requirement_line (acc : Requirements) (line : string) : Requirements :=
  if is_git_line line then
    if str_contains EGG_MARK line then
      let package_name :=
        slice_from (str_find EGG_MARK line + Z.of_nat (String.length EGG_MARK)) line in
      {| required := (required acc ++ [package_name])%list;
         dependency_links := (dependency_links acc ++ [line])%list;
         stdout := stdout acc |}
    else
      {| required := required acc;
         dependency_links := dependency_links acc;
         stdout :=
           (stdout acc ++
            ["Dependency to a git repository should have the format:";
             "git+ssh://git@github.com/xxxxx/xxxxxx#egg=package_name"])%list |}
  else
    {| required := (required acc ++ [line])%list;
       dependency_links := dependency_links acc;
       stdout := stdout acc |}.

(** [get_requirements], lines 5-26.  [read_lines source] is
    [open(source).read().splitlines()], which may raise; [out] is what has
    been printed so far. *)
Definition get_requirements (read_lines : string -> Result (list string))
    (source : string) (out : list string) : Result (list string) * list string :=
  match read_lines source with
  | Raise e => (Raise e, out)
  | Ok requirements =>
      let acc :=
        fold_left requirement_line requirements
          {| required := []; dependency_links := []; stdout := out |} in
      (Ok (required acc), stdout acc)
  end.

(** The variables at the start of the loop, [out] being printed already. *)
Definition no_requirements (out : list string) : Requirements :=
  {| required := []; dependency_links := []; stdout := out |}.

(** A git line that [get_requirements] drops: it has no egg mark. *)
Definition is_dropped (line : string) : bool :=
  is_git_line line && negb (str_contains EGG_MARK line).

(** A requirements file for the examples. *)
Definition example_requirements : list string :=
  ["scrapy>=1.0.0"; "selenium>=3.9.0";
   "-e git+https://github.com/clemfromspace/scrapy-selenium#egg=scrapy-selenium";
   "git+ssh://git@github.com/example/no-egg"].

Definition example_files (source : string) : Result (list string) :=
  if String.eqb source "requirements/requirements.txt"
  then Ok example_requirements
  else Raise (LibraryError "FileNotFoundError").

(** The same, and a file with the lines of that file twice. *)
Definition both_files (source : string) : Result (list string) :=
  if String.eqb source "both.txt"
  then Ok (example_requirements ++ example_requirements)%list
  else example_files source.

Definition is_new_webdriver (c : Call) : bool :=
  match c with
  | NewWebDriver _ => true
  | _ => false
  end.

(** A machine on which a second browser cannot be launched. *)
Definition no_relaunch_env : Env :=
  {| raises := fun h c =>
       if is_new_webdriver c && existsb is_new_webdriver h
       then Some (LibraryError "unable to start the driver") else None;
     uniform_sample := uniform_sample quiet_env;
     screenshot_png := screenshot_png quiet_env;
     page_source_text := page_source_text quiet_env;
     current_url_text := current_url_text quiet_env |}.

(** ** The configured delay

    Line 157 reads the delay with [spider.settings.getint('DOWNLOAD_DELAY')],
    which is [int(value)] of the configured [value]: on a number, its
    truncation toward zero.  [DOWNLOAD_DELAY] in [Settings] is the integer
    that comes out; the configured value is a rational here. *)
Definition getint (value : Q) : Z := Z.quot (Qnum value) (Z.pos (Qden value)).

(** The same settings with [DOWNLOAD_DELAY] configured as [value] and
    [RANDOMIZE_DOWNLOAD_DELAY] as [randomize]. *)
Definition with_download_delay
    (value : Q) (randomize : bool) (s : Settings) : Settings :=
  {| SELENIUM_DRIVER_NAME := SELENIUM_DRIVER_NAME s;
     SELENIUM_DRIVER_EXECUTABLE_PATH := SELENIUM_DRIVER_EXECUTABLE_PATH s;
     SELENIUM_BROWSER_EXECUTABLE_PATH := SELENIUM_BROWSER_EXECUTABLE_PATH s;
     SELENIUM_COMMAND_EXECUTOR := SELENIUM_COMMAND_EXECUTOR s;
     SELENIUM_DRIVER_ARGUMENTS := SELENIUM_DRIVER_ARGUMENTS s;
     SELENIUM_DRIVER_PREFERENCES := SELENIUM_DRIVER_PREFERENCES s;
     SELENIUM_DRIVER_PROFILE := SELENIUM_DRIVER_PROFILE s;
     CONCURRENT_REQUESTS := CONCURRENT_REQUESTS s;
     CONCURRENT_REQUESTS_PER_DOMAIN := CONCURRENT_REQUESTS_PER_DOMAIN s;
     DOWNLOAD_DELAY := getint value;
     RANDOMIZE_DOWNLOAD_DELAY := randomize |}.

(** The products [0.5 * delay] and [1.5 * delay] of line 160 are binary64
    products of the integer [delay].  They are the exact half and
    three-halves that [pacing] computes as long as [3 * delay] fits the 53
    bits of a binary64 significand, that is up to about [3e15]. *)
Definition exact_in_binary64 (delay : Z) : bool := (Z.abs (3 * delay) <? 2 ^ 53)%Z.

(** ** The cookie the session refuses

    The first item of the cookies whose [add_cookie] call the environment
    makes raise, with the exception raised, when the items before it have
    been added after the calls of [h]; [None] when every addition
    returns. *)
Fixpoint add_cookie_refused
    (env : Env) (d : sid) (h : list Call) (l : list (string * string))
    : option (nat * exn) :=
  match l with
  | [] => None
  | cookie :: l' =>
      match raises env h (add_cookie_call d cookie) with
      | Some e => Some (0%nat, e)
      | None =>
          match add_cookie_refused env d (h ++ [add_cookie_call d cookie])%list l' with
          | Some (k, e) => Some (S k, e)
          | None => None
          end
      end
  end.

(** A session that refuses the cookie named [b]. *)
Definition refused_cookie_env : Env :=
  {| raises := fun _ c =>
       match c with
       | AddCookie _ "b" _ => Some (LibraryError "unable to set cookie")
       | _ => None
       end;
     uniform_sample := uniform_sample quiet_env;
     screenshot_png := screenshot_png quiet_env;
     page_source_text := page_source_text quiet_env;
     current_url_text := current_url_text quiet_env |}.

(** * Properties *)

Local Open Scope list_scope.

(** ** Running the monad *)

Lemma bind_run {A B} (m : M A) (f : A -> M B) (st : State) :
  (m ≫= f) st =
  match m st with
  | (Ok a, st') => f a st'
  | (Raise e, st') => (Raise e, st')
  end.
Proof. reflexivity. Qed.

Lemma ret_run {A} (a : A) (st : State) : (mret a : M A) st = (Ok a, st).
Proof. reflexivity. Qed.

Lemma call_with_run {A} env (c : Call) (v : list Call -> A) (st : State) :
  call_with env c v st =
  match raises env (trace st) c with
  | Some e => (Raise e, log c st)
  | None => (Ok (v (trace st)), log c st)
  end.
Proof. reflexivity. Qed.

Lemma call_run env (c : Call) (st : State) :
  call env c st =
  match raises env (trace st) c with
  | Some e => (Raise e, log c st)
  | None => (Ok tt, log c st)
  end.
Proof. unfold call. rewrite call_with_run. by destruct (raises env _ _). Qed.

Lemma self_driver_run (st : State) (d : sid) :
  driver (self st) = Some d -> self_driver st = (Ok d, st).
Proof. intros H. unfold self_driver. by rewrite H. Qed.

Lemma process_request_steps env (request : ref) (spider : Spider) :
  process_request env request spider =
  (req ← deref request;
   if negb (is_selenium req) then mret None
   else
     pacing env spider;;
     cookie_injection env req;;
     navigation env req;;
     waiting env req;;
     screenshot_capture env request req;;
     script_execution env req;;
     extraction env request).
Proof. reflexivity. Qed.

(** ** What a computation keeps *)

Section Keeps.

Context (R : State -> State -> Prop) `{!PreOrder R}.

Lemma keeps_ret {A} (a : A) : keeps R (mret a : M A).
Proof. intros st. simpl. reflexivity. Qed.

Lemma keeps_raise {A} (e : exn) : keeps R (raise e : M A).
Proof. intros st. simpl. reflexivity. Qed.

Lemma keeps_bind {A B} (m : M A) (f : A -> M B) :
  keeps R m -> (forall a, keeps R (f a)) -> keeps R (m ≫= f).
Proof.
  intros Hm Hf st. rewrite bind_run. specialize (Hm st).
  destruct (m st) as [[a|e] st1]; simpl in *; [|done].
  etrans; [exact Hm | apply Hf].
Qed.

Lemma keeps_for_each {A} (l : list A) (body : A -> M unit) :
  (forall x, keeps R (body x)) -> keeps R (for_each l body).
Proof.
  intros Hbody. induction l as [|x l IH]; simpl.
  - apply keeps_ret.
  - apply keeps_bind; [apply Hbody | intros _; exact IH].
Qed.

Lemma keeps_get_state : keeps R get_state.
Proof. intros st. simpl. reflexivity. Qed.

Lemma keeps_self_driver : keeps R self_driver.
Proof. intros st. unfold self_driver. destruct (driver (self st)); simpl; reflexivity. Qed.

Lemma keeps_deref (request : ref) : keeps R (deref request).
Proof. intros st. unfold deref. destruct (objects st !! request); simpl; reflexivity. Qed.

Lemma keeps_str_encode (s : pystr) : keeps R (str_encode s).
Proof. unfold str_encode. destruct (utf8 s); [apply keeps_ret | apply keeps_raise]. Qed.

Lemma keeps_modify (f : State -> State) :
  (forall st, R st (f st)) -> keeps R (modify f).
Proof. intros Hf st. apply Hf. Qed.

Lemma keeps_call_with {A} env (c : Call) (v : list Call -> A) :
  (forall st, R st (log c st)) -> keeps R (call_with env c v).
Proof.
  intros Hlog st. rewrite call_with_run.
  destruct (raises env (trace st) c); apply Hlog.
Qed.

End Keeps.

(** One step of a proof that a piece of the middleware keeps a relation. *)
Ltac keeps_step :=
  lazymatch goal with
  | |- keeps _ (mret _) => apply keeps_ret; try tc_solve
  | |- keeps _ (raise _) => apply keeps_raise; try tc_solve
  | |- keeps _ self_driver => apply keeps_self_driver; try tc_solve
  | |- keeps _ get_state => apply keeps_get_state; try tc_solve
  | |- keeps _ (deref _) => apply keeps_deref; try tc_solve
  | |- keeps _ (str_encode _) => apply keeps_str_encode; try tc_solve
  | |- keeps _ (for_each _ _) => apply keeps_for_each; try tc_solve; intros ?
  | |- keeps _ (_ ≫= _) => apply keeps_bind; try tc_solve; [| intros ?]
  | |- keeps _ (match ?x with _ => _ end) => destruct x eqn:?
  end.

(** *** The relations kept *)

#[global] Instance same_sessions_preorder : PreOrder same_sessions.
Proof.
  split.
  - intros st. by split.
  - intros a b c [H1 H2] [H3 H4]. split; congruence.
Qed.

#[global] Instance same_objects_preorder : PreOrder same_objects.
Proof.
  split.
  - intros st. reflexivity.
  - intros a b c H1 H2. unfold same_objects in *. congruence.
Qed.

#[global] Instance emits_preorder (P : Call -> bool) : PreOrder (emits P).
Proof.
  split.
  - intros st. exists []. split; [by rewrite app_nil_r | done].
  - intros a b c (e1 & H1 & F1) (e2 & H2 & F2). exists (e1 ++ e2). split.
    + by rewrite H2, H1, app_assoc.
    + rewrite forallb_app, F1, F2. done.
Qed.

Lemma emits_log (P : Call -> bool) (c : Call) (st : State) :
  P c = true -> emits P st (log c st).
Proof.
  intros Hc. exists [c]. split; [done|]. simpl. by rewrite Hc.
Qed.

Lemma emits_same_trace (P : Call -> bool) (st st' : State) :
  trace st' = trace st -> emits P st st'.
Proof. intros H. exists []. split; [by rewrite app_nil_r | done]. Qed.

Lemma same_sessions_log (c : Call) (st : State) : same_sessions st (log c st).
Proof. by split. Qed.

Lemma same_sessions_objects (l : list Request) (st : State) :
  same_sessions st (with_objects l st).
Proof. by split. Qed.

(** Leaves of a [keeps] proof: the calls and the updates of objects. *)
Ltac keeps_leaf tac :=
  lazymatch goal with
  | |- keeps _ (call _ _) => unfold call; apply keeps_call_with; try tc_solve; intros ?; tac
  | |- keeps _ (time_sleep _ _) =>
      unfold time_sleep, call; apply keeps_call_with; try tc_solve; intros ?; tac
  | |- keeps _ (random_uniform _ _ _) =>
      unfold random_uniform; apply keeps_call_with; try tc_solve; intros ?; tac
  | |- keeps _ (call_with _ _ _) => apply keeps_call_with; try tc_solve; intros ?; tac
  | |- keeps _ (modify _) => apply keeps_modify; try tc_solve; intros ?; tac
  | |- keeps _ (update_object _ _) =>
      unfold update_object; apply keeps_modify; try tc_solve; intros ?; tac
  end.

Ltac keeps_auto tac := repeat first [keeps_step | keeps_leaf tac].

(** [process_request] never touches the middleware object or the
    sessions: it neither replaces nor quits the driver. *)
Lemma process_request_same_sessions env (request : ref) (spider : Spider) :
  keeps same_sessions (process_request env request spider).
Proof.
  unfold process_request.
  keeps_auto ltac:(first [apply same_sessions_log | apply same_sessions_objects]).
Qed.

Lemma same_sessions_alive (st st' : State) (d : sid) :
  same_sessions st st' -> is_alive st' d = is_alive st d.
Proof. intros [_ H]. unfold is_alive. by rewrite H. Qed.

(** The steps that only issue calls leave the request objects alone. *)
Lemma before_wait_same_objects env (spider : Spider) (req : Request) :
  keeps same_objects
    (pacing env spider;; cookie_injection env req;; navigation env req).
Proof.
  unfold pacing, cookie_injection, navigation.
  keeps_auto ltac:(reflexivity).
Qed.

Lemma before_wait_same_sessions env (spider : Spider) (req : Request) :
  keeps same_sessions
    (pacing env spider;; cookie_injection env req;; navigation env req).
Proof.
  unfold pacing, cookie_injection, navigation.
  keeps_auto ltac:(apply same_sessions_log).
Qed.

(** ** C4: requests that are not browser-fetch requests *)

(** C4.  For a request that is not a [SeleniumRequest], [process_request]
    returns [None] and leaves the whole state as it was: no call is added
    to the trace (no sleep, no cookie, no navigation, no script, no
    extraction), and neither the sessions nor the request change. *)
Theorem process_request_passes_plain_requests
    env (request : ref) (spider : Spider) (st : State) (req : Request) :
  objects st !! request = Some req ->
  is_selenium req = false ->
  process_request env request spider st = (Ok None, st).
Proof.
  intros Hreq Hplain. unfold process_request.
  rewrite bind_run. unfold deref. rewrite Hreq, Hplain. reflexivity.
Qed.

(** ** C6: [spider_closed] *)

Lemma spider_closed_run env (st : State) (d : sid) :
  driver (self st) = Some d ->
  spider_closed env st =
  match raises env (trace st) (Quit d) with
  | Some e => (Raise e, log (Quit d) st)
  | None => (Ok tt, update_session d mark_dead (log (Quit d) st))
  end.
Proof.
  intros Hd. unfold spider_closed, driver_quit, call.
  rewrite bind_run, (self_driver_run _ _ Hd), bind_run, call_with_run.
  destruct (raises env (trace st) (Quit d)); reflexivity.
Qed.

(** Without a [driver] attribute, [spider_closed] raises. *)
Lemma spider_closed_without_driver env (st : State) :
  driver (self st) = None ->
  spider_closed env st = (Raise (AttributeError "driver"), st).
Proof.
  intros Hd. unfold spider_closed. rewrite bind_run. unfold self_driver.
  by rewrite Hd.
Qed.

Lemma mark_dead_dead (s : Session) : alive s = false -> mark_dead s = s.
Proof. destruct s; simpl; intros ->; reflexivity. Qed.

Lemma update_session_alive (d : sid) (f : Session -> Session) (st : State) (i : sid) :
  is_alive (update_session d f st) i =
  if bool_decide (i = d) then
    match sessions st !! d with
    | Some s => alive (f s)
    | None => false
    end
  else is_alive st i.
Proof.
  unfold update_session, is_alive.
  destruct (sessions st !! d) as [s|] eqn:Hs; simpl.
  - case_bool_decide as Hi.
    + subst i. rewrite list_lookup_insert_eq; [done|]. by eapply lookup_lt_Some.
    + by rewrite list_lookup_insert_ne.
  - case_bool_decide as Hi; [subst i; by rewrite Hs | done].
Qed.

Lemma mark_dead_again (d : sid) (st : State) :
  is_alive st d = false -> update_session d mark_dead st = st.
Proof.
  unfold is_alive, update_session. destruct (sessions st !! d) as [s|] eqn:Hs; [|done].
  intros Hdead. rewrite (mark_dead_dead _ Hdead), list_insert_id by done.
  by destruct st.
Qed.

(** C6, as the code has it.  [spider_closed] calls [quit()] on the driver
    each time it is called.  After a first call that returned, the driver
    is no longer alive, and a second call in a row calls [quit()] again on
    that same driver: it raises what that [quit()] raises, and it returns
    without error, leaving the sessions as they were, exactly when that
    [quit()] does not raise. *)
Theorem spider_closed_twice env (st st1 : State) :
  spider_closed env st = (Ok tt, st1) ->
  exists d,
    driver (self st) = Some d /\
    is_alive st1 d = false /\
    spider_closed env st1 =
    match raises env (trace st1) (Quit d) with
    | Some e => (Raise e, log (Quit d) st1)
    | None => (Ok tt, log (Quit d) st1)
    end.
Proof.
  intros Hfirst. destruct (driver (self st)) as [d|] eqn:Hd.
  - exists d. split; [done|].
    rewrite (spider_closed_run _ _ _ Hd) in Hfirst.
    destruct (raises env (trace st) (Quit d)); [done|].
    injection Hfirst as <-.
    assert (Hdead : is_alive (update_session d mark_dead (log (Quit d) st)) d = false).
    { rewrite update_session_alive, bool_decide_eq_true_2 by done.
      by destruct (sessions (log (Quit d) st) !! d). }
    split; [done|].
    rewrite (spider_closed_run _ _ d).
    + destruct (raises env _ (Quit d)); [done|].
      f_equal. apply (mark_dead_again d (log (Quit d) _)).
      rewrite <- Hdead. unfold is_alive. reflexivity.
    + unfold update_session. simpl. by destruct (sessions st !! d).
  - by rewrite spider_closed_without_driver in Hfirst.
Qed.

Lemma spider_closed_twice_witness :
  spider_closed strict_quit_env (live_state strict_quit_env) =
    (Ok tt, (spider_closed strict_quit_env (live_state strict_quit_env)).2) /\
  exists d,
    driver (self (live_state strict_quit_env)) = Some d /\
    is_alive (spider_closed strict_quit_env (live_state strict_quit_env)).2 d = false /\
    spider_closed strict_quit_env
      (spider_closed strict_quit_env (live_state strict_quit_env)).2 =
    match raises strict_quit_env
            (trace (spider_closed strict_quit_env (live_state strict_quit_env)).2)
            (Quit d) with
    | Some e =>
        (Raise e,
         log (Quit d) (spider_closed strict_quit_env (live_state strict_quit_env)).2)
    | None =>
        (Ok tt,
         log (Quit d) (spider_closed strict_quit_env (live_state strict_quit_env)).2)
    end.
Proof.
  split; [vm_compute; reflexivity|].
  apply (spider_closed_twice strict_quit_env (live_state strict_quit_env)).
  vm_compute; reflexivity.
Defined.

(** C6, as the spec has it, fails: with a backend whose [quit()] raises on
    a driver that was quit before, the first [spider_closed] returns and
    the second one raises. *)
Lemma spider_closed_twice_counterexample :
  (spider_closed strict_quit_env (live_state strict_quit_env)).1 = Ok tt /\
  (spider_closed strict_quit_env
     (spider_closed strict_quit_env (live_state strict_quit_env)).2).1
  = Raise (LibraryError "invalid session id").
Proof. split; vm_compute; reflexivity. Qed.

(** ** [replace_driver], step by step *)

Lemma replace_driver_steps env (st : State) :
  replace_driver env st =
  (old_driver_cleanup env;; driver_creation env;; hook_installation) st.
Proof.
  unfold replace_driver, old_driver_cleanup, driver_creation, hook_installation.
  rewrite !bind_run. simpl.
  destruct (driver (self st)); [|reflexivity].
  rewrite !bind_run.
  destruct (self_driver st) as [[d|e] st1]; [|reflexivity].
  destruct (call env (DeleteAllCookies d) st1) as [[[]|e] st2]; [|reflexivity].
  rewrite !bind_run.
  destruct (self_driver st2) as [[d'|e] st3]; [|reflexivity].
  destruct (driver_quit env d' st3) as [[[]|e] st4]; reflexivity.
Qed.

(** The cleanup of the old driver, case by case. *)
Lemma old_driver_cleanup_run env (st : State) :
  old_driver_cleanup env st =
  match driver (self st) with
  | None => (Ok tt, st)
  | Some d =>
      match raises env (trace st) (DeleteAllCookies d) with
      | Some e => (Raise e, log (DeleteAllCookies d) st)
      | None =>
          match raises env (trace st ++ [DeleteAllCookies d]) (Quit d) with
          | Some e => (Raise e, log (Quit d) (log (DeleteAllCookies d) st))
          | None =>
              (Ok tt,
               update_session d mark_dead
                 (log (Quit d) (log (DeleteAllCookies d) st)))
          end
      end
  end.
Proof.
  unfold old_driver_cleanup. rewrite bind_run. simpl.
  destruct (driver (self st)) as [d|] eqn:Hd; [|reflexivity].
  rewrite !bind_run, (self_driver_run _ _ Hd). unfold call.
  rewrite call_with_run.
  destruct (raises env (trace st) (DeleteAllCookies d)); [reflexivity|].
  rewrite bind_run, (self_driver_run _ d) by done.
  unfold driver_quit, call. rewrite bind_run, call_with_run. simpl.
  destruct (raises env (trace st ++ [DeleteAllCookies d]) (Quit d)); reflexivity.
Qed.

(** ** C2: failures while the old driver is cleaned up *)

(** C2, as the code has it.  When [replace_driver] is called while the
    middleware has a driver and the cookie purge or the termination of that
    old driver raises, the exception reaches the caller of
    [replace_driver], no new session is created, and the middleware keeps
    its old driver, whose sessions are as they were. *)
Theorem replace_driver_cleanup_failure_propagates
    env (st : State) (d : sid) (e : exn) :
  driver (self st) = Some d ->
  raises env (trace st) (DeleteAllCookies d) = Some e \/
  (raises env (trace st) (DeleteAllCookies d) = None /\
   raises env (trace st ++ [DeleteAllCookies d]) (Quit d) = Some e) ->
  (replace_driver env st).1 = Raise e /\
  same_sessions st (replace_driver env st).2 /\
  forallb (fun c => match c with NewWebDriver _ => false | _ => true end)
    (drop (length (trace st)) (trace (replace_driver env st).2)) = true.
Proof.
  intros Hd Hfail. rewrite replace_driver_steps, bind_run, old_driver_cleanup_run, Hd.
  destruct Hfail as [Hp | [Hp Hq]]; rewrite Hp; [|rewrite Hq]; simpl.
  - repeat split. by rewrite drop_app_length.
  - repeat split. rewrite <- app_assoc. by rewrite drop_app_length.
Qed.

Lemma replace_driver_cleanup_failure_witness :
  (driver (self (live_state failing_purge_env)) = Some 0%nat /\
   (raises failing_purge_env (trace (live_state failing_purge_env))
      (DeleteAllCookies 0) = Some (LibraryError "unable to delete cookies") \/
    (raises failing_purge_env (trace (live_state failing_purge_env))
       (DeleteAllCookies 0) = None /\
     raises failing_purge_env
       (trace (live_state failing_purge_env) ++ [DeleteAllCookies 0])
       (Quit 0) = Some (LibraryError "unable to delete cookies")))) /\
  (replace_driver failing_purge_env (live_state failing_purge_env)).1
    = Raise (LibraryError "unable to delete cookies") /\
  same_sessions (live_state failing_purge_env)
    (replace_driver failing_purge_env (live_state failing_purge_env)).2 /\
  forallb (fun c => match c with NewWebDriver _ => false | _ => true end)
    (drop (length (trace (live_state failing_purge_env)))
       (trace (replace_driver failing_purge_env (live_state failing_purge_env)).2))
  = true.
Proof.
  assert (H1 : driver (self (live_state failing_purge_env)) = Some 0%nat)
    by (vm_compute; reflexivity).
  assert (H2 : raises failing_purge_env (trace (live_state failing_purge_env))
      (DeleteAllCookies 0) = Some (LibraryError "unable to delete cookies"))
    by (vm_compute; reflexivity).
  split; [split; [exact H1 | left; exact H2]|].
  apply (replace_driver_cleanup_failure_propagates failing_purge_env
           (live_state failing_purge_env) 0%nat
           (LibraryError "unable to delete cookies") H1 (or_introl H2)).
Defined.

(** C2, as the spec has it, fails: with a backend whose
    [delete_all_cookies()] raises, [replace_driver] on a middleware with a
    live driver raises that exception and creates no session: the old one
    stays the only one, alive. *)
Lemma replace_driver_swallow_counterexample :
  (replace_driver failing_purge_env (live_state failing_purge_env)).1
    = Raise (LibraryError "unable to delete cookies") /\
  length (sessions (replace_driver failing_purge_env (live_state failing_purge_env)).2)
    = 1%nat /\
  is_alive (replace_driver failing_purge_env (live_state failing_purge_env)).2 0 = true.
Proof. repeat split; vm_compute; reflexivity. Qed.

(** ** C1: configuration and creation *)

Lemma new_webdriver_run env (how : DriverSource) (st : State) :
  new_webdriver env how st =
  match raises env (trace st) (NewWebDriver how) with
  | Some e => (Raise e, log (NewWebDriver how) st)
  | None =>
      (Ok (length (sessions st)),
       with_sessions (sessions st ++ [fresh_session]) (log (NewWebDriver how) st))
  end.
Proof.
  unfold new_webdriver, call. rewrite bind_run, call_with_run.
  destruct (raises env (trace st) (NewWebDriver how)); reflexivity.
Qed.

(** With neither path configured, [from_crawler] raises [NotConfigured]
    before any call is issued and any session is created. *)
Lemma from_crawler_not_configured env (crawler : Spider) (st : State) :
  SELENIUM_DRIVER_EXECUTABLE_PATH (settings crawler) = None ->
  SELENIUM_COMMAND_EXECUTOR (settings crawler) = None ->
  exists msg, from_crawler env crawler st = (Raise (NotConfigured msg), st).
Proof.
  intros Hp Hc. unfold from_crawler. rewrite Hp, Hc.
  destruct (SELENIUM_DRIVER_NAME (settings crawler)); simpl; eauto.
Qed.

(** The remote branch of [replace_driver] reads the attribute
    [_driver_name_options], which the middleware does not have. *)
Lemma driver_creation_remote_raises env (st : State) (command_executor : string) :
  executable_path (_driver_kwargs (self st)) = None ->
  _command_executor (self st) = Some command_executor ->
  driver_creation env st = (Raise (AttributeError "_driver_name_options"), st).
Proof.
  intros Hp Hc. unfold driver_creation. rewrite bind_run. simpl.
  rewrite Hp, Hc, bind_run. unfold format_self_attr, middleware_attrs.
  destruct (driver (self st)); reflexivity.
Qed.

(** C1, on the code.  When only the remote endpoint is configured
    ([executable_path] is [None], [command_executor] is set),
    [replace_driver], called by [__init__] on the new middleware, raises
    [AttributeError] and leaves the state as it was: no call is issued and
    no session is created. *)
Theorem replace_driver_remote_only_raises
    env (st : State) (command_executor : string) :
  executable_path (_driver_kwargs (self st)) = None ->
  _command_executor (self st) = Some command_executor ->
  driver (self st) = None ->
  replace_driver env st = (Raise (AttributeError "_driver_name_options"), st).
Proof.
  intros Hp Hc Hd.
  rewrite replace_driver_steps, bind_run, old_driver_cleanup_run, Hd, bind_run.
  by rewrite (driver_creation_remote_raises _ _ _ Hp Hc).
Qed.

Lemma replace_driver_remote_only_witness :
  (executable_path (_driver_kwargs (self remote_state)) = None /\
   _command_executor (self remote_state) = Some "http://localhost:4444/wd/hub"%string /\
   driver (self remote_state) = None) /\
  replace_driver quiet_env remote_state
  = (Raise (AttributeError "_driver_name_options"), remote_state).
Proof.
  split; [repeat split|].
  apply (replace_driver_remote_only_raises quiet_env remote_state
           "http://localhost:4444/wd/hub"); reflexivity.
Defined.

(** The same through [from_crawler], on settings that name the chrome
    driver and a remote endpoint only: no middleware, no session. *)
Lemma from_crawler_remote_only_raises :
  (from_crawler quiet_env {| settings := remote_settings |} (initial [])).1
    = Raise (AttributeError "_driver_name_options") /\
  sessions (from_crawler quiet_env {| settings := remote_settings |} (initial [])).2
    = [].
Proof. split; vm_compute; reflexivity. Qed.

(** ** C3: one session at a time *)

#[global] Instance carries_invariant_preorder : PreOrder carries_invariant.
Proof. split; unfold carries_invariant; [intros st | intros a b c]; tauto. Qed.

#[global] Instance dead_stay_dead_preorder : PreOrder dead_stay_dead.
Proof.
  split.
  - intros st. split; [lia | tauto].
  - intros a b c [L1 D1] [L2 D2]. split; [lia|].
    intros i Hi Hdead. apply D2; [lia|]. by apply D1.
Qed.

Lemma single_session_same (st st' : State) :
  same_sessions st st' -> single_session st -> single_session st'.
Proof.
  intros [Hself Hsess] [Hr Ho]. split.
  - intros d. rewrite Hself, Hsess. apply Hr.
  - intros i. unfold is_alive. rewrite Hself, Hsess. apply Ho.
Qed.

Lemma all_dead_single_session (st : State) :
  all_dead st -> driver_in_range st -> single_session st.
Proof. intros Hd Hr. split; [done|]. intros i Hi. by rewrite Hd in Hi. Qed.

Lemma update_session_self (d : sid) (f : Session -> Session) (st : State) :
  self (update_session d f st) = self st.
Proof. unfold update_session. by destruct (sessions st !! d). Qed.

Lemma update_session_length (d : sid) (f : Session -> Session) (st : State) :
  length (sessions (update_session d f st)) = length (sessions st).
Proof.
  unfold update_session. destruct (sessions st !! d); [|done].
  simpl. by rewrite length_insert.
Qed.

(** An update that revives no session keeps what is dead dead. *)
Lemma update_session_no_revival (d : sid) (f : Session -> Session) (st : State) (i : sid) :
  (forall s, alive (f s) = true -> alive s = true) ->
  is_alive (update_session d f st) i = true -> is_alive st i = true.
Proof.
  intros Hf. rewrite update_session_alive. case_bool_decide as Hi; [|done].
  subst i. unfold is_alive. destruct (sessions st !! d); [apply Hf | done].
Qed.

Lemma update_session_single (d : sid) (f : Session -> Session) (st : State) :
  (forall s, alive (f s) = true -> alive s = true) ->
  single_session st -> single_session (update_session d f st).
Proof.
  intros Hf [Hr Ho]. split.
  - intros d'. rewrite update_session_self, update_session_length. apply Hr.
  - intros i Hi. rewrite update_session_self. apply Ho.
    by eapply update_session_no_revival.
Qed.

Lemma update_session_dead (d : sid) (f : Session -> Session) (st : State) :
  (forall s, alive (f s) = true -> alive s = true) ->
  dead_stay_dead st (update_session d f st).
Proof.
  intros Hf. split; [by rewrite update_session_length|].
  intros i _ Hdead. destruct (is_alive (update_session d f st) i) eqn:Hi; [|done].
  apply update_session_no_revival in Hi; [congruence | done].
Qed.

Lemma single_session_log (c : Call) (st : State) :
  single_session st -> single_session (log c st).
Proof. apply single_session_same, same_sessions_log. Qed.

Lemma dead_stay_dead_same (st st' : State) :
  sessions st' = sessions st -> dead_stay_dead st st'.
Proof.
  intros Hs. split; [by rewrite Hs|]. intros i _. unfold is_alive. by rewrite Hs.
Qed.

(** At most one session is alive where the invariant holds. *)
Lemma owns_live_at_most_one (st : State) :
  owns_live st -> length (live_sessions st) <= 1.
Proof.
  intros Ho.
  assert (Hnd : NoDup (live_sessions st)).
  { unfold live_sessions. apply NoDup_filter, NoDup_seq. }
  assert (Hin : forall i, i ∈ live_sessions st -> driver (self st) = Some i).
  { intros i Hi. apply Ho. unfold live_sessions in Hi.
    by apply list_elem_of_filter in Hi as [Hi _]. }
  destruct (live_sessions st) as [|a [|b l]]; simpl; [lia | lia |].
  exfalso. assert (a = b).
  { assert (Ha := Hin a ltac:(set_solver)). assert (Hb := Hin b ltac:(set_solver)).
    congruence. }
  subst b. apply NoDup_cons in Hnd as [Hnd _]. set_solver.
Qed.

Lemma not_alive_false (st : State) (i : sid) :
  ~ is_alive st i = true -> is_alive st i = false.
Proof. by destruct (is_alive st i). Qed.

(** After a cleanup that returned, no session is alive; after one that
    raised, the invariant still holds. *)
Lemma old_driver_cleanup_invariant env (st : State) :
  single_session st ->
  match old_driver_cleanup env st with
  | (Ok _, st') =>
      all_dead st' /\ driver_in_range st' /\ self st' = self st /\
      length (sessions st') = length (sessions st)
  | (Raise _, st') => single_session st'
  end.
Proof.
  intros Hinv. rewrite old_driver_cleanup_run.
  destruct (driver (self st)) as [d|] eqn:Hd.
  - destruct (raises env (trace st) (DeleteAllCookies d)).
    { by apply single_session_log. }
    destruct (raises env (trace st ++ [DeleteAllCookies d]) (Quit d)).
    { by do 2 apply single_session_log. }
    destruct Hinv as [Hr Ho].
    rewrite update_session_self, update_session_length. simpl.
    split; [|split; [|done]].
    + intros i. rewrite update_session_alive. case_bool_decide as Hi.
      * by destruct (sessions _ !! d).
      * apply not_alive_false. intros Hlive. apply Ho in Hlive. congruence.
    + intros d'. rewrite update_session_self, update_session_length. apply Hr.
  - destruct Hinv as [Hr Ho]. split; [|done].
    intros i. apply not_alive_false. intros Hlive. apply Ho in Hlive. congruence.
Qed.

Lemma no_revival_single_pool (s : Session) :
  alive (mark_single_pool s) = true -> alive s = true.
Proof. done. Qed.

Lemma no_revival_replace_driver (s : Session) :
  alive (mark_replace_driver s) = true -> alive s = true.
Proof. done. Qed.

Lemma no_revival_dead (s : Session) :
  alive (mark_dead s) = true -> alive s = true.
Proof. done. Qed.

Lemma carries_invariant_log (c : Call) (st : State) :
  carries_invariant st (log c st).
Proof. intros H. by apply single_session_log. Qed.

Lemma carries_invariant_update (d : sid) (f : Session -> Session) (st : State) :
  (forall s, alive (f s) = true -> alive s = true) ->
  carries_invariant st (update_session d f st).
Proof. intros Hf H. by apply update_session_single. Qed.

Ltac invariant_leaf :=
  first [ apply carries_invariant_log
        | apply carries_invariant_update; first
            [ apply no_revival_single_pool | apply no_revival_replace_driver
            | apply no_revival_dead ] ].

(** The new driver is the only session alive once it is stored in
    [self.driver]. *)
Lemma new_driver_single_session (c : Call) (st : State) :
  all_dead st ->
  single_session
    (with_self (set_driver (length (sessions st)) (self (log c st)))
       (with_sessions (sessions st ++ [fresh_session]) (log c st))).
Proof.
  intros Hdead. split.
  - intros d. simpl. intros [= <-]. rewrite length_app. simpl. lia.
  - intros i. unfold is_alive. simpl. intros Hi.
    destruct (decide (i < length (sessions st))) as [Hlt|Hge].
    + rewrite lookup_app_l in Hi by done.
      specialize (Hdead i). by pose proof (eq_trans (eq_sym Hi) Hdead).
    + destruct (decide (i = length (sessions st))) as [->|Hne]; [done|].
      rewrite lookup_ge_None_2 in Hi; [done|]. rewrite length_app. simpl. lia.
Qed.

Lemma driver_creation_invariant env (st : State) :
  all_dead st -> driver_in_range st -> single_session (driver_creation env st).2.
Proof.
  intros Hdead Hr. unfold driver_creation. rewrite bind_run. simpl.
  destruct (executable_path (_driver_kwargs (self st))).
  - rewrite bind_run, new_webdriver_run.
    destruct (raises env (trace st) _).
    { simpl. apply single_session_log. by apply all_dead_single_session. }
    rewrite bind_run. simpl.
    match goal with
    | |- single_session (?m ?s).2 =>
        assert (Htail : keeps carries_invariant m)
          by (keeps_auto invariant_leaf);
        apply (Htail s)
    end.
    by apply new_driver_single_session.
  - destruct (_command_executor (self st)) as [ce|].
    + rewrite bind_run. unfold format_self_attr, middleware_attrs.
      destruct (driver (self st)); simpl; by apply all_dead_single_session.
    + simpl. by apply all_dead_single_session.
Qed.

Lemma hook_installation_invariant : keeps carries_invariant hook_installation.
Proof. unfold hook_installation. keeps_auto invariant_leaf. Qed.

(** [replace_driver] keeps the invariant, whether it returns or raises. *)
Lemma replace_driver_invariant env (st : State) :
  single_session st -> single_session (replace_driver env st).2.
Proof.
  intros Hinv. rewrite replace_driver_steps, bind_run.
  pose proof (old_driver_cleanup_invariant env st Hinv) as Hclean.
  destruct (old_driver_cleanup env st) as [[[]|e] st1]; [|done].
  destruct Hclean as (Hdead & Hr & _ & _).
  rewrite bind_run.
  pose proof (driver_creation_invariant env st1 Hdead Hr) as Hcreate.
  destruct (driver_creation env st1) as [[[]|e] st2]; [|done].
  by apply hook_installation_invariant.
Qed.

Lemma spider_closed_invariant env (st : State) :
  single_session st -> single_session (spider_closed env st).2.
Proof.
  intros Hinv. destruct (driver (self st)) as [d|] eqn:Hd.
  - rewrite (spider_closed_run _ _ _ Hd).
    destruct (raises env (trace st) (Quit d)); simpl.
    + by apply single_session_log.
    + apply update_session_single; [done|]. by apply single_session_log.
  - by rewrite spider_closed_without_driver.
Qed.

Lemma replace_driver_keeps_invariant env :
  keeps carries_invariant (replace_driver env).
Proof. intros st H. by apply replace_driver_invariant. Qed.

(** The invariant looks at the [driver] attribute and the sessions only. *)
Lemma carries_invariant_driver (st st' : State) :
  driver (self st') = driver (self st) -> sessions st' = sessions st ->
  carries_invariant st st'.
Proof.
  intros Hd Hs [Hr Ho]. split.
  - intros d. rewrite Hd, Hs. apply Hr.
  - intros i. unfold is_alive. rewrite Hd, Hs. apply Ho.
Qed.

(** The state in which a middleware has just been created, or has failed
    to be, satisfies the invariant. *)
Lemma from_crawler_invariant env (crawler : Spider) (objs : list Request) :
  single_session (from_crawler env crawler (initial objs)).2.
Proof.
  assert (Hinit : forall st, sessions st = [] -> driver (self st) = None ->
                             single_session st).
  { intros st Hs Hd. split.
    - intros d. by rewrite Hd.
    - intros i. unfold is_alive. by rewrite Hs. }
  unfold from_crawler.
  destruct (SELENIUM_DRIVER_NAME (settings crawler)) as [name|]; [|by apply Hinit].
  destruct (is_None _ && is_None _); [by apply Hinit|].
  rewrite bind_run. simpl.
  match goal with
  | |- single_session (?m ?s).2 =>
      assert (Hrest : keeps carries_invariant m); [|apply (Hrest s); by apply Hinit]
  end.
  unfold __init__.
  repeat first
    [ apply replace_driver_keeps_invariant
    | keeps_step
    | keeps_leaf ltac:(first [invariant_leaf
                             | apply carries_invariant_driver; reflexivity]) ].
Qed.

Lemma reachable_single_session env (st : State) :
  reachable env st -> single_session st.
Proof.
  induction 1 as [crawler objs | st st' _ IH Hstep].
  - apply from_crawler_invariant.
  - destruct Hstep.
    + by apply replace_driver_invariant.
    + eapply single_session_same; [apply process_request_same_sessions | done].
    + by apply spider_closed_invariant.
    + eapply single_session_same; [|done]. by split.
Qed.

Lemma keeps_format_self_attr (R : State -> State -> Prop) `{!PreOrder R}
    (name : string) :
  keeps R (format_self_attr name).
Proof.
  intros st. unfold format_self_attr.
  destruct (bool_decide _); [destruct (String.eqb _ _)|]; simpl; reflexivity.
Qed.

Lemma new_webdriver_dead_stay_dead env (how : DriverSource) :
  keeps dead_stay_dead (new_webdriver env how).
Proof.
  intros st. rewrite new_webdriver_run.
  destruct (raises env (trace st) (NewWebDriver how)); simpl.
  - by apply dead_stay_dead_same.
  - split; simpl; [rewrite length_app; lia|].
    intros i Hi. unfold is_alive. simpl. by rewrite lookup_app_l.
Qed.

Ltac dead_leaf :=
  first [ apply dead_stay_dead_same; reflexivity
        | apply update_session_dead; first
            [ apply no_revival_single_pool | apply no_revival_replace_driver
            | apply no_revival_dead ] ].

Lemma driver_creation_dead_stay_dead env : keeps dead_stay_dead (driver_creation env).
Proof.
  unfold driver_creation, kwargs_capabilities.
  repeat first
    [ apply new_webdriver_dead_stay_dead
    | apply keeps_format_self_attr; tc_solve
    | keeps_step | keeps_leaf dead_leaf ].
Qed.

Lemma hook_installation_dead_stay_dead : keeps dead_stay_dead hook_installation.
Proof. unfold hook_installation. keeps_auto dead_leaf. Qed.

Lemma hook_installation_result (st st' : State) (d : sid) :
  hook_installation st = (Ok d, st') -> driver (self st') = Some d.
Proof.
  unfold hook_installation. rewrite !bind_run. unfold self_driver at 1.
  destruct (driver (self st)) as [d0|] eqn:Hd; [|done]. simpl.
  unfold self_driver. rewrite update_session_self, Hd.
  intros [= <- <-]. by rewrite update_session_self.
Qed.

Lemma replace_driver_result env (st st' : State) (d : sid) :
  replace_driver env st = (Ok d, st') -> driver (self st') = Some d.
Proof.
  rewrite replace_driver_steps, bind_run.
  destruct (old_driver_cleanup env st) as [[[]|e] st1]; [|done].
  rewrite bind_run.
  destruct (driver_creation env st1) as [[[]|e] st2]; [|done].
  apply hook_installation_result.
Qed.

(** After a second [replace_driver] that returned, the driver the
    middleware held before it is not alive. *)
Lemma replace_driver_old_dead env (st st' : State) (d d' : sid) :
  single_session st ->
  driver (self st) = Some d ->
  replace_driver env st = (Ok d', st') ->
  is_alive st' d = false.
Proof.
  intros Hinv Hd. rewrite replace_driver_steps, bind_run.
  pose proof (old_driver_cleanup_invariant env st Hinv) as Hclean.
  destruct (old_driver_cleanup env st) as [[[]|e] st1]; [|done].
  destruct Hclean as (Hdead & _ & _ & Hlen).
  rewrite bind_run.
  pose proof (driver_creation_dead_stay_dead env st1) as [Hlen2 Hcreate].
  destruct (driver_creation env st1) as [[[]|e] st2]; [|done].
  simpl in *. intros Hhook.
  pose proof (hook_installation_dead_stay_dead st2) as [_ Hh].
  rewrite Hhook in Hh. simpl in Hh.
  assert (Hin : d < length (sessions st)) by (by apply Hinv).
  apply Hh; [lia|]. apply Hcreate; [lia|]. apply Hdead.
Qed.

(** C3.  In every state the session manager can reach, at most one
    session is alive; in particular, when [replace_driver] returns twice in
    a row, the session returned by the first call is no longer alive once
    the second call has returned. *)
Theorem at_most_one_live_session env (st : State) :
  reachable env st ->
  length (live_sessions st) <= 1 /\
  forall s1 st1 s2 st2,
    replace_driver env st = (Ok s1, st1) ->
    replace_driver env st1 = (Ok s2, st2) ->
    is_alive st2 s1 = false.
Proof.
  intros Hreach. pose proof (reachable_single_session _ _ Hreach) as Hinv.
  split.
  - apply owns_live_at_most_one, Hinv.
  - intros s1 st1 s2 st2 H1 H2.
    eapply (replace_driver_old_dead env st1); [| |exact H2].
    + pose proof (replace_driver_invariant env st Hinv) as H. by rewrite H1 in H.
    + by eapply replace_driver_result.
Qed.

Lemma at_most_one_live_session_witness :
  reachable quiet_env (live_state quiet_env) /\
  length (live_sessions (live_state quiet_env)) <= 1 /\
  forall s1 st1 s2 st2,
    replace_driver quiet_env (live_state quiet_env) = (Ok s1, st1) ->
    replace_driver quiet_env st1 = (Ok s2, st2) ->
    is_alive st2 s1 = false.
Proof.
  assert (H : reachable quiet_env (live_state quiet_env)) by constructor.
  split; [exact H|].
  apply (at_most_one_live_session quiet_env (live_state quiet_env) H).
Defined.

(** Two replacements in a row on the example: the first session is dead,
    the second one is the only one alive. *)
Example replace_driver_twice_example :
  let st1 := (replace_driver quiet_env (live_state quiet_env)).2 in
  let st2 := (replace_driver quiet_env st1).2 in
  (replace_driver quiet_env (live_state quiet_env)).1 = Ok 1%nat /\
  (replace_driver quiet_env st1).1 = Ok 2%nat /\
  is_alive st2 1 = false /\ live_sessions st2 = [2%nat].
Proof. repeat split; vm_compute; reflexivity. Qed.


(** ** The steps of [process_request], run *)

Lemma deref_run (request : ref) (st : State) (req : Request) :
  objects st !! request = Some req -> deref request st = (Ok req, st).
Proof. intros H. unfold deref. by rewrite H. Qed.

Lemma waiting_same_objects env (req : Request) :
  keeps same_objects (waiting env req).
Proof. unfold waiting. keeps_auto ltac:(reflexivity). Qed.

Lemma script_execution_same_objects env (req : Request) :
  keeps same_objects (script_execution env req).
Proof. unfold script_execution. keeps_auto ltac:(reflexivity). Qed.

(** A browser-fetch request goes through the seven steps. *)
Lemma process_request_selenium env (request : ref) (spider : Spider)
    (st : State) (req : Request) :
  objects st !! request = Some req ->
  is_selenium req = true ->
  process_request env request spider st =
  (pacing env spider;;
   cookie_injection env req;;
   navigation env req;;
   waiting env req;;
   screenshot_capture env request req;;
   script_execution env req;;
   extraction env request) st.
Proof.
  intros Hreq Hsel. rewrite process_request_steps, bind_run.
  rewrite (deref_run _ _ _ Hreq), Hsel. reflexivity.
Qed.

(** A request that gets a response is a browser-fetch request. *)
Lemma process_request_response env (request : ref) (spider : Spider)
    (st st' : State) (resp : HtmlResponse) :
  process_request env request spider st = (Ok (Some resp), st') ->
  exists req, objects st !! request = Some req /\ is_selenium req = true.
Proof.
  rewrite process_request_steps, bind_run. unfold deref.
  destruct (objects st !! request) as [req|]; [|done].
  destruct (is_selenium req) eqn:Hsel; [eauto | done].
Qed.

Lemma waiting_run env (req : Request) (st : State) (d : sid) :
  driver (self st) = Some d ->
  waiting env req st =
  match wait_until req with
  | Some method =>
      match raises env (trace st) (WaitUntil d (wait_time req) method) with
      | Some e => (Raise e, log (WaitUntil d (wait_time req) method) st)
      | None => (Ok tt, log (WaitUntil d (wait_time req) method) st)
      end
  | None => (Ok tt, st)
  end.
Proof.
  intros Hd. unfold waiting. destruct (wait_until req) as [method|]; [|done].
  unfold call. rewrite bind_run, (self_driver_run _ _ Hd), call_with_run.
  by destruct (raises env _ _).
Qed.

Lemma screenshot_capture_objects env (request : ref) (req : Request) (st st' : State) :
  screenshot_capture env request req st = (Ok tt, st') ->
  exists png,
    objects st' =
    if screenshot req
    then alter (set_meta "screenshot" (MetaBytes png)) request (objects st)
    else objects st.
Proof.
  unfold screenshot_capture. destruct (screenshot req).
  - rewrite bind_run. unfold self_driver.
    destruct (driver (self st)) as [d|]; [|done].
    rewrite bind_run, call_with_run.
    destruct (raises env _ _); [done|]. simpl. intros [= <-]. eauto.
  - intros [= <-]. by exists [].
Qed.

Lemma extraction_run env (request : ref) (st st' : State) (resp : HtmlResponse) :
  extraction env request st = (Ok (Some resp), st') ->
  exists d,
    driver (self st) = Some d /\
    utf8 (page_source_text env (trace st) d) = Some (resp_body resp) /\
    resp_url resp = current_url_text env (trace st ++ [PageSource d]) d /\
    resp_encoding resp = "utf-8"%string /\
    resp_request resp = request /\
    st' = log (CurrentUrl d)
            (with_objects
               (alter (set_meta "driver" (MetaDriver d)) request (objects st))
               (log (PageSource d) st)).
Proof.
  unfold extraction. rewrite !bind_run. unfold self_driver at 1.
  destruct (driver (self st)) as [d|] eqn:Hd; [|done].
  rewrite call_with_run. destruct (raises env (trace st) (PageSource d)); [done|].
  rewrite bind_run. unfold str_encode.
  destruct (utf8 (page_source_text env (trace st) d)) as [body|] eqn:Hbody;
    [|by unfold raise].
  rewrite ret_run, !bind_run. unfold self_driver. simpl. rewrite Hd. simpl.
  rewrite !bind_run. simpl. rewrite Hd, call_with_run. simpl.
  destruct (raises env (trace st ++ [PageSource d]) (CurrentUrl d)); [done|].
  intros [= <- <-]. exists d. by repeat split.
Qed.

(** A run of [process_request] that gives a response, cut at the steps. *)
Lemma process_request_success env (request : ref) (spider : Spider)
    (st st' : State) (resp : HtmlResponse) :
  process_request env request spider st = (Ok (Some resp), st') ->
  exists req st3 st4 st5 st6,
    objects st !! request = Some req /\
    is_selenium req = true /\
    (pacing env spider;; cookie_injection env req;; navigation env req) st
      = (Ok tt, st3) /\
    waiting env req st3 = (Ok tt, st4) /\
    screenshot_capture env request req st4 = (Ok tt, st5) /\
    script_execution env req st5 = (Ok tt, st6) /\
    extraction env request st6 = (Ok (Some resp), st').
Proof.
  intros Hrun.
  destruct (process_request_response _ _ _ _ _ _ Hrun) as (req & Hreq & Hsel).
  rewrite (process_request_selenium _ _ _ _ _ Hreq Hsel) in Hrun.
  exists req. rewrite !bind_run in Hrun. rewrite !bind_run.
  destruct (pacing env spider st) as [[[]|?] st1]; [|done].
  rewrite !bind_run in Hrun. rewrite !bind_run.
  destruct (cookie_injection env req st1) as [[[]|?] st2]; [|done].
  rewrite !bind_run in Hrun.
  destruct (navigation env req st2) as [[[]|?] st3]; [|done].
  rewrite !bind_run in Hrun.
  destruct (waiting env req st3) as [[[]|?] st4] eqn:H4; [|done].
  rewrite !bind_run in Hrun.
  destruct (screenshot_capture env request req st4) as [[[]|?] st5] eqn:H5; [|done].
  rewrite !bind_run in Hrun.
  destruct (script_execution env req st5) as [[[]|?] st6] eqn:H6; [|done].
  exists st3, st4, st5, st6. by repeat split.
Qed.

(** ** C5: a wait that times out *)

(** C5.  For a browser-fetch request with a wait condition: when the
    steps before the wait have gone through and the wait raises
    [TimeoutException] (the condition is unmet within [wait_time]),
    [process_request] raises [TimeoutException], and the middleware and its
    sessions are as they were before the request: the session is neither
    quit nor replaced, and it is alive if it was. *)
Theorem wait_timeout_keeps_session
    env (request : ref) (spider : Spider) (st st1 : State)
    (req : Request) (method : string) (d : sid) :
  objects st !! request = Some req ->
  is_selenium req = true ->
  wait_until req = Some method ->
  driver (self st) = Some d ->
  (pacing env spider;; cookie_injection env req;; navigation env req) st
    = (Ok tt, st1) ->
  raises env (trace st1) (WaitUntil d (wait_time req) method)
    = Some TimeoutException ->
  process_request env request spider st
    = (Raise TimeoutException, log (WaitUntil d (wait_time req) method) st1) /\
  same_sessions st (process_request env request spider st).2 /\
  is_alive (process_request env request spider st).2 d = is_alive st d.
Proof.
  intros Hreq Hsel Hwait Hd Hbefore Htimeout.
  pose proof (process_request_same_sessions env request spider st) as Hsame.
  split; [|split; [done | by apply same_sessions_alive]].
  rewrite (process_request_selenium _ _ _ _ _ Hreq Hsel).
  pose proof (before_wait_same_sessions env spider req st) as [Hself _].
  rewrite Hbefore in Hself. simpl in Hself.
  rewrite !bind_run in Hbefore. rewrite !bind_run.
  destruct (pacing env spider st) as [[[]|?] st']; [|done].
  rewrite !bind_run in Hbefore. rewrite !bind_run.
  destruct (cookie_injection env req st') as [[[]|?] st'']; [|done].
  rewrite !bind_run. rewrite Hbefore, bind_run.
  rewrite (waiting_run env req st1 d) by congruence.
  by rewrite Hwait, Htimeout.
Qed.

(** ** C9: the response *)

(** C9.  When [process_request] gives a response, the last two calls
    are the read of the page source and then the read of the current URL,
    both on the middleware's driver; the body of the response is the utf-8
    encoding of that page source, its URL is that current URL, and its
    declared encoding is utf-8. *)
Theorem response_from_session
    env (request : ref) (spider : Spider) (st st' : State) (resp : HtmlResponse) :
  process_request env request spider st = (Ok (Some resp), st') ->
  exists d h,
    driver (self st') = Some d /\
    trace st' = h ++ [PageSource d; CurrentUrl d] /\
    utf8 (page_source_text env h d) = Some (resp_body resp) /\
    resp_url resp = current_url_text env (h ++ [PageSource d]) d /\
    resp_encoding resp = "utf-8"%string.
Proof.
  intros Hrun.
  destruct (process_request_success _ _ _ _ _ _ Hrun)
    as (req & st3 & st4 & st5 & st6 & _ & _ & _ & _ & _ & _ & Hext).
  apply extraction_run in Hext as (d & Hd & Hbody & Hurl & Henc & _ & ->).
  exists d, (trace st6). simpl. repeat split; try done.
  by rewrite <- app_assoc.
Qed.

(** ** C10: what happens to the request object *)

Lemma alter_set_meta_fields (k : string) (v : MetaValue) (request : ref)
    (l : list Request) (req : Request) :
  l !! request = Some req ->
  alter (set_meta k v) request l !! request = Some (set_meta k v req).
Proof. intros H. by rewrite list_lookup_alter_eq, H. Qed.

(** C10.  When [process_request] gives a response, the request object
    has all its fields but [meta] as before; in [meta], the key ['driver']
    holds the middleware's driver, the key ['screenshot'] holds an image
    when a screenshot was requested and is as before otherwise, and every
    other key is as before; the other objects are untouched. *)
Theorem process_request_touches_meta_only
    env (request : ref) (spider : Spider) (st st' : State)
    (req : Request) (resp : HtmlResponse) :
  objects st !! request = Some req ->
  process_request env request spider st = (Ok (Some resp), st') ->
  exists req' d,
    objects st' !! request = Some req' /\
    is_selenium req' = is_selenium req /\
    url req' = url req /\
    cookies req' = cookies req /\
    wait_time req' = wait_time req /\
    wait_until req' = wait_until req /\
    screenshot req' = screenshot req /\
    script req' = script req /\
    driver (self st') = Some d /\
    meta req' !! "driver"%string = Some (MetaDriver d) /\
    (if screenshot req
     then exists png, meta req' !! "screenshot"%string = Some (MetaBytes png)
     else meta req' !! "screenshot"%string = meta req !! "screenshot"%string) /\
    (forall k, k <> "screenshot"%string -> k <> "driver"%string ->
               meta req' !! k = meta req !! k) /\
    (forall r, r <> request -> objects st' !! r = objects st !! r).
Proof.
  intros Hreq Hrun.
  destruct (process_request_success _ _ _ _ _ _ Hrun)
    as (req0 & st3 & st4 & st5 & st6 & Hreq0 & _ & H3 & H4 & H5 & H6 & Hext).
  assert (req0 = req) as -> by congruence.
  pose proof (before_wait_same_objects env spider req st) as O3.
  rewrite H3 in O3.
  pose proof (waiting_same_objects env req st3) as O4. rewrite H4 in O4.
  apply screenshot_capture_objects in H5 as [png O5].
  pose proof (script_execution_same_objects env req st5) as O6. rewrite H6 in O6.
  apply extraction_run in Hext as (d & Hd & _ & _ & _ & _ & ->).
  unfold same_objects in *. simpl in *.
  rewrite O6, O5, O4, O3. clear O3 O4 O5 O6.
  destruct (screenshot req) eqn:Hshot.
  - exists (set_meta "driver" (MetaDriver d)
              (set_meta "screenshot" (MetaBytes png) req)), d.
    split.
    { apply alter_set_meta_fields. by apply alter_set_meta_fields. }
    simpl. rewrite Hshot. repeat split; try done.
    + by rewrite lookup_insert_eq.
    + exists png. rewrite lookup_insert_ne by done. by rewrite lookup_insert_eq.
    + intros k H1 H2. by rewrite !lookup_insert_ne.
    + intros r Hr. by rewrite !list_lookup_alter_ne.
  - exists (set_meta "driver" (MetaDriver d) req), d.
    split; [by apply alter_set_meta_fields|].
    simpl. rewrite Hshot. repeat split; try done.
    + by rewrite lookup_insert_eq.
    + by rewrite lookup_insert_ne.
    + intros k H1 H2. by rewrite lookup_insert_ne.
    + intros r Hr. by rewrite list_lookup_alter_ne.
Qed.

(** ** C7: pacing *)

Lemma time_sleep_run env (secs : Q) (st : State) :
  time_sleep env secs st =
  match raises env (trace st) (TimeSleep secs) with
  | Some e => (Raise e, log (TimeSleep secs) st)
  | None => (Ok tt, log (TimeSleep secs) st)
  end.
Proof. unfold time_sleep, call. rewrite call_with_run. by destruct (raises env _ _). Qed.

Lemma pacing_run env (spider : Spider) (st : State) :
  pacing env spider st =
  let delay := DOWNLOAD_DELAY (settings spider) in
  let lo := ((1 # 2) * inject_Z delay)%Q in
  let hi := ((3 # 2) * inject_Z delay)%Q in
  if (delay =? 0)%Z then (Ok tt, st)
  else if RANDOMIZE_DOWNLOAD_DELAY (settings spider) then
    match raises env (trace st) (RandomUniform lo hi) with
    | Some e => (Raise e, log (RandomUniform lo hi) st)
    | None =>
        time_sleep env (uniform_sample env (trace st) lo hi)
          (log (RandomUniform lo hi) st)
    end
  else time_sleep env (inject_Z delay) st.
Proof.
  unfold pacing. simpl.
  destruct (DOWNLOAD_DELAY (settings spider) =? 0)%Z; simpl; [done|].
  rewrite bind_run.
  destruct (RANDOMIZE_DOWNLOAD_DELAY (settings spider)); [|done].
  unfold random_uniform. rewrite call_with_run.
  by destruct (raises env (trace st) _).
Qed.

(** The steps after the pacing issue no pacing call. *)
Lemma after_pacing_emits env (request : ref) (req : Request) :
  keeps (emits not_pacing)
    (cookie_injection env req;;
     navigation env req;;
     waiting env req;;
     screenshot_capture env request req;;
     script_execution env req;;
     extraction env request).
Proof.
  unfold cookie_injection, navigation, waiting, screenshot_capture,
    script_execution, extraction.
  keeps_auto ltac:(first [ apply emits_log; reflexivity
                         | apply emits_same_trace; reflexivity ]).
Qed.

Lemma half_to_three_halves (delay : Z) :
  (0 < delay)%Z -> ((1 # 2) * inject_Z delay <= (3 # 2) * inject_Z delay)%Q.
Proof. intros H. unfold Qle. simpl. lia. Qed.

(** The pacing comes first, whatever the integer [delay] that line 157
    obtained: no pacing call when it is zero; [time.sleep(delay)] first
    when randomization is off; a draw from
    [random.uniform(0.5 * delay, 1.5 * delay)] first and a sleep for its
    sample next when randomization is on.  No pacing call follows. *)
Lemma pacing_comes_first
    env (request : ref) (spider : Spider) (st : State) (req : Request) :
  objects st !! request = Some req ->
  is_selenium req = true ->
  let delay := DOWNLOAD_DELAY (settings spider) in
  let lo := ((1 # 2) * inject_Z delay)%Q in
  let hi := ((3 # 2) * inject_Z delay)%Q in
  exists evs,
    trace (process_request env request spider st).2 = trace st ++ evs /\
    if (delay =? 0)%Z then forallb not_pacing evs = true
    else if RANDOMIZE_DOWNLOAD_DELAY (settings spider) then
      exists rest,
        evs = RandomUniform lo hi :: rest /\
        match raises env (trace st) (RandomUniform lo hi) with
        | Some _ => rest = []
        | None =>
            exists rest',
              rest = TimeSleep (uniform_sample env (trace st) lo hi) :: rest' /\
              forallb not_pacing rest' = true
        end /\
        (honours_uniform env -> (0 < delay)%Z ->
         (lo <= uniform_sample env (trace st) lo hi)%Q /\
         (uniform_sample env (trace st) lo hi <= hi)%Q)
    else
      exists rest,
        evs = TimeSleep (inject_Z delay) :: rest /\
        forallb not_pacing rest = true.
Proof.
  intros Hreq Hsel. cbv zeta.
  rewrite (process_request_selenium _ _ _ _ _ Hreq Hsel), bind_run, pacing_run.
  cbv zeta.
  set (delay := DOWNLOAD_DELAY (settings spider)).
  set (lo := ((1 # 2) * inject_Z delay)%Q).
  set (hi := ((3 # 2) * inject_Z delay)%Q).
  assert (Hsleep : forall secs s,
    exists rest,
      trace (match time_sleep env secs s with
             | (Ok a, st') =>
                 (cookie_injection env req;; navigation env req;;
                  waiting env req;; screenshot_capture env request req;;
                  script_execution env req;; extraction env request) st'
             | (Raise e, st') => (Raise e, st')
             end).2 = trace s ++ TimeSleep secs :: rest /\
      forallb not_pacing rest = true).
  { intros secs s. rewrite time_sleep_run.
    destruct (raises env (trace s) (TimeSleep secs)).
    - exists []. by split.
    - destruct (after_pacing_emits env request req (log (TimeSleep secs) s))
        as (rest & Hrest & Hnp).
      exists rest. split; [|done]. rewrite Hrest. simpl. by rewrite <- app_assoc. }
  destruct (delay =? 0)%Z.
  - destruct (after_pacing_emits env request req st) as (evs & Hevs & Hnp).
    by exists evs.
  - destruct (RANDOMIZE_DOWNLOAD_DELAY (settings spider)).
    + destruct (raises env (trace st) (RandomUniform lo hi)) eqn:Hu.
      * exists [RandomUniform lo hi]. split; [done|]. exists [].
        split; [done|]. split; [done|].
        intros Hh Hpos. apply Hh. by apply half_to_three_halves.
      * destruct (Hsleep (uniform_sample env (trace st) lo hi)
                    (log (RandomUniform lo hi) st)) as (rest & Hrest & Hnp).
        exists (RandomUniform lo hi :: TimeSleep (uniform_sample env (trace st) lo hi) :: rest).
        split; [rewrite Hrest; simpl; by rewrite <- app_assoc|].
        eexists. split; [done|]. split; [by exists rest|].
        intros Hh Hpos. apply Hh. by apply half_to_three_halves.
    + destruct (Hsleep (inject_Z delay) st) as (rest & Hrest & Hnp).
      exists (TimeSleep (inject_Z delay) :: rest). split; [done|]. by exists rest.
Qed.

(** [int()] gives zero exactly on the values strictly between -1 and 1. *)
Lemma getint_zero_iff (value : Q) :
  getint value = 0%Z <-> (inject_Z (-1) < value)%Q /\ (value < inject_Z 1)%Q.
Proof.
  unfold getint. rewrite Z.quot_small_iff by done.
  unfold Qlt. simpl. lia.
Qed.

(** [int()] truncates toward zero: the integer lies between zero and the
    value, less than one away from it. *)
Lemma getint_truncates (value : Q) :
  ((0 <= value)%Q ->
   (inject_Z (getint value) <= value)%Q /\ (value < inject_Z (getint value + 1))%Q) /\
  ((value <= 0)%Q ->
   (value <= inject_Z (getint value))%Q /\ (inject_Z (getint value - 1) < value)%Q).
Proof.
  unfold getint. destruct value as [n m]. unfold Qle, Qlt. simpl.
  rewrite !Z.mul_1_r.
  pose proof (Z.quot_rem' n (Z.pos m)) as Hqr.
  split; intros Hs.
  - pose proof (Z.rem_bound_pos n (Z.pos m) Hs ltac:(lia)). nia.
  - pose proof (Z.rem_bound_pos_neg n (Z.pos m) ltac:(lia) ltac:(lia)). nia.
Qed.

(** C7.  For a browser-fetch request, with [d] the integer that
    [getint] makes of the configured delay, its truncation toward zero:
    [d] is zero exactly when the configured delay lies strictly between -1
    and 1, and then [process_request] issues no pacing call at all; when
    [d] is not zero and randomization is off, its first call is
    [time.sleep(d)], and no other pacing call follows; when randomization
    is on and [3 * d] is below [2 ^ 53] in magnitude, so that the two
    products are exact in binary64, its first call draws a sample from
    [random.uniform(0.5 * d, 1.5 * d)] and its second call sleeps for that
    sample, which lies in that interval when [random.uniform] keeps its
    promise and [d] is positive.  In each case every call on the session
    comes after the pacing. *)
Theorem pacing_before_session
    env (request : ref) (spider : Spider) (st : State) (req : Request)
    (configured : Q) :
  objects st !! request = Some req ->
  is_selenium req = true ->
  DOWNLOAD_DELAY (settings spider) = getint configured ->
  let d := getint configured in
  let lo := ((1 # 2) * inject_Z d)%Q in
  let hi := ((3 # 2) * inject_Z d)%Q in
  (d = 0%Z <-> (inject_Z (-1) < configured)%Q /\ (configured < inject_Z 1)%Q) /\
  exists evs,
    trace (process_request env request spider st).2 = trace st ++ evs /\
    if (d =? 0)%Z then forallb not_pacing evs = true
    else if RANDOMIZE_DOWNLOAD_DELAY (settings spider) then
      exact_in_binary64 d = true ->
      exists rest,
        evs = RandomUniform lo hi :: rest /\
        match raises env (trace st) (RandomUniform lo hi) with
        | Some _ => rest = []
        | None =>
            exists rest',
              rest = TimeSleep (uniform_sample env (trace st) lo hi) :: rest' /\
              forallb not_pacing rest' = true
        end /\
        (honours_uniform env -> (0 < d)%Z ->
         (lo <= uniform_sample env (trace st) lo hi)%Q /\
         (uniform_sample env (trace st) lo hi <= hi)%Q)
    else
      exists rest,
        evs = TimeSleep (inject_Z d) :: rest /\
        forallb not_pacing rest = true.
Proof.
  intros Hreq Hsel Hcfg. cbv zeta.
  split; [apply getint_zero_iff|].
  pose proof (pacing_comes_first env request spider st req Hreq Hsel) as H.
  cbv zeta in H. rewrite Hcfg in H.
  destruct H as (evs & Hevs & H). exists evs. split; [done|].
  destruct (getint configured =? 0)%Z; [done|].
  destruct (RANDOMIZE_DOWNLOAD_DELAY (settings spider)); [|done].
  by intros _.
Qed.

(** ** C8: cookies before navigation *)

Lemma pacing_emits env (spider : Spider) : keeps (emits is_pacing) (pacing env spider).
Proof.
  unfold pacing. keeps_auto ltac:(apply emits_log; reflexivity).
Qed.

Lemma pacing_same_sessions env (spider : Spider) :
  keeps same_sessions (pacing env spider).
Proof. unfold pacing. keeps_auto ltac:(apply same_sessions_log). Qed.

(** The loop over the cookies adds them one by one, in order, and stops
    at the first addition that raises. *)
Lemma cookie_injection_run env (req : Request) (st : State) (d : sid) :
  driver (self st) = Some d ->
  exists k,
    trace (cookie_injection env req st).2
      = trace st ++ map (add_cookie_call d) (take k (cookies req)) /\
    self (cookie_injection env req st).2 = self st /\
    ((cookie_injection env req st).1 = Ok tt -> take k (cookies req) = cookies req).
Proof.
  unfold cookie_injection. generalize (cookies req) as l.
  intros l. revert st. induction l as [|cookie l IH]; intros st Hd.
  - exists 0. simpl. by rewrite app_nil_r.
  - simpl. rewrite !bind_run, (self_driver_run _ _ Hd), call_run.
    destruct (raises env (trace st) (AddCookie d cookie.1 cookie.2)).
    + exists 1. simpl. by rewrite take_0.
    + destruct (IH (log (AddCookie d cookie.1 cookie.2) st) Hd) as (k & Ht & Hs & Hok).
      exists (S k). simpl. rewrite Ht. simpl. rewrite <- app_assoc.
      repeat split; [done|]. intros H. by rewrite Hok.
Qed.

Lemma navigation_run env (req : Request) (st : State) (d : sid) :
  driver (self st) = Some d ->
  navigation env req st =
  match raises env (trace st) (Get d (url req)) with
  | Some e => (Raise e, log (Get d (url req)) st)
  | None => (Ok tt, log (Get d (url req)) st)
  end.
Proof.
  intros Hd. unfold navigation.
  by rewrite bind_run, (self_driver_run _ _ Hd), call_run.
Qed.

(** The steps after the navigation add no cookie. *)
Lemma after_navigation_emits env (request : ref) (req : Request) :
  keeps (emits not_add_cookie)
    (waiting env req;;
     screenshot_capture env request req;;
     script_execution env req;;
     extraction env request).
Proof.
  unfold waiting, screenshot_capture, script_execution, extraction.
  keeps_auto ltac:(first [ apply emits_log; reflexivity
                         | apply emits_same_trace; reflexivity ]).
Qed.

(** The loop over the cookies, call by call: it raises at the first
    addition the environment makes raise, having added the items before
    it, and otherwise returns with every item added, in order. *)
Lemma cookie_injection_exact env (req : Request) (st : State) (d : sid) :
  driver (self st) = Some d ->
  match add_cookie_refused env d (trace st) (cookies req) with
  | Some (k, e) =>
      (cookie_injection env req st).1 = Raise e /\
      trace (cookie_injection env req st).2
        = trace st ++ map (add_cookie_call d) (take (S k) (cookies req)) /\
      k < length (cookies req)
  | None =>
      (cookie_injection env req st).1 = Ok tt /\
      trace (cookie_injection env req st).2
        = trace st ++ map (add_cookie_call d) (cookies req) /\
      self (cookie_injection env req st).2 = self st
  end.
Proof.
  unfold cookie_injection. generalize (cookies req) as l.
  intros l. revert st. induction l as [|cookie l IH]; intros st Hd.
  - simpl. by rewrite app_nil_r.
  - cbn [add_cookie_refused for_each].
    rewrite !bind_run, (self_driver_run _ _ Hd), call_run.
    unfold add_cookie_call at 1 3.
    destruct (raises env (trace st) (AddCookie d cookie.1 cookie.2)).
    + simpl. rewrite ?take_0. repeat split. lia.
    + specialize (IH (log (AddCookie d cookie.1 cookie.2) st) Hd).
      simpl in IH.
      destruct (add_cookie_refused env d _ l) as [[k e]|].
      * destruct IH as (Hr & Ht & Hk). cbn [take map length].
        split; [exact Hr|]. split; [|lia].
        rewrite Ht. cbn [trace log]. by rewrite <- app_assoc.
      * destruct IH as (Hr & Ht & Hs). cbn [map].
        split; [exact Hr|]. split; [|exact Hs].
        rewrite Ht. cbn [trace log]. by rewrite <- app_assoc.
Qed.

(** C8.  For a browser-fetch request handled by a middleware with driver
    [d], [process_request] first issues the pacing calls, then one
    [add_cookie] per item of the request's cookies, in the order of the
    mapping, each item once, then the navigation to the request's URL, and
    after it calls that add no cookie.  It leaves this course only where
    the environment makes a call raise: when the pacing raises,
    [process_request] raises that exception with nothing added; when the
    addition of item [k] is the first that raises, [process_request]
    raises that exception after the additions of items [0] to [k], and does
    not navigate.  So whenever the pacing and the additions return, every
    item has been added, in order, before the navigation is issued. *)
Theorem cookies_before_navigation
    env (request : ref) (spider : Spider) (st : State) (req : Request) (d : sid) :
  objects st !! request = Some req ->
  is_selenium req = true ->
  driver (self st) = Some d ->
  exists pace,
    trace (pacing env spider st).2 = trace st ++ pace /\
    forallb is_pacing pace = true /\
    match (pacing env spider st).1 with
    | Raise e =>
        process_request env request spider st = (Raise e, (pacing env spider st).2)
    | Ok _ =>
        match add_cookie_refused env d (trace st ++ pace) (cookies req) with
        | Some (k, e) =>
            (process_request env request spider st).1 = Raise e /\
            trace (process_request env request spider st).2
              = trace st ++ pace
                  ++ map (add_cookie_call d) (take (S k) (cookies req)) /\
            k < length (cookies req)
        | None =>
            exists rest,
              trace (process_request env request spider st).2
                = trace st ++ pace ++ map (add_cookie_call d) (cookies req)
                    ++ Get d (url req) :: rest /\
              forallb not_add_cookie rest = true
        end
    end.
Proof.
  intros Hreq Hsel Hd.
  rewrite (process_request_selenium _ _ _ _ _ Hreq Hsel), bind_run.
  destruct (pacing_emits env spider st) as (pace & Hpace & Hp).
  pose proof (pacing_same_sessions env spider st) as [Hself1 _].
  exists pace. split; [done|]. split; [done|].
  destruct (pacing env spider st) as [[[]|e] st1]; simpl in Hpace, Hself1; [|done].
  assert (Hd1 : driver (self st1) = Some d) by congruence.
  cbn [fst]. rewrite bind_run.
  pose proof (cookie_injection_exact env req st1 d Hd1) as Hinj.
  rewrite Hpace in Hinj.
  destruct (add_cookie_refused env d (trace st ++ pace) (cookies req)) as [[k e]|].
  - destruct Hinj as (Hr & Ht & Hk).
    destruct (cookie_injection env req st1) as [[[]|e'] st2]; simpl in Hr, Ht; [done|].
    injection Hr as ->. simpl. by rewrite Ht, <- app_assoc.
  - destruct Hinj as (Hr & Ht & Hs).
    destruct (cookie_injection env req st1) as [[[]|e'] st2];
      simpl in Hr, Ht, Hs; [|done].
    assert (Hd2 : driver (self st2) = Some d) by congruence.
    rewrite bind_run, (navigation_run _ _ _ _ Hd2).
    destruct (raises env (trace st2) (Get d (url req))).
    + exists []. simpl. rewrite Ht, <- !app_assoc. by split.
    + destruct (after_navigation_emits env request req (log (Get d (url req)) st2))
        as (rest & Hrest & Hnc).
      exists rest. rewrite Hrest. simpl. rewrite Ht, <- !app_assoc.
      by split.
Qed.

(** ** The theorems at work on the examples *)

Lemma process_request_passes_plain_requests_witness :
  (objects (live_state quiet_env) !! 0%nat = Some plain_request /\
   is_selenium plain_request = false) /\
  process_request quiet_env 0 {| settings := local_settings |} (live_state quiet_env)
  = (Ok None, live_state quiet_env).
Proof.
  split; [split; reflexivity|].
  apply (process_request_passes_plain_requests quiet_env 0
           {| settings := local_settings |} (live_state quiet_env) plain_request);
    reflexivity.
Defined.

Lemma wait_timeout_keeps_session_witness :
  process_request timeout_env 1 {| settings := local_settings |}
    (live_state timeout_env)
  = (Raise TimeoutException,
     log (WaitUntil 0 (wait_time browser_request) "title_is")
       ((pacing timeout_env {| settings := local_settings |};;
         cookie_injection timeout_env browser_request;;
         navigation timeout_env browser_request) (live_state timeout_env)).2) /\
  same_sessions (live_state timeout_env)
    (process_request timeout_env 1 {| settings := local_settings |}
       (live_state timeout_env)).2 /\
  is_alive
    (process_request timeout_env 1 {| settings := local_settings |}
       (live_state timeout_env)).2 0
  = is_alive (live_state timeout_env) 0.
Proof.
  apply (wait_timeout_keeps_session timeout_env 1 {| settings := local_settings |}
           (live_state timeout_env) _ browser_request "title_is" 0%nat);
    vm_compute; reflexivity.
Defined.

Lemma response_from_session_witness :
  process_request quiet_env 1 {| settings := local_settings |} (live_state quiet_env)
  = (Ok (Some example_response),
     (process_request quiet_env 1 {| settings := local_settings |}
        (live_state quiet_env)).2) /\
  exists d h,
    driver (self (process_request quiet_env 1 {| settings := local_settings |}
                    (live_state quiet_env)).2) = Some d /\
    trace (process_request quiet_env 1 {| settings := local_settings |}
             (live_state quiet_env)).2 = h ++ [PageSource d; CurrentUrl d] /\
    utf8 (page_source_text quiet_env h d) = Some (resp_body example_response) /\
    resp_url example_response = current_url_text quiet_env (h ++ [PageSource d]) d /\
    resp_encoding example_response = "utf-8"%string.
Proof.
  assert (H : process_request quiet_env 1 {| settings := local_settings |}
                (live_state quiet_env)
              = (Ok (Some example_response),
                 (process_request quiet_env 1 {| settings := local_settings |}
                    (live_state quiet_env)).2))
    by (vm_compute; reflexivity).
  split; [exact H|].
  apply (response_from_session quiet_env 1 {| settings := local_settings |}
           (live_state quiet_env) _ example_response H).
Defined.

Lemma process_request_touches_meta_only_witness :
  exists req' d,
    objects (process_request quiet_env 1 {| settings := local_settings |}
               (live_state quiet_env)).2 !! 1%nat = Some req' /\
    is_selenium req' = is_selenium browser_request /\
    url req' = url browser_request /\
    cookies req' = cookies browser_request /\
    wait_time req' = wait_time browser_request /\
    wait_until req' = wait_until browser_request /\
    screenshot req' = screenshot browser_request /\
    script req' = script browser_request /\
    driver (self (process_request quiet_env 1 {| settings := local_settings |}
                    (live_state quiet_env)).2) = Some d /\
    meta req' !! "driver"%string = Some (MetaDriver d) /\
    (if screenshot browser_request
     then exists png, meta req' !! "screenshot"%string = Some (MetaBytes png)
     else meta req' !! "screenshot"%string
          = meta browser_request !! "screenshot"%string) /\
    (forall k, k <> "screenshot"%string -> k <> "driver"%string ->
               meta req' !! k = meta browser_request !! k) /\
    (forall r, r <> 1%nat ->
       objects (process_request quiet_env 1 {| settings := local_settings |}
                  (live_state quiet_env)).2 !! r
       = objects (live_state quiet_env) !! r).
Proof.
  apply (process_request_touches_meta_only quiet_env 1
           {| settings := local_settings |} (live_state quiet_env) _
           browser_request example_response);
    vm_compute; reflexivity.
Defined.

Lemma pacing_before_session_witness :
  let spider := {| settings := with_download_delay (27 # 10) true local_settings |} in
  let d := getint (27 # 10) in
  let lo := ((1 # 2) * inject_Z d)%Q in
  let hi := ((3 # 2) * inject_Z d)%Q in
  (d = 0%Z <-> (inject_Z (-1) < 27 # 10)%Q /\ (27 # 10 < inject_Z 1)%Q) /\
  exists evs,
    trace (process_request quiet_env 1 spider (live_state quiet_env)).2
      = trace (live_state quiet_env) ++ evs /\
    if (d =? 0)%Z then forallb not_pacing evs = true
    else if RANDOMIZE_DOWNLOAD_DELAY (settings spider) then
      exact_in_binary64 d = true ->
      exists rest,
        evs = RandomUniform lo hi :: rest /\
        match raises quiet_env (trace (live_state quiet_env)) (RandomUniform lo hi) with
        | Some _ => rest = []
        | None =>
            exists rest',
              rest = TimeSleep (uniform_sample quiet_env
                                  (trace (live_state quiet_env)) lo hi) :: rest' /\
              forallb not_pacing rest' = true
        end /\
        (honours_uniform quiet_env -> (0 < d)%Z ->
         (lo <= uniform_sample quiet_env (trace (live_state quiet_env)) lo hi)%Q /\
         (uniform_sample quiet_env (trace (live_state quiet_env)) lo hi <= hi)%Q)
    else
      exists rest,
        evs = TimeSleep (inject_Z d) :: rest /\
        forallb not_pacing rest = true.
Proof.
  apply (pacing_before_session quiet_env 1
           {| settings := with_download_delay (27 # 10) true local_settings |}
           (live_state quiet_env) browser_request (27 # 10));
    vm_compute; reflexivity.
Defined.

(** A configured delay of 0.5 with randomization off: [getint] makes it 0,
    the request is answered and no [time.sleep] was issued.  A configured
    delay of 2.7: the first call is [time.sleep(2)], and 2 is not 2.7. *)
Lemma pacing_truncation_counterexample :
  let half := {| settings := with_download_delay (1 # 2) false local_settings |} in
  let more := {| settings := with_download_delay (27 # 10) false local_settings |} in
  (~ (1 # 2 == 0)%Q /\
   (process_request quiet_env 1 half (live_state quiet_env)).1
     = Ok (Some example_response) /\
   forallb not_pacing
     (drop (length (trace (live_state quiet_env)))
        (trace (process_request quiet_env 1 half (live_state quiet_env)).2)) = true) /\
  (head (drop (length (trace (live_state quiet_env)))
           (trace (process_request quiet_env 1 more (live_state quiet_env)).2))
     = Some (TimeSleep (2 # 1)) /\
   ~ (2 # 1 == 27 # 10)%Q).
Proof.
  cbv zeta. split; split.
  - intros H. discriminate H.
  - split; vm_compute; reflexivity.
  - vm_compute. reflexivity.
  - intros H. discriminate H.
Defined.

Lemma cookies_before_navigation_witness :
  exists pace,
    trace (pacing quiet_env {| settings := local_settings |}
             (live_state quiet_env)).2 = trace (live_state quiet_env) ++ pace /\
    forallb is_pacing pace = true /\
    match (pacing quiet_env {| settings := local_settings |}
             (live_state quiet_env)).1 with
    | Raise e =>
        process_request quiet_env 1 {| settings := local_settings |}
          (live_state quiet_env)
        = (Raise e, (pacing quiet_env {| settings := local_settings |}
                       (live_state quiet_env)).2)
    | Ok _ =>
        match add_cookie_refused quiet_env 0 (trace (live_state quiet_env) ++ pace)
                (cookies browser_request) with
        | Some (k, e) =>
            (process_request quiet_env 1 {| settings := local_settings |}
               (live_state quiet_env)).1 = Raise e /\
            trace (process_request quiet_env 1 {| settings := local_settings |}
                     (live_state quiet_env)).2
              = trace (live_state quiet_env) ++ pace
                  ++ map (add_cookie_call 0) (take (S k) (cookies browser_request)) /\
            k < length (cookies browser_request)
        | None =>
            exists rest,
              trace (process_request quiet_env 1 {| settings := local_settings |}
                       (live_state quiet_env)).2
                = trace (live_state quiet_env) ++ pace
                    ++ map (add_cookie_call 0) (cookies browser_request)
                    ++ Get 0 (url browser_request) :: rest /\
              forallb not_add_cookie rest = true
        end
    end.
Proof.
  apply (cookies_before_navigation quiet_env 1 {| settings := local_settings |}
           (live_state quiet_env) browser_request 0%nat);
    vm_compute; reflexivity.
Defined.

(** The run behind the last witnesses, call by call. *)
Example process_request_example :
  drop (length (trace (live_state quiet_env)))
    (trace (process_request quiet_env 1 {| settings := local_settings |}
              (live_state quiet_env)).2)
  = [RandomUniform (2 # 2) (6 # 2); TimeSleep (2 # 2);
     AddCookie 0 "a" "1"; AddCookie 0 "b" "2"; Get 0 "http://example.test";
     WaitUntil 0 (Some (2 # 1)) "title_is"; GetScreenshotAsPng 0;
     ExecuteScript 0 "window.scrollTo(0, 0)"; PageSource 0; CurrentUrl 0].
Proof. vm_compute. reflexivity. Qed.

(** A session that refuses the second cookie: the first one is added, the
    second addition raises, and [process_request] raises without
    navigating. *)
Example refused_cookie_example :
  add_cookie_refused refused_cookie_env 0
    (trace (live_state refused_cookie_env)
       ++ [RandomUniform (2 # 2) (6 # 2); TimeSleep (2 # 2)])
    (cookies browser_request)
  = Some (1%nat, LibraryError "unable to set cookie") /\
  (process_request refused_cookie_env 1 {| settings := local_settings |}
     (live_state refused_cookie_env)).1
  = Raise (LibraryError "unable to set cookie") /\
  drop (length (trace (live_state refused_cookie_env)))
    (trace (process_request refused_cookie_env 1 {| settings := local_settings |}
              (live_state refused_cookie_env)).2)
  = [RandomUniform (2 # 2) (6 # 2); TimeSleep (2 # 2);
     AddCookie 0 "a" "1"; AddCookie 0 "b" "2"].
Proof. repeat split; vm_compute; reflexivity. Qed.

(** The first delay whose three-halves binary64 cannot hold: [3 * d] is
    [2 ^ 53 + 1], an odd number of 54 bits. *)
Example inexact_delay_example :
  (3 * 3002399751580331 = 2 ^ 53 + 1)%Z /\
  exact_in_binary64 3002399751580331 = false /\
  exact_in_binary64 3002399751580330 = true.
Proof. repeat split; vm_compute; reflexivity. Qed.

(** ** C1, the local branch *)

#[global] Instance live_stay_live_preorder : PreOrder live_stay_live.
Proof.
  split.
  - intros st. by split.
  - intros a b c [S1 L1] [S2 L2]. split; [congruence|].
    intros i Hi. by apply L2, L1.
Qed.

Lemma live_stay_live_log (c : Call) (st : State) : live_stay_live st (log c st).
Proof. by split. Qed.

Lemma live_stay_live_update (d : sid) (f : Session -> Session) (st : State) :
  (forall s, alive (f s) = alive s) ->
  live_stay_live st (update_session d f st).
Proof.
  intros Hf. split; [apply update_session_self|].
  intros i Hi. rewrite update_session_alive. case_bool_decide as Hd; [|done].
  subst i. unfold is_alive in Hi. destruct (sessions st !! d); [|done].
  by rewrite Hf.
Qed.

Ltac live_leaf :=
  first [ apply live_stay_live_log
        | apply live_stay_live_update; reflexivity ].

Lemma hook_installation_live : keeps live_stay_live hook_installation.
Proof. unfold hook_installation. keeps_auto live_leaf. Qed.

(** With a driver executable configured, a [driver_creation] that returns
    has created a session, stored it in [self.driver], and left it alive. *)
Lemma driver_creation_local env (st st' : State) (path : string) :
  executable_path (_driver_kwargs (self st)) = Some path ->
  driver_creation env st = (Ok tt, st') ->
  driver (self st') = Some (length (sessions st)) /\
  is_alive st' (length (sessions st)) = true.
Proof.
  intros Hp. unfold driver_creation. rewrite bind_run. simpl. rewrite Hp.
  rewrite bind_run, new_webdriver_run.
  destruct (raises env (trace st) _); [done|].
  rewrite bind_run. simpl.
  match goal with
  | |- ?m ?s = _ -> _ =>
      assert (Htail : keeps live_stay_live m) by (keeps_auto live_leaf);
      pose proof (Htail s) as [Hself Hlive]
  end.
  intros Hrun. rewrite Hrun in Hself, Hlive. simpl in Hself, Hlive.
  split; [by rewrite Hself|].
  apply Hlive. unfold is_alive. simpl.
  by rewrite lookup_app_r, Nat.sub_diag.
Qed.

(** The local half of C1: with a driver executable configured, a
    [replace_driver] that returns gives the session it has just created,
    and that session is alive. *)
Lemma replace_driver_local_alive env (st st' : State) (path : string) (d : sid) :
  executable_path (_driver_kwargs (self st)) = Some path ->
  replace_driver env st = (Ok d, st') ->
  d = length (sessions st) /\ driver (self st') = Some d /\ is_alive st' d = true.
Proof.
  intros Hp. rewrite replace_driver_steps, bind_run.
  pose proof (old_driver_cleanup_run env st) as Hclean.
  destruct (old_driver_cleanup env st) as [[[]|e] st1] eqn:H1; [|done].
  assert (Hsame : self st1 = self st /\ length (sessions st1) = length (sessions st)).
  { destruct (driver (self st)) as [d0|].
    - destruct (raises env (trace st) (DeleteAllCookies d0)); [done|].
      destruct (raises env _ (Quit d0)); [done|].
      injection Hclean as ->.
      by rewrite update_session_self, update_session_length.
    - by injection Hclean as ->. }
  destruct Hsame as [Hself Hlen].
  rewrite bind_run.
  destruct (driver_creation env st1) as [[[]|e] st2] eqn:H2; [|done].
  apply (driver_creation_local env st1 st2 path) in H2 as [Hd Hlive];
    [|by rewrite Hself].
  intros Hhook.
  pose proof (hook_installation_result _ _ _ Hhook) as Hres.
  pose proof (hook_installation_live st2) as [Hs Hl].
  rewrite Hhook in Hs, Hl. simpl in Hs, Hl.
  assert (d = length (sessions st1)) as -> by congruence.
  rewrite <- Hlen. repeat split; [done|]. by apply Hl.
Qed.

(** On the example: the middleware created from [local_settings] holds
    session 0, alive, and is connected to the [spider_closed] signal. *)
Example from_crawler_local_example :
  (from_crawler quiet_env {| settings := local_settings |} (initial [])).1 = Ok tt /\
  driver (self (live_state quiet_env)) = Some 0%nat /\
  live_sessions (live_state quiet_env) = [0%nat] /\
  spider_closed_connected (live_state quiet_env) = true.
Proof. repeat split; vm_compute; reflexivity. Qed.

(** * Beyond the claims *)

(** ** [replace_driver]: the calls of a replacement *)

(** Run the calls of a computation that returned, one after the other. *)
Ltac run_calls :=
  repeat (rewrite ?bind_run, ?call_run, ?call_with_run; simpl;
          try match goal with
              | |- context [raises ?e ?h ?c] => destruct (raises e h c); [done|]
              end).

(** The local branch of the creation, when it returns. *)
Lemma driver_creation_local_run env (st st' : State) (path : string) :
  executable_path (_driver_kwargs (self st)) = Some path ->
  driver_creation env st = (Ok tt, st') ->
  let d := length (sessions st) in
  let new := NewWebDriver (Local (_driver_klass (self st)) (_driver_kwargs (self st))) in
  let draw_w := RandomUniform (inject_Z 1920 * (1 # 2)) (inject_Z 1920) in
  let draw_h := RandomUniform (inject_Z 1080 * (1 # 2)) (inject_Z 1080) in
  let w := uniform_sample env (trace st ++ [new])
             (inject_Z 1920 * (1 # 2)) (inject_Z 1920) in
  let h := uniform_sample env (trace st ++ [new; draw_w])
             (inject_Z 1080 * (1 # 2)) (inject_Z 1080) in
  trace st' = trace st ++ [new; draw_w; draw_h; SetWindowSize d w h;
                           ConnClear d; NewPoolManager d 1 false] /\
  sessions st' = sessions st ++ [mark_single_pool fresh_session] /\
  self st' = set_driver d (self st) /\
  objects st' = objects st.
Proof.
  intros Hp. unfold driver_creation. rewrite bind_run. simpl. rewrite Hp.
  rewrite bind_run, new_webdriver_run.
  destruct (raises env (trace st) _); [done|].
  unfold random_uniform. run_calls.
  unfold modify. intros [= <-]. unfold update_session. simpl.
  rewrite lookup_app_r, Nat.sub_diag by done. simpl.
  rewrite <- !app_assoc. simpl. repeat split.
  by rewrite (insert_app_r_alt _ _ _ _ (le_n _)), Nat.sub_diag.
Qed.

Lemma old_driver_cleanup_returned env (st st1 : State) :
  old_driver_cleanup env st = (Ok tt, st1) ->
  trace st1 = trace st ++ cleanup_calls (self st) /\
  self st1 = self st /\
  length (sessions st1) = length (sessions st) /\
  objects st1 = objects st.
Proof.
  rewrite old_driver_cleanup_run. unfold cleanup_calls.
  destruct (driver (self st)) as [d|].
  - destruct (raises env (trace st) (DeleteAllCookies d)); [done|].
    destruct (raises env _ (Quit d)); [done|].
    intros [= <-].
    rewrite update_session_self, update_session_length. simpl.
    repeat split.
    + unfold update_session. simpl. destruct (sessions st !! d); simpl;
        by rewrite <- app_assoc.
    + unfold update_session. simpl. by destruct (sessions st !! d).
  - intros [= <-]. by rewrite app_nil_r.
Qed.

Lemma hook_installation_run (st : State) (d : sid) :
  driver (self st) = Some d ->
  hook_installation st = (Ok d, update_session d mark_replace_driver st).
Proof.
  intros Hd. unfold hook_installation.
  rewrite !bind_run, (self_driver_run _ _ Hd). simpl.
  apply self_driver_run. by rewrite update_session_self.
Qed.

Lemma update_session_trace (d : sid) (f : Session -> Session) (st : State) :
  trace (update_session d f st) = trace st.
Proof. unfold update_session. by destruct (sessions st !! d). Qed.

Lemma viewport_bounds :
  (inject_Z 1920 * (1 # 2) <= inject_Z 1920)%Q /\
  (inject_Z 1080 * (1 # 2) <= inject_Z 1080)%Q.
Proof. split; unfold Qle; simpl; lia. Qed.

(** X1.  A [replace_driver] that returns with a driver executable
    configured has issued, in this order: the cookie purge and the [quit()]
    of the old driver when there was one; the construction of the new
    driver with the stored keyword arguments; two draws, from
    [random.uniform(1920 * 0.5, 1920)] and [random.uniform(1080 * 0.5, 1080)];
    [set_window_size] on the new driver, its width the sample the first
    draw returned and its height the sample the second draw returned; the
    clearing of the connection pool; and the construction of a pool manager
    with [maxsize=1, block=False].  It has issued no other call, and the
    driver it returns is the one just constructed.  The two samples lie
    within their bounds when [random.uniform] keeps its promise. *)
Theorem replace_driver_calls env (st st' : State) (d : sid) (path : string) :
  executable_path (_driver_kwargs (self st)) = Some path ->
  replace_driver env st = (Ok d, st') ->
  let before := trace st ++ cleanup_calls (self st) in
  let new := NewWebDriver (Local (_driver_klass (self st)) (_driver_kwargs (self st))) in
  let draw_w := RandomUniform (inject_Z 1920 * (1 # 2)) (inject_Z 1920) in
  let draw_h := RandomUniform (inject_Z 1080 * (1 # 2)) (inject_Z 1080) in
  let w := uniform_sample env (before ++ [new])
             (inject_Z 1920 * (1 # 2)) (inject_Z 1920) in
  let h := uniform_sample env (before ++ [new; draw_w])
             (inject_Z 1080 * (1 # 2)) (inject_Z 1080) in
  d = length (sessions st) /\
  trace st' =
    before ++ [new; draw_w; draw_h; SetWindowSize d w h;
               ConnClear d; NewPoolManager d 1 false] /\
  (honours_uniform env ->
   (inject_Z 1920 * (1 # 2) <= w)%Q /\ (w <= inject_Z 1920)%Q /\
   (inject_Z 1080 * (1 # 2) <= h)%Q /\ (h <= inject_Z 1080)%Q).
Proof.
  intros Hp. rewrite replace_driver_steps, bind_run.
  destruct (old_driver_cleanup env st) as [[[]|e] st1] eqn:H1; [|done].
  apply old_driver_cleanup_returned in H1 as (Ht1 & Hs1 & Hl1 & _).
  rewrite bind_run.
  destruct (driver_creation env st1) as [[[]|e] st2] eqn:H2; [|done].
  apply (driver_creation_local_run env st1 st2 path) in H2; [|by rewrite Hs1].
  cbv zeta in H2. destruct H2 as (Ht2 & _ & Hs2 & _).
  rewrite (hook_installation_run st2 (length (sessions st1))) by (by rewrite Hs2).
  intros [= <- <-]. cbv zeta.
  rewrite update_session_trace, Ht2, Ht1, Hs1, Hl1.
  split; [done|]. split; [done|].
  intros Hh. destruct viewport_bounds as [Bw Bh].
  split; [by apply Hh|]. split; [by apply Hh|]. split; by apply Hh.
Qed.

(** ** Who is alive after a replacement and after a shutdown *)

Lemma live_sessions_elem (st : State) (i : sid) :
  i ∈ live_sessions st <-> is_alive st i = true.
Proof.
  unfold live_sessions. rewrite list_elem_of_filter, elem_of_seq. split.
  - by intros [H _].
  - intros H. split; [done|]. split; [lia|]. simpl.
    unfold is_alive in H. destruct (sessions st !! i) eqn:Hi; [|done].
    by eapply lookup_lt_Some.
Qed.

Lemma live_sessions_only (st : State) (d : sid) :
  owns_live st -> is_alive st d = true -> live_sessions st = [d].
Proof.
  intros Ho Hd. pose proof (owns_live_at_most_one st Ho) as Hlen.
  assert (Hin : d ∈ live_sessions st) by (by apply live_sessions_elem).
  destruct (live_sessions st) as [|a [|b l]]; simpl in Hlen; [| |lia].
  - inversion Hin.
  - f_equal. inversion Hin as [|? ? ? Hnil]; [done | inversion Hnil].
Qed.

Lemma live_sessions_none (st : State) : all_dead st -> live_sessions st = [].
Proof.
  intros Hd. destruct (live_sessions st) as [|a l] eqn:Hl; [done|].
  assert (Ha : a ∈ live_sessions st) by (rewrite Hl; set_solver).
  apply live_sessions_elem in Ha. by rewrite Hd in Ha.
Qed.

(** X2.  In a state the session manager can reach, a [replace_driver]
    that returns with a driver executable configured returns a session
    that did not exist before and is now the only one alive; that session
    has the single-connection pool and carries the [replace_driver]
    attribute; and the middleware holds it as [self.driver]. *)
Theorem replace_driver_fresh_session env (st st' : State) (d : sid) (path : string) :
  reachable env st ->
  executable_path (_driver_kwargs (self st)) = Some path ->
  replace_driver env st = (Ok d, st') ->
  d = length (sessions st) /\
  driver (self st') = Some d /\
  live_sessions st' = [d] /\
  sessions st' !! d =
    Some {| alive := true; single_connection_pool := true;
            has_replace_driver := true |}.
Proof.
  intros Hreach Hp Hrun.
  pose proof (reachable_single_session _ _ Hreach) as Hinv.
  pose proof (replace_driver_invariant env st Hinv) as Hinv'.
  rewrite Hrun in Hinv'. simpl in Hinv'.
  destruct (replace_driver_local_alive _ _ _ _ _ Hp Hrun) as (Hd & Hself & Hlive).
  split; [done|]. split; [done|].
  split; [apply live_sessions_only; [apply Hinv' | done]|].
  revert Hrun. rewrite replace_driver_steps, bind_run.
  destruct (old_driver_cleanup env st) as [[[]|e] st1] eqn:H1; [|done].
  apply old_driver_cleanup_returned in H1 as (_ & Hs1 & Hl1 & _).
  rewrite bind_run.
  destruct (driver_creation env st1) as [[[]|e] st2] eqn:H2; [|done].
  apply (driver_creation_local_run env st1 st2 path) in H2; [|by rewrite Hs1].
  cbv zeta in H2. destruct H2 as (_ & Hss2 & Hs2 & _).
  rewrite (hook_installation_run st2 (length (sessions st1))) by (by rewrite Hs2).
  intros [= _ <-]. rewrite Hd, <- Hl1.
  unfold update_session. rewrite Hss2.
  rewrite lookup_app_r, Nat.sub_diag by done. simpl.
  by rewrite list_lookup_insert_eq by (rewrite length_app; simpl; lia).
Qed.

Lemma replace_driver_fresh_session_witness :
  (reachable quiet_env (live_state quiet_env) /\
   executable_path (_driver_kwargs (self (live_state quiet_env)))
     = Some "/usr/bin/chromedriver"%string /\
   replace_driver quiet_env (live_state quiet_env)
     = (Ok 1%nat, (replace_driver quiet_env (live_state quiet_env)).2)) /\
  1%nat = length (sessions (live_state quiet_env)) /\
  driver (self (replace_driver quiet_env (live_state quiet_env)).2) = Some 1%nat /\
  live_sessions (replace_driver quiet_env (live_state quiet_env)).2 = [1%nat] /\
  sessions (replace_driver quiet_env (live_state quiet_env)).2 !! 1%nat =
    Some {| alive := true; single_connection_pool := true;
            has_replace_driver := true |}.
Proof.
  assert (H1 : reachable quiet_env (live_state quiet_env)) by constructor.
  assert (H2 : executable_path (_driver_kwargs (self (live_state quiet_env)))
               = Some "/usr/bin/chromedriver"%string) by (vm_compute; reflexivity).
  assert (H3 : replace_driver quiet_env (live_state quiet_env)
               = (Ok 1%nat, (replace_driver quiet_env (live_state quiet_env)).2))
    by (vm_compute; reflexivity).
  split; [exact (conj H1 (conj H2 H3))|].
  apply (replace_driver_fresh_session quiet_env (live_state quiet_env) _ 1%nat
           "/usr/bin/chromedriver" H1 H2 H3).
Defined.

Lemma replace_driver_calls_witness :
  (executable_path (_driver_kwargs (self (live_state quiet_env)))
     = Some "/usr/bin/chromedriver"%string /\
   replace_driver quiet_env (live_state quiet_env)
     = (Ok 1%nat, (replace_driver quiet_env (live_state quiet_env)).2)) /\
  let before := trace (live_state quiet_env)
                ++ cleanup_calls (self (live_state quiet_env)) in
  let new := NewWebDriver (Local (_driver_klass (self (live_state quiet_env)))
                                 (_driver_kwargs (self (live_state quiet_env)))) in
  let draw_w := RandomUniform (inject_Z 1920 * (1 # 2)) (inject_Z 1920) in
  let draw_h := RandomUniform (inject_Z 1080 * (1 # 2)) (inject_Z 1080) in
  let w := uniform_sample quiet_env (before ++ [new])
             (inject_Z 1920 * (1 # 2)) (inject_Z 1920) in
  let h := uniform_sample quiet_env (before ++ [new; draw_w])
             (inject_Z 1080 * (1 # 2)) (inject_Z 1080) in
  1%nat = length (sessions (live_state quiet_env)) /\
  trace (replace_driver quiet_env (live_state quiet_env)).2 =
    before ++ [new; draw_w; draw_h; SetWindowSize 1 w h;
               ConnClear 1; NewPoolManager 1 1 false] /\
  (honours_uniform quiet_env ->
   (inject_Z 1920 * (1 # 2) <= w)%Q /\ (w <= inject_Z 1920)%Q /\
   (inject_Z 1080 * (1 # 2) <= h)%Q /\ (h <= inject_Z 1080)%Q).
Proof.
  assert (H2 : executable_path (_driver_kwargs (self (live_state quiet_env)))
               = Some "/usr/bin/chromedriver"%string) by (vm_compute; reflexivity).
  assert (H3 : replace_driver quiet_env (live_state quiet_env)
               = (Ok 1%nat, (replace_driver quiet_env (live_state quiet_env)).2))
    by (vm_compute; reflexivity).
  split; [exact (conj H2 H3)|].
  apply (replace_driver_calls quiet_env (live_state quiet_env) _ 1%nat
           "/usr/bin/chromedriver" H2 H3).
Defined.

(** X3.  In a state the session manager can reach, once [spider_closed]
    has returned no session is alive, and the middleware still holds the
    driver it has quit as [self.driver]. *)
Theorem spider_closed_leaves_none_alive env (st st' : State) :
  reachable env st ->
  spider_closed env st = (Ok tt, st') ->
  live_sessions st' = [] /\ driver (self st') = driver (self st) /\
  exists d, driver (self st) = Some d /\ trace st' = trace st ++ [Quit d].
Proof.
  intros Hreach Hrun.
  pose proof (reachable_single_session _ _ Hreach) as [_ Ho].
  destruct (driver (self st)) as [d|] eqn:Hd;
    [|by rewrite spider_closed_without_driver in Hrun].
  rewrite (spider_closed_run _ _ _ Hd) in Hrun.
  destruct (raises env (trace st) (Quit d)); [done|].
  injection Hrun as <-. split; [|split].
  - apply live_sessions_none. intros i. rewrite update_session_alive.
    case_bool_decide as Hi.
    + by destruct (sessions _ !! d).
    + apply not_alive_false. intros Hlive. apply Ho in Hlive. congruence.
  - by rewrite update_session_self.
  - exists d. split; [done|]. by rewrite update_session_trace.
Qed.

Lemma spider_closed_leaves_none_alive_witness :
  (reachable quiet_env (live_state quiet_env) /\
   spider_closed quiet_env (live_state quiet_env)
     = (Ok tt, (spider_closed quiet_env (live_state quiet_env)).2)) /\
  live_sessions (spider_closed quiet_env (live_state quiet_env)).2 = [] /\
  driver (self (spider_closed quiet_env (live_state quiet_env)).2)
    = driver (self (live_state quiet_env)) /\
  exists d, driver (self (live_state quiet_env)) = Some d /\
    trace (spider_closed quiet_env (live_state quiet_env)).2
      = trace (live_state quiet_env) ++ [Quit d].
Proof.
  assert (H1 : reachable quiet_env (live_state quiet_env)) by constructor.
  assert (H2 : spider_closed quiet_env (live_state quiet_env)
               = (Ok tt, (spider_closed quiet_env (live_state quiet_env)).2))
    by (vm_compute; reflexivity).
  split; [exact (conj H1 H2)|].
  apply (spider_closed_leaves_none_alive quiet_env (live_state quiet_env) _ H1 H2).
Defined.

(** ** [from_crawler] and [__init__] *)

Lemma fold_add_argument (l : list string) (o : DriverOptions) :
  fold_left add_argument l o =
  {| binary_location := binary_location o;
     arguments := arguments o ++ l;
     preferences := preferences o |}.
Proof.
  revert o. induction l as [|a l IH]; intros o; simpl.
  - rewrite app_nil_r. by destruct o.
  - rewrite IH. simpl. by rewrite <- app_assoc.
Qed.

Lemma fold_set_preference (l : list (string * string)) (o : DriverOptions) :
  fold_left set_preference l o =
  {| binary_location := binary_location o;
     arguments := arguments o;
     preferences := preferences o ++ l |}.
Proof.
  revert o. induction l as [|a l IH]; intros o; simpl.
  - rewrite app_nil_r. by destruct o.
  - rewrite IH. simpl. by rewrite <- app_assoc.
Qed.

(** With a name and one of the two paths, [from_crawler] allocates the
    middleware and runs [__init__] on it. *)
Lemma from_crawler_configured env (crawler : Spider) (st : State) (name : string) :
  SELENIUM_DRIVER_NAME (settings crawler) = Some name ->
  is_None (SELENIUM_DRIVER_EXECUTABLE_PATH (settings crawler))
    && is_None (SELENIUM_COMMAND_EXECUTOR (settings crawler)) = false ->
  from_crawler env crawler st =
  (__init__ env name
     (SELENIUM_DRIVER_EXECUTABLE_PATH (settings crawler))
     (SELENIUM_BROWSER_EXECUTABLE_PATH (settings crawler))
     (SELENIUM_COMMAND_EXECUTOR (settings crawler))
     (SELENIUM_DRIVER_ARGUMENTS (settings crawler))
     (SELENIUM_DRIVER_PREFERENCES (settings crawler))
     (SELENIUM_DRIVER_PROFILE (settings crawler))
     (CONCURRENT_REQUESTS (settings crawler))
     (CONCURRENT_REQUESTS_PER_DOMAIN (settings crawler));;
   modify with_connected) (with_self blank st).
Proof. intros Hn Hp. unfold from_crawler. by rewrite Hn, Hp. Qed.

(** The middleware object on which [__init__] calls [replace_driver]. *)
Lemma init_returned env (crawler : Spider) (name : string) (st st' : State) :
  SELENIUM_DRIVER_NAME (settings crawler) = Some name ->
  __init__ env name
     (SELENIUM_DRIVER_EXECUTABLE_PATH (settings crawler))
     (SELENIUM_BROWSER_EXECUTABLE_PATH (settings crawler))
     (SELENIUM_COMMAND_EXECUTOR (settings crawler))
     (SELENIUM_DRIVER_ARGUMENTS (settings crawler))
     (SELENIUM_DRIVER_PREFERENCES (settings crawler))
     (SELENIUM_DRIVER_PROFILE (settings crawler))
     (CONCURRENT_REQUESTS (settings crawler))
     (CONCURRENT_REQUESTS_PER_DOMAIN (settings crawler)) st = (Ok tt, st') ->
  exists args d,
    SELENIUM_DRIVER_ARGUMENTS (settings crawler) = Some args /\
    replace_driver env
      (with_self
         {| _command_executor := SELENIUM_COMMAND_EXECUTOR (settings crawler);
            _driver_name := name;
            _driver_klass :=
              ("selenium.webdriver." ++ name) ++ ".webdriver.WebDriver";
            _driver_kwargs := configured_kwargs name (settings crawler);
            driver := driver (self st) |}
         (log (ImportModule (("selenium.webdriver." ++ name) ++ ".options"))
            (log (ImportModule (("selenium.webdriver." ++ name) ++ ".webdriver"))
               st)))%string
    = (Ok d, st').
Proof.
  intros Hn. unfold __init__, configured_kwargs.
  rewrite bind_run, call_run. destruct (raises env _ _); [done|].
  rewrite bind_run, call_run. destruct (raises env _ _); [done|].
  rewrite bind_run.
  destruct (SELENIUM_DRIVER_ARGUMENTS (settings crawler)) as [args|];
    [|by unfold raise].
  rewrite ret_run, bind_run, fold_add_argument. simpl.
  destruct (String.eqb name "firefox").
  - destruct (SELENIUM_DRIVER_PREFERENCES (settings crawler)) as [prefs|];
      [|by unfold raise].
    rewrite ret_run, fold_set_preference, !bind_run. simpl.
    rewrite bind_run.
    destruct (replace_driver env _) as [[d|e] st2] eqn:Hr; [|done].
    intros [= <-]. by exists args, d.
  - rewrite ret_run, !bind_run. simpl.
    rewrite bind_run.
    destruct (replace_driver env _) as [[d|e] st2] eqn:Hr; [|done].
    intros [= <-]. by exists args, d.
Qed.

#[global] Instance same_config_preorder : PreOrder same_config.
Proof.
  split.
  - intros st. by repeat split.
  - intros a b c (A1 & A2 & A3 & A4) (B1 & B2 & B3 & B4).
    repeat split; congruence.
Qed.

#[global] Instance same_connected_preorder : PreOrder same_connected.
Proof.
  split.
  - intros st. reflexivity.
  - intros a b c H1 H2. unfold same_connected in *. congruence.
Qed.

(** Proves that [replace_driver] keeps a relation, given a tactic for the
    calls and the updates. *)
Ltac replace_driver_keeps tac :=
  unfold replace_driver, new_webdriver, driver_quit, kwargs_capabilities;
  repeat first [ apply keeps_format_self_attr; tc_solve
               | keeps_step | keeps_leaf tac ].

Lemma replace_driver_same_config env : keeps same_config (replace_driver env).
Proof.
  replace_driver_keeps
    ltac:(first [ by repeat split
                | unfold same_config; by rewrite update_session_self ]).
Qed.

Lemma replace_driver_same_objects env : keeps same_objects (replace_driver env).
Proof.
  replace_driver_keeps
    ltac:(first [ reflexivity
                | unfold same_objects, update_session;
                  by destruct (sessions _ !! _) ]).
Qed.

Lemma replace_driver_same_connected env : keeps same_connected (replace_driver env).
Proof.
  replace_driver_keeps
    ltac:(first [ reflexivity
                | unfold same_connected, update_session;
                  by destruct (sessions _ !! _) ]).
Qed.

Lemma replace_driver_emits env : keeps (emits any_call) (replace_driver env).
Proof.
  replace_driver_keeps
    ltac:(first [ apply emits_log; reflexivity
                | apply emits_same_trace; first
                    [ reflexivity | apply update_session_trace ] ]).
Qed.

(** The remote branch, for a middleware without a driver yet. *)
Lemma remote_only_raises env (st : State) (command_executor : string) :
  executable_path (_driver_kwargs (self st)) = None ->
  _command_executor (self st) = Some command_executor ->
  driver (self st) = None ->
  replace_driver env st = (Raise (AttributeError "_driver_name_options"), st).
Proof.
  intros Hp Hc Hd.
  rewrite replace_driver_steps, bind_run, old_driver_cleanup_run, Hd, bind_run.
  by rewrite (driver_creation_remote_raises _ _ _ Hp Hc).
Qed.

(** X4.  When [from_crawler] returns, the driver name and a driver
    executable path were set in the settings and the driver arguments were
    a list; the middleware stores the settings as read: the command
    executor, the driver class of the named package, the executable path,
    the options under the key [<name>_options] with the browser binary when
    it is a non-empty string, the arguments in their order, and the
    preferences and the profile for firefox only.  Its driver is the only
    session alive, the [spider_closed] handler is connected, and the request
    objects are untouched. *)
Theorem from_crawler_returned env (crawler : Spider) (objs : list Request) (st' : State) :
  from_crawler env crawler (initial objs) = (Ok tt, st') ->
  exists name path args d,
    SELENIUM_DRIVER_NAME (settings crawler) = Some name /\
    SELENIUM_DRIVER_EXECUTABLE_PATH (settings crawler) = Some path /\
    SELENIUM_DRIVER_ARGUMENTS (settings crawler) = Some args /\
    _driver_name (self st') = name /\
    _command_executor (self st') = SELENIUM_COMMAND_EXECUTOR (settings crawler) /\
    _driver_klass (self st')
      = (("selenium.webdriver." ++ name) ++ ".webdriver.WebDriver")%string /\
    _driver_kwargs (self st') = configured_kwargs name (settings crawler) /\
    driver (self st') = Some d /\
    live_sessions st' = [d] /\
    spider_closed_connected st' = true /\
    objects st' = objs.
Proof.
  intros Hrun.
  destruct (SELENIUM_DRIVER_NAME (settings crawler)) as [name|] eqn:Hn;
    [|by unfold from_crawler in Hrun; rewrite Hn in Hrun].
  destruct (is_None (SELENIUM_DRIVER_EXECUTABLE_PATH (settings crawler))
            && is_None (SELENIUM_COMMAND_EXECUTOR (settings crawler))) eqn:Hp;
    [by unfold from_crawler in Hrun; rewrite Hn, Hp in Hrun|].
  rewrite (from_crawler_configured _ _ _ _ Hn Hp), bind_run in Hrun.
  destruct (__init__ _ _ _ _ _ _ _ _ _ _ _) as [[[]|e] st2] eqn:Hinit; [|done].
  injection Hrun as <-.
  apply (init_returned env crawler name) in Hinit as (args & d & Ha & Hrep);
    [|done].
  set (S := with_self _ _) in Hrep.
  assert (HS : single_session S).
  { subst S. split; [by intros ?|]. intros i Hi.
    unfold is_alive in Hi. simpl in Hi. by destruct i. }
  destruct (SELENIUM_DRIVER_EXECUTABLE_PATH (settings crawler)) as [path|] eqn:He.
  2:{ destruct (SELENIUM_COMMAND_EXECUTOR (settings crawler)) as [ce|] eqn:Hc;
        [|done].
      by rewrite (remote_only_raises env S ce) in Hrep. }
  exists name, path, args, d.
  pose proof (replace_driver_same_config env S) as (C1 & C2 & C3 & C4).
  pose proof (replace_driver_same_objects env S) as Hobj.
  pose proof (replace_driver_same_connected env S) as Hconn.
  pose proof (replace_driver_invariant env S HS) as [_ Ho].
  rewrite Hrep in C1, C2, C3, C4, Hobj, Hconn, Ho. simpl in *.
  destruct (replace_driver_local_alive env S st2 path d) as (_ & Hd & Hlive);
    [subst S; unfold configured_kwargs; simpl; by rewrite He | done |].
  repeat split; try done.
  apply live_sessions_only; [|done]. intros i Hi. by apply Ho.
Qed.

Lemma from_crawler_returned_witness :
  from_crawler quiet_env {| settings := local_settings |} (initial [plain_request])
    = (Ok tt, (from_crawler quiet_env {| settings := local_settings |}
                 (initial [plain_request])).2) /\
  exists name path args d,
    SELENIUM_DRIVER_NAME local_settings = Some name /\
    SELENIUM_DRIVER_EXECUTABLE_PATH local_settings = Some path /\
    SELENIUM_DRIVER_ARGUMENTS local_settings = Some args /\
    _driver_name (self (from_crawler quiet_env {| settings := local_settings |}
                          (initial [plain_request])).2) = name /\
    _command_executor (self (from_crawler quiet_env {| settings := local_settings |}
                               (initial [plain_request])).2)
      = SELENIUM_COMMAND_EXECUTOR local_settings /\
    _driver_klass (self (from_crawler quiet_env {| settings := local_settings |}
                           (initial [plain_request])).2)
      = (("selenium.webdriver." ++ name) ++ ".webdriver.WebDriver")%string /\
    _driver_kwargs (self (from_crawler quiet_env {| settings := local_settings |}
                            (initial [plain_request])).2)
      = configured_kwargs name local_settings /\
    driver (self (from_crawler quiet_env {| settings := local_settings |}
                    (initial [plain_request])).2) = Some d /\
    live_sessions (from_crawler quiet_env {| settings := local_settings |}
                     (initial [plain_request])).2 = [d] /\
    spider_closed_connected (from_crawler quiet_env {| settings := local_settings |}
                               (initial [plain_request])).2 = true /\
    objects (from_crawler quiet_env {| settings := local_settings |}
               (initial [plain_request])).2 = [plain_request].
Proof.
  assert (H : from_crawler quiet_env {| settings := local_settings |}
                (initial [plain_request])
              = (Ok tt, (from_crawler quiet_env {| settings := local_settings |}
                           (initial [plain_request])).2))
    by (vm_compute; reflexivity).
  split; [exact H|].
  apply (from_crawler_returned quiet_env {| settings := local_settings |}
           [plain_request] _ H).
Defined.

(** X5.  [from_crawler] connects the [spider_closed] handler to the
    signal exactly when it returns: when it raises, whatever the step that
    raised, the handler is left unconnected. *)
Theorem from_crawler_connects_on_return env (crawler : Spider) (st : State) :
  spider_closed_connected st = false ->
  (spider_closed_connected (from_crawler env crawler st).2 = true <->
   (from_crawler env crawler st).1 = Ok tt).
Proof.
  intros Hc.
  destruct (SELENIUM_DRIVER_NAME (settings crawler)) as [name|] eqn:Hn;
    [|unfold from_crawler; rewrite Hn; simpl; by rewrite Hc].
  destruct (is_None (SELENIUM_DRIVER_EXECUTABLE_PATH (settings crawler))
            && is_None (SELENIUM_COMMAND_EXECUTOR (settings crawler))) eqn:Hp;
    [unfold from_crawler; rewrite Hn, Hp; simpl; by rewrite Hc|].
  rewrite (from_crawler_configured _ _ _ _ Hn Hp), bind_run.
  match goal with
  | |- context [__init__ ?e ?a ?b ?c ?d ?f ?g ?h ?i ?j ?s] =>
      assert (Hk : keeps same_connected (__init__ e a b c d f g h i j));
      [|pose proof (Hk s) as Hs]
  end.
  { unfold __init__.
    repeat first [ apply replace_driver_same_connected
                 | keeps_step | keeps_leaf ltac:(reflexivity) ]. }
  destruct (__init__ _ _ _ _ _ _ _ _ _ _ _) as [[[]|e] st2]; simpl in *.
  - done.
  - unfold same_connected in Hs. simpl in Hs. rewrite Hs, Hc. by split.
Qed.

Lemma from_crawler_connects_on_return_witness :
  spider_closed_connected (initial []) = false /\
  (spider_closed_connected
     (from_crawler quiet_env {| settings := remote_settings |} (initial [])).2 = true <->
   (from_crawler quiet_env {| settings := remote_settings |} (initial [])).1 = Ok tt).
Proof.
  split; [reflexivity|].
  apply (from_crawler_connects_on_return quiet_env {| settings := remote_settings |}
           (initial [])).
  reflexivity.
Defined.

(** X6.  When [SELENIUM_DRIVER_ARGUMENTS] is not set, [from_crawler] on
    settings with a name and a path raises [TypeError] as soon as the two
    modules are imported: no driver is constructed. *)
Theorem from_crawler_without_arguments env (crawler : Spider) (st : State)
    (name : string) :
  SELENIUM_DRIVER_NAME (settings crawler) = Some name ->
  is_None (SELENIUM_DRIVER_EXECUTABLE_PATH (settings crawler))
    && is_None (SELENIUM_COMMAND_EXECUTOR (settings crawler)) = false ->
  SELENIUM_DRIVER_ARGUMENTS (settings crawler) = None ->
  raises env (trace st)
    (ImportModule (("selenium.webdriver." ++ name) ++ ".webdriver")%string) = None ->
  raises env
    (trace st ++ [ImportModule (("selenium.webdriver." ++ name) ++ ".webdriver")%string])
    (ImportModule (("selenium.webdriver." ++ name) ++ ".options")%string) = None ->
  (from_crawler env crawler st).1
    = Raise (TypeError "'NoneType' object is not iterable") /\
  sessions (from_crawler env crawler st).2 = sessions st /\
  trace (from_crawler env crawler st).2
    = trace st ++
      [ImportModule (("selenium.webdriver." ++ name) ++ ".webdriver")%string;
       ImportModule (("selenium.webdriver." ++ name) ++ ".options")%string].
Proof.
  intros Hn Hp Ha H1 H2.
  rewrite (from_crawler_configured _ _ _ _ Hn Hp), bind_run. unfold __init__.
  rewrite bind_run, call_run. simpl. rewrite H1.
  rewrite bind_run, call_run. simpl. rewrite H2.
  rewrite Ha, bind_run. simpl. by rewrite <- app_assoc.
Qed.

Lemma from_crawler_without_arguments_witness :
  (from_crawler quiet_env {| settings := no_arguments_settings |} (initial [])).1
    = Raise (TypeError "'NoneType' object is not iterable") /\
  sessions (from_crawler quiet_env {| settings := no_arguments_settings |}
              (initial [])).2 = sessions (initial []) /\
  trace (from_crawler quiet_env {| settings := no_arguments_settings |}
           (initial [])).2
    = trace (initial []) ++
      [ImportModule (("selenium.webdriver." ++ "chrome") ++ ".webdriver")%string;
       ImportModule (("selenium.webdriver." ++ "chrome") ++ ".options")%string].
Proof.
  apply (from_crawler_without_arguments quiet_env
           {| settings := no_arguments_settings |} (initial []) "chrome");
    reflexivity.
Defined.

(** X7.  For a driver other than firefox, [from_crawler] does not look at
    [SELENIUM_DRIVER_PREFERENCES] and [SELENIUM_DRIVER_PROFILE]: whatever
    their values, unset included, it does the same. *)
Theorem from_crawler_ignores_firefox_settings
    env (s : Settings) (st : State) (name : string)
    (driver_preferences : option (list (string * string)))
    (driver_profile : option string) :
  SELENIUM_DRIVER_NAME s = Some name ->
  name <> "firefox"%string ->
  from_crawler env
    {| settings := with_firefox_settings driver_preferences driver_profile s |} st
  = from_crawler env {| settings := s |} st.
Proof.
  intros Hn Hne. unfold from_crawler, with_firefox_settings, __init__. simpl.
  rewrite Hn. apply String.eqb_neq in Hne. rewrite Hne. reflexivity.
Qed.

Lemma from_crawler_ignores_firefox_settings_witness :
  (SELENIUM_DRIVER_NAME local_settings = Some "chrome"%string /\
   "chrome"%string <> "firefox"%string) /\
  from_crawler quiet_env
    {| settings := with_firefox_settings (Some [("a", "b")]) (Some "/profile")
                     local_settings |} (initial [])
  = from_crawler quiet_env {| settings := local_settings |} (initial []).
Proof.
  split; [split; [reflexivity | discriminate]|].
  apply (from_crawler_ignores_firefox_settings quiet_env local_settings (initial [])
           "chrome"); [reflexivity | discriminate].
Defined.

(** [__init__] begins with an import: the trace grows whatever happens. *)
Lemma init_issues_a_call env (name : string)
    (exe browser ce : option string) (args : option (list string))
    (prefs : option (list (string * string))) (profile : option string)
    (cr crd : Z) (st : State) :
  length (trace st)
  < length (trace (__init__ env name exe browser ce args prefs profile cr crd st).2).
Proof.
  unfold __init__. rewrite bind_run, call_run.
  destruct (raises env (trace st) _); simpl; [rewrite length_app; simpl; lia|].
  match goal with
  | |- context [trace (?m ?x).2] =>
      assert (Hk : keeps (emits any_call) m);
      [|destruct (Hk x) as (evs & -> & _)]
  end.
  { repeat first [ apply replace_driver_emits | keeps_step
                 | keeps_leaf ltac:(first
                     [ apply emits_log; reflexivity
                     | apply emits_same_trace; reflexivity ]) ]. }
  simpl. rewrite !length_app. simpl. lia.
Qed.

(** X8.  [from_crawler] raises [NotConfigured] with nothing done (no
    call issued, no object allocated) exactly when the driver name is
    missing or both the driver executable path and the command executor are
    missing; the name is checked first. *)
Theorem from_crawler_not_configured_iff env (crawler : Spider) (st : State) :
  (exists msg, from_crawler env crawler st = (Raise (NotConfigured msg), st)) <->
  SELENIUM_DRIVER_NAME (settings crawler) = None \/
  (SELENIUM_DRIVER_EXECUTABLE_PATH (settings crawler) = None /\
   SELENIUM_COMMAND_EXECUTOR (settings crawler) = None).
Proof.
  split.
  - intros [msg Hrun].
    destruct (SELENIUM_DRIVER_NAME (settings crawler)) as [name|] eqn:Hn; [|by left].
    right.
    destruct (is_None (SELENIUM_DRIVER_EXECUTABLE_PATH (settings crawler))
              && is_None (SELENIUM_COMMAND_EXECUTOR (settings crawler))) eqn:Hp.
    { apply andb_true_iff in Hp as [He Hc].
      destruct (SELENIUM_DRIVER_EXECUTABLE_PATH (settings crawler)); [done|].
      by destruct (SELENIUM_COMMAND_EXECUTOR (settings crawler)). }
    exfalso. rewrite (from_crawler_configured _ _ _ _ Hn Hp), bind_run in Hrun.
    match type of Hrun with
    | context [__init__ ?e ?a ?b ?c ?d ?f ?g ?h ?i ?j ?s] =>
        pose proof (init_issues_a_call e a b c d f g h i j s) as Hlen
    end.
    destruct (__init__ _ _ _ _ _ _ _ _ _ _ _) as [[[]|e] st2]; simpl in *.
    + injection Hrun as _ <-. simpl in Hlen. lia.
    + injection Hrun as _ <-. lia.
  - intros [Hn | [He Hc]]; unfold from_crawler.
    + rewrite Hn. eauto.
    + rewrite He, Hc. destruct (SELENIUM_DRIVER_NAME (settings crawler)); simpl; eauto.
Qed.

(** ** [process_request]: the calls of a request, one by one *)

Lemma process_request_emits_no_lifecycle env (request : ref) (spider : Spider) :
  keeps (emits not_lifecycle) (process_request env request spider).
Proof.
  unfold process_request.
  keeps_auto ltac:(first [ apply emits_log; reflexivity
                         | apply emits_same_trace; reflexivity ]).
Qed.

(** X9.  [process_request] borrows the driver: whatever the request and
    however it ends, it issues no call that creates, configures or ends a
    driver (no import, no construction, no cookie purge, no [quit()], no
    window or pool set-up), and the middleware object and the sessions are
    as before. *)
Theorem process_request_borrows_driver
    env (request : ref) (spider : Spider) (st : State) :
  (exists evs,
     trace (process_request env request spider st).2 = trace st ++ evs /\
     forallb not_lifecycle evs = true) /\
  self (process_request env request spider st).2 = self st /\
  sessions (process_request env request spider st).2 = sessions st.
Proof.
  split.
  - apply process_request_emits_no_lifecycle.
  - apply process_request_same_sessions.
Qed.

Lemma before_wait_returned env (spider : Spider) (req : Request)
    (st st3 : State) (d : sid) :
  driver (self st) = Some d ->
  (pacing env spider;; cookie_injection env req;; navigation env req) st
    = (Ok tt, st3) ->
  trace st3 = trace st ++ calls_to_navigation env spider d req (trace st).
Proof.
  intros Hd. unfold calls_to_navigation. rewrite bind_run.
  pose proof (pacing_same_sessions env spider st) as [Hself1 _].
  rewrite pacing_run in *. unfold pacing_calls. cbv zeta in *.
  assert (Hrest : forall s pace,
    driver (self s) = Some d ->
    trace s = trace st ++ pace ->
    (cookie_injection env req;; navigation env req) s = (Ok tt, st3) ->
    trace st3 = trace st ++ pace ++ map (add_cookie_call d) (cookies req)
                  ++ [Get d (url req)]).
  { intros s pace Hs Hpace. rewrite bind_run.
    destruct (cookie_injection_run env req s d Hs) as (k & Hk & Hself2 & Hall).
    destruct (cookie_injection env req s) as [[[]|e] st2]; [|done].
    simpl in *. rewrite Hall in Hk by done.
    rewrite (navigation_run env req st2 d) by congruence.
    destruct (raises env (trace st2) _); [done|].
    intros [= <-]. simpl. by rewrite Hk, Hpace, <- !app_assoc. }
  destruct (DOWNLOAD_DELAY (settings spider) =? 0)%Z.
  - apply Hrest; [done | by rewrite app_nil_r].
  - destruct (RANDOMIZE_DOWNLOAD_DELAY (settings spider)).
    + destruct (raises env (trace st) (RandomUniform _ _)); [done|].
      rewrite time_sleep_run. destruct (raises env _ (TimeSleep _)); [done|].
      apply Hrest; [done|]. simpl. by rewrite <- app_assoc.
    + rewrite time_sleep_run. destruct (raises env _ (TimeSleep _)); [done|].
      by apply Hrest.
Qed.

Lemma screenshot_capture_run env (request : ref) (req : Request)
    (st : State) (d : sid) :
  driver (self st) = Some d ->
  screenshot_capture env request req st =
  if screenshot req then
    match raises env (trace st) (GetScreenshotAsPng d) with
    | Some e => (Raise e, log (GetScreenshotAsPng d) st)
    | None =>
        (Ok tt,
         with_objects
           (alter (set_meta "screenshot" (MetaBytes (screenshot_png env (trace st) d)))
              request (objects st))
           (log (GetScreenshotAsPng d) st))
    end
  else (Ok tt, st).
Proof.
  intros Hd. unfold screenshot_capture. destruct (screenshot req); [|done].
  rewrite bind_run, (self_driver_run _ _ Hd), bind_run, call_with_run.
  by destruct (raises env _ _).
Qed.

Lemma script_execution_run env (req : Request) (st : State) (d : sid) :
  driver (self st) = Some d ->
  script_execution env req st =
  if truthy (script req) then
    match raises env (trace st) (ExecuteScript d (default "" (script req))) with
    | Some e => (Raise e, log (ExecuteScript d (default "" (script req))) st)
    | None => (Ok tt, log (ExecuteScript d (default "" (script req))) st)
    end
  else (Ok tt, st).
Proof.
  intros Hd. unfold script_execution. destruct (truthy (script req)); [|done].
  by rewrite bind_run, (self_driver_run _ _ Hd), call_run.
Qed.

(** The states between the steps of a request that got a response. *)
Lemma process_request_states env (request : ref) (spider : Spider)
    (st st' : State) (req : Request) (resp : HtmlResponse) (d : sid) :
  objects st !! request = Some req ->
  driver (self st) = Some d ->
  process_request env request spider st = (Ok (Some resp), st') ->
  exists st4 st5,
    trace st4 = trace st ++ calls_to_navigation env spider d req (trace st)
                  ++ waiting_calls d req /\
    objects st4 = objects st /\
    screenshot_capture env request req st4 = (Ok tt, st5) /\
    driver (self st4) = Some d /\
    trace st' = trace st5 ++ script_calls d req ++ [PageSource d; CurrentUrl d] /\
    objects st' = alter (set_meta "driver" (MetaDriver d)) request (objects st5).
Proof.
  intros Hreq Hd Hrun.
  destruct (process_request_success _ _ _ _ _ _ Hrun)
    as (req0 & st3 & st4 & st5 & st6 & Hreq0 & _ & H3 & H4 & H5 & H6 & Hext).
  assert (req0 = req) as -> by congruence.
  pose proof (before_wait_same_sessions env spider req st) as [S3 _].
  pose proof (before_wait_same_objects env spider req st) as O3.
  rewrite H3 in S3, O3. simpl in S3, O3.
  pose proof (before_wait_returned _ _ _ _ _ _ Hd H3) as T3.
  assert (D3 : driver (self st3) = Some d) by congruence.
  pose proof (waiting_same_objects env req st3) as O4. rewrite H4 in O4.
  rewrite (waiting_run env req st3 d D3) in H4.
  assert (T4 : trace st4 = trace st3 ++ waiting_calls d req /\ self st4 = self st3).
  { unfold waiting_calls. destruct (wait_until req).
    - destruct (raises env _ _); [done|]. by injection H4 as <-.
    - injection H4 as <-. by rewrite app_nil_r. }
  destruct T4 as [T4 S4].
  assert (D4 : driver (self st4) = Some d) by congruence.
  exists st4, st5. split; [by rewrite T4, T3, <- app_assoc|].
  split; [unfold same_objects in *; simpl in *; congruence|].
  split; [done|]. split; [done|].
  pose proof H5 as H5'. rewrite (screenshot_capture_run env request req st4 d D4) in H5'.
  assert (D5 : driver (self st5) = Some d).
  { destruct (screenshot req).
    - destruct (raises env _ _); [done|]. by injection H5' as <-.
    - by injection H5' as <-. }
  pose proof (script_execution_same_objects env req st5) as O6. rewrite H6 in O6.
  rewrite (script_execution_run env req st5 d D5) in H6.
  assert (T6 : trace st6 = trace st5 ++ script_calls d req /\ self st6 = self st5).
  { unfold script_calls. destruct (truthy (script req)).
    - destruct (raises env _ _); [done|]. by injection H6 as <-.
    - injection H6 as <-. by rewrite app_nil_r. }
  destruct T6 as [T6 S6].
  apply extraction_run in Hext as (d' & Hd' & _ & _ & _ & _ & ->).
  assert (d' = d) as -> by congruence.
  unfold same_objects in O6. simpl in *. rewrite T6, O6, <- !app_assoc. by split.
Qed.

(** X10.  A request that gets a response has made the middleware issue
    exactly these calls, in this order: the pacing calls; one [add_cookie]
    per cookie; [get(url)]; the wait, when the request has a wait
    condition; the screenshot, when one is requested; the script, when the
    request has a non-empty one; the read of the page source; the read of
    the current URL.  In particular the screenshot is taken before the
    script runs, and an empty script is not run. *)
Theorem process_request_calls
    env (request : ref) (spider : Spider) (st st' : State)
    (req : Request) (resp : HtmlResponse) (d : sid) :
  objects st !! request = Some req ->
  driver (self st) = Some d ->
  process_request env request spider st = (Ok (Some resp), st') ->
  trace st' =
    trace st ++ calls_to_navigation env spider d req (trace st)
    ++ waiting_calls d req ++ screenshot_calls d req ++ script_calls d req
    ++ [PageSource d; CurrentUrl d].
Proof.
  intros Hreq Hd Hrun.
  destruct (process_request_states _ _ _ _ _ _ _ _ Hreq Hd Hrun)
    as (st4 & st5 & T4 & _ & H5 & D4 & T' & _).
  rewrite (screenshot_capture_run env request req st4 d D4) in H5.
  rewrite T'. unfold screenshot_calls. destruct (screenshot req).
  - destruct (raises env _ _); [done|]. injection H5 as <-. simpl.
    rewrite T4, <- !app_assoc. reflexivity.
  - injection H5 as <-. rewrite T4, <- !app_assoc. reflexivity.
Qed.

(** X11.  When a screenshot is requested and the request gets a
    response, [request.meta['screenshot']] is the image the driver returned
    for the capture made right after the navigation and the wait, before
    the script has run. *)
Theorem screenshot_precedes_script
    env (request : ref) (spider : Spider) (st st' : State)
    (req : Request) (resp : HtmlResponse) (d : sid) :
  objects st !! request = Some req ->
  driver (self st) = Some d ->
  screenshot req = true ->
  process_request env request spider st = (Ok (Some resp), st') ->
  exists req',
    objects st' !! request = Some req' /\
    meta req' !! "screenshot"%string =
      Some (MetaBytes
              (screenshot_png env
                 (trace st ++ calls_to_navigation env spider d req (trace st)
                  ++ waiting_calls d req) d)).
Proof.
  intros Hreq Hd Hshot Hrun.
  destruct (process_request_states _ _ _ _ _ _ _ _ Hreq Hd Hrun)
    as (st4 & st5 & T4 & O4 & H5 & D4 & _ & O').
  rewrite (screenshot_capture_run env request req st4 d D4), Hshot in H5.
  destruct (raises env _ _); [done|]. injection H5 as <-. simpl in O'.
  rewrite O', O4, T4.
  eexists. split.
  - apply alter_set_meta_fields. by apply alter_set_meta_fields.
  - simpl. rewrite lookup_insert_ne by done. by rewrite lookup_insert_eq.
Qed.

Lemma process_request_calls_witness :
  process_request quiet_env 1 {| settings := local_settings |} (live_state quiet_env)
    = (Ok (Some example_response),
       (process_request quiet_env 1 {| settings := local_settings |}
          (live_state quiet_env)).2) /\
  trace (process_request quiet_env 1 {| settings := local_settings |}
           (live_state quiet_env)).2 =
    trace (live_state quiet_env)
    ++ calls_to_navigation quiet_env {| settings := local_settings |} 0
         browser_request (trace (live_state quiet_env))
    ++ waiting_calls 0 browser_request ++ screenshot_calls 0 browser_request
    ++ script_calls 0 browser_request ++ [PageSource 0; CurrentUrl 0].
Proof.
  assert (H : process_request quiet_env 1 {| settings := local_settings |}
                (live_state quiet_env)
              = (Ok (Some example_response),
                 (process_request quiet_env 1 {| settings := local_settings |}
                    (live_state quiet_env)).2))
    by (vm_compute; reflexivity).
  split; [exact H|].
  apply (process_request_calls quiet_env 1 {| settings := local_settings |}
           (live_state quiet_env) _ browser_request example_response 0%nat);
    [vm_compute; reflexivity | vm_compute; reflexivity | exact H].
Defined.

Lemma screenshot_precedes_script_witness :
  exists req',
    objects (process_request quiet_env 1 {| settings := local_settings |}
               (live_state quiet_env)).2 !! 1%nat = Some req' /\
    meta req' !! "screenshot"%string =
      Some (MetaBytes
              (screenshot_png quiet_env
                 (trace (live_state quiet_env)
                  ++ calls_to_navigation quiet_env {| settings := local_settings |} 0
                       browser_request (trace (live_state quiet_env))
                  ++ waiting_calls 0 browser_request) 0)).
Proof.
  apply (screenshot_precedes_script quiet_env 1 {| settings := local_settings |}
           (live_state quiet_env) _ browser_request example_response 0%nat);
    vm_compute; reflexivity.
Defined.

(** ** [process_request]: encoding the page *)

Lemma utf8_char_scalar (c : Z) :
  utf8_char c = None <-> is_scalar c = false.
Proof.
  unfold utf8_char, is_scalar.
  repeat match goal with
         | |- context [(?a <? ?b)%Z] => destruct (Z.ltb_spec a b)
         | |- context [(?a <=? ?b)%Z] => destruct (Z.leb_spec a b)
         end; simpl; split; intros; try done; exfalso; lia.
Qed.

Lemma utf8_scalar (s : pystr) :
  utf8 s = None <-> forallb is_scalar s = false.
Proof.
  induction s as [|c s IH]; simpl; [done|].
  destruct (is_scalar c) eqn:Hc; simpl.
  - destruct (utf8_char c) as [b|] eqn:Hb.
    + rewrite <- IH. by destruct (utf8 s).
    + apply utf8_char_scalar in Hb. congruence.
  - apply utf8_char_scalar in Hc. by rewrite Hc.
Qed.

Lemma pacing_returns env (spider : Spider) (st : State) :
  never_raises env -> (pacing env spider st).1 = Ok tt.
Proof.
  intros Hnr. rewrite pacing_run. cbv zeta.
  destruct (_ =? 0)%Z; [done|].
  destruct (RANDOMIZE_DOWNLOAD_DELAY _); rewrite ?Hnr, time_sleep_run, Hnr; done.
Qed.

Lemma cookie_injection_returns env (req : Request) (st : State) (d : sid) :
  never_raises env -> driver (self st) = Some d ->
  (cookie_injection env req st).1 = Ok tt.
Proof.
  intros Hnr. unfold cookie_injection. generalize (cookies req) as l.
  intros l. revert st. induction l as [|c l IH]; intros st Hd; simpl; [done|].
  rewrite !bind_run, (self_driver_run _ _ Hd), call_run, Hnr. by apply IH.
Qed.

Lemma navigation_returns env (req : Request) (st : State) (d : sid) :
  never_raises env -> driver (self st) = Some d ->
  exists s, navigation env req st = (Ok tt, s) /\ self s = self st.
Proof. intros Hnr Hd. rewrite (navigation_run _ _ _ _ Hd), Hnr. eauto. Qed.

Lemma waiting_returns env (req : Request) (st : State) (d : sid) :
  never_raises env -> driver (self st) = Some d ->
  exists s, waiting env req st = (Ok tt, s) /\ self s = self st.
Proof.
  intros Hnr Hd. rewrite (waiting_run _ _ _ _ Hd).
  destruct (wait_until req); rewrite ?Hnr; eauto.
Qed.

Lemma screenshot_capture_returns env (request : ref) (req : Request)
    (st : State) (d : sid) :
  never_raises env -> driver (self st) = Some d ->
  exists s, screenshot_capture env request req st = (Ok tt, s) /\ self s = self st.
Proof.
  intros Hnr Hd. rewrite (screenshot_capture_run _ _ _ _ _ Hd).
  destruct (screenshot req); rewrite ?Hnr; eauto.
Qed.

Lemma script_execution_returns env (req : Request) (st : State) (d : sid) :
  never_raises env -> driver (self st) = Some d ->
  exists s, script_execution env req st = (Ok tt, s) /\ self s = self st.
Proof.
  intros Hnr Hd. rewrite (script_execution_run _ _ _ _ Hd).
  destruct (truthy (script req)); rewrite ?Hnr; eauto.
Qed.

(** The extraction when no call raises: a response, or
    [UnicodeEncodeError] right after the page source is read. *)
Lemma extraction_quiet env (request : ref) (st : State) (d : sid) :
  never_raises env -> driver (self st) = Some d ->
  match utf8 (page_source_text env (trace st) d) with
  | Some body =>
      exists resp st', extraction env request st = (Ok (Some resp), st')
  | None =>
      extraction env request st = (Raise UnicodeEncodeError, log (PageSource d) st)
  end.
Proof.
  intros Hnr Hd. unfold extraction.
  rewrite !bind_run, (self_driver_run _ _ Hd), call_with_run, Hnr.
  rewrite bind_run. unfold str_encode.
  destruct (utf8 (page_source_text env (trace st) d)) as [body|]; [|done].
  rewrite ret_run, !bind_run. simpl. unfold self_driver. simpl. rewrite Hd. simpl.
  rewrite !bind_run. simpl. rewrite Hd, call_with_run, Hnr. simpl. eauto.
Qed.

(** The steps before the extraction when no call raises. *)
Lemma before_extraction_returns env (request : ref) (spider : Spider)
    (st : State) (req : Request) (d : sid) :
  never_raises env ->
  objects st !! request = Some req ->
  is_selenium req = true ->
  driver (self st) = Some d ->
  exists st5 st6,
    process_request env request spider st = extraction env request st6 /\
    driver (self st6) = Some d /\
    script_execution env req st5 = (Ok tt, st6) /\
    (exists png,
       objects st5 =
       if screenshot req
       then alter (set_meta "screenshot" (MetaBytes png)) request (objects st)
       else objects st).
Proof.
  intros Hnr Hreq Hsel Hd.
  rewrite (process_request_selenium _ _ _ _ _ Hreq Hsel), bind_run.
  pose proof (pacing_returns env spider st Hnr) as R1.
  pose proof (pacing_same_sessions env spider st) as [S1 _].
  pose proof (before_wait_same_objects env spider req st) as O3.
  rewrite bind_run in O3.
  destruct (pacing env spider st) as [[[]|e] st1]; [|done]. simpl in S1.
  assert (D1 : driver (self st1) = Some d) by congruence.
  rewrite bind_run. rewrite bind_run in O3.
  pose proof (cookie_injection_returns env req st1 d Hnr D1) as R2.
  destruct (cookie_injection_run env req st1 d D1) as (_ & _ & S2 & _).
  destruct (cookie_injection env req st1) as [[[]|e] st2]; [|done]. simpl in S2.
  assert (D2 : driver (self st2) = Some d) by congruence.
  rewrite bind_run.
  destruct (navigation_returns env req st2 d Hnr D2) as (st3 & H3 & S3).
  rewrite H3 in *. unfold same_objects in O3. simpl in O3.
  assert (D3 : driver (self st3) = Some d) by congruence.
  rewrite bind_run.
  pose proof (waiting_same_objects env req st3) as O4.
  destruct (waiting_returns env req st3 d Hnr D3) as (st4 & H4 & S4).
  rewrite H4 in *. unfold same_objects in O4. simpl in O4.
  assert (D4 : driver (self st4) = Some d) by congruence.
  rewrite bind_run.
  destruct (screenshot_capture_returns env request req st4 d Hnr D4) as (st5 & H5 & S5).
  rewrite H5.
  assert (D5 : driver (self st5) = Some d) by congruence.
  rewrite bind_run.
  destruct (script_execution_returns env req st5 d Hnr D5) as (st6 & H6 & S6).
  rewrite H6. exists st5, st6. split; [done|]. split; [congruence|]. split; [done|].
  apply screenshot_capture_objects in H5 as [png O5]. exists png.
  by rewrite O5, O4, O3.
Qed.

(** X12.  In an environment where no call raises and no page has a lone
    surrogate, every browser-fetch request handled by a middleware that has
    a driver gets a response. *)
Theorem process_request_returns
    env (request : ref) (spider : Spider) (st : State) (req : Request) (d : sid) :
  never_raises env ->
  encodable_pages env ->
  objects st !! request = Some req ->
  is_selenium req = true ->
  driver (self st) = Some d ->
  exists resp st', process_request env request spider st = (Ok (Some resp), st').
Proof.
  intros Hnr Henc Hreq Hsel Hd.
  destruct (before_extraction_returns env request spider st req d Hnr Hreq Hsel Hd)
    as (st5 & st6 & -> & D6 & _ & _).
  pose proof (extraction_quiet env request st6 d Hnr D6) as Hext.
  destruct (utf8 (page_source_text env (trace st6) d)) as [body|] eqn:Hb; [done|].
  apply utf8_scalar in Hb. by rewrite Henc in Hb.
Qed.

(** X13.  In an environment where no call raises but the page source
    has a code point that utf-8 cannot encode (a lone surrogate), a
    browser-fetch request fails with [UnicodeEncodeError] right after the
    page source is read: the current URL is not read, and the key
    ['driver'] of [request.meta] is left as it was. *)
Theorem process_request_unencodable_page
    env (request : ref) (spider : Spider) (st : State) (req : Request) (d : sid) :
  never_raises env ->
  (forall h, forallb is_scalar (page_source_text env h d) = false) ->
  objects st !! request = Some req ->
  is_selenium req = true ->
  driver (self st) = Some d ->
  (process_request env request spider st).1 = Raise UnicodeEncodeError /\
  (exists h, trace (process_request env request spider st).2 = h ++ [PageSource d]) /\
  (exists req',
     objects (process_request env request spider st).2 !! request = Some req' /\
     meta req' !! "driver"%string = meta req !! "driver"%string).
Proof.
  intros Hnr Hbad Hreq Hsel Hd.
  destruct (before_extraction_returns env request spider st req d Hnr Hreq Hsel Hd)
    as (st5 & st6 & -> & D6 & H6 & png & O5).
  pose proof (script_execution_same_objects env req st5) as O6.
  rewrite H6 in O6. unfold same_objects in O6. simpl in O6.
  pose proof (extraction_quiet env request st6 d Hnr D6) as Hext.
  destruct (utf8 (page_source_text env (trace st6) d)) as [body|] eqn:Hb.
  { assert (Hnone : utf8 (page_source_text env (trace st6) d) = None)
      by (apply utf8_scalar, Hbad). congruence. }
  rewrite Hext. simpl. split; [done|]. split; [by exists (trace st6)|].
  rewrite O6, O5. destruct (screenshot req).
  - eexists. split; [by apply alter_set_meta_fields|].
    simpl. by rewrite lookup_insert_ne.
  - by exists req.
Qed.

Lemma process_request_returns_witness :
  (never_raises quiet_env /\ encodable_pages quiet_env) /\
  exists resp st',
    process_request quiet_env 1 {| settings := local_settings |}
      (live_state quiet_env) = (Ok (Some resp), st').
Proof.
  assert (H1 : never_raises quiet_env) by (intros h c; reflexivity).
  assert (H2 : encodable_pages quiet_env) by (intros h d; reflexivity).
  split; [exact (conj H1 H2)|].
  apply (process_request_returns quiet_env 1 {| settings := local_settings |}
           (live_state quiet_env) browser_request 0%nat H1 H2);
    vm_compute; reflexivity.
Defined.

Lemma process_request_unencodable_page_witness :
  (process_request surrogate_env 1 {| settings := local_settings |}
     (live_state surrogate_env)).1 = Raise UnicodeEncodeError /\
  (exists h,
     trace (process_request surrogate_env 1 {| settings := local_settings |}
              (live_state surrogate_env)).2 = h ++ [PageSource 0]) /\
  (exists req',
     objects (process_request surrogate_env 1 {| settings := local_settings |}
                (live_state surrogate_env)).2 !! 1%nat = Some req' /\
     meta req' !! "driver"%string = meta browser_request !! "driver"%string).
Proof.
  apply (process_request_unencodable_page surrogate_env 1
           {| settings := local_settings |} (live_state surrogate_env)
           browser_request 0%nat).
  - intros h c. reflexivity.
  - intros h. reflexivity.
  - vm_compute; reflexivity.
  - reflexivity.
  - vm_compute; reflexivity.
Defined.

Lemma lor_byte (a b : Z) :
  (0 <= a < 256)%Z -> (0 <= b < 256)%Z -> (0 <= Z.lor a b < 256)%Z.
Proof.
  intros Ha Hb. split; [apply Z.lor_nonneg; lia|].
  destruct (Z.eq_dec (Z.lor a b) 0%Z) as [->|Hne]; [lia|].
  assert (Hpos : (0 < Z.lor a b)%Z).
  { assert (0 <= Z.lor a b)%Z by (apply Z.lor_nonneg; lia). lia. }
  change 256%Z with (2 ^ 8)%Z. apply Z.log2_lt_pow2; [done|].
  rewrite Z.log2_lor by lia.
  assert (La : (Z.log2 a < 8)%Z).
  { destruct (Z.eq_dec a 0%Z) as [->|]; [done|].
    apply Z.log2_lt_pow2; [lia|]. change (2 ^ 8)%Z with 256%Z. lia. }
  assert (Lb : (Z.log2 b < 8)%Z).
  { destruct (Z.eq_dec b 0%Z) as [->|]; [done|].
    apply Z.log2_lt_pow2; [lia|]. change (2 ^ 8)%Z with 256%Z. lia. }
  lia.
Qed.

Lemma continuation_byte (c k : Z) :
  (0 <= k)%Z -> (0 <= Z.lor 0x80 (Z.land (Z.shiftr c k) 0x3F) < 256)%Z.
Proof.
  intros Hk. apply lor_byte; [lia|].
  change 0x3F%Z with (Z.ones 6). rewrite Z.land_ones by lia.
  pose proof (Z.mod_pos_bound (Z.shiftr c k) (2 ^ 6) ltac:(lia)). lia.
Qed.

Lemma lead_byte (c k m lead : Z) :
  (0 <= k)%Z -> (0 <= c < m * 2 ^ k)%Z -> (0 < m <= 256)%Z ->
  (0 <= lead < 256)%Z ->
  (0 <= Z.lor lead (Z.shiftr c k) < 256)%Z.
Proof.
  intros Hk Hc Hm Hl. apply lor_byte; [done|].
  rewrite Z.shiftr_div_pow2 by done.
  assert (0 < 2 ^ k)%Z by (apply Z.pow_pos_nonneg; lia).
  split; [apply Z.div_pos; lia|].
  assert (c / 2 ^ k < m)%Z by (apply Z.div_lt_upper_bound; lia). lia.
Qed.

Lemma utf8_char_bytes (c : Z) (b : bytes) :
  utf8_char c = Some b -> forallb is_byte b = true.
Proof.
  unfold utf8_char.
  assert (Hbyte : forall x, (0 <= x < 256)%Z -> is_byte x = true).
  { intros x Hx. unfold is_byte.
    rewrite (proj2 (Z.leb_le 0%Z x)), (proj2 (Z.ltb_lt x 256%Z)) by lia. done. }
  destruct (Z.ltb_spec c 0%Z); [done|].
  destruct (Z.ltb_spec c 0x80%Z).
  { intros [= <-]. cbn [forallb]. rewrite Hbyte by lia. done. }
  destruct (Z.ltb_spec c 0x800%Z).
  { intros [= <-]. cbn [forallb].
    rewrite (Hbyte _ (lead_byte c 6%Z 32%Z 0xC0%Z ltac:(lia) ltac:(lia) ltac:(lia) ltac:(lia))).
    rewrite (Hbyte _ (continuation_byte c 0%Z ltac:(lia))). done. }
  destruct ((0xD800 <=? c) && (c <=? 0xDFFF))%Z; [done|].
  destruct (Z.ltb_spec c 0x10000%Z).
  { intros [= <-]. cbn [forallb].
    rewrite (Hbyte _ (lead_byte c 12%Z 16%Z 0xE0%Z ltac:(lia) ltac:(lia) ltac:(lia) ltac:(lia))).
    rewrite (Hbyte _ (continuation_byte c 6%Z ltac:(lia))).
    rewrite (Hbyte _ (continuation_byte c 0%Z ltac:(lia))). done. }
  destruct (Z.ltb_spec c 0x110000%Z); [|done].
  intros [= <-]. cbn [forallb].
  rewrite (Hbyte _ (lead_byte c 18%Z 5%Z 0xF0%Z ltac:(lia) ltac:(lia) ltac:(lia) ltac:(lia))).
  rewrite (Hbyte _ (continuation_byte c 12%Z ltac:(lia))).
  rewrite (Hbyte _ (continuation_byte c 6%Z ltac:(lia))).
  rewrite (Hbyte _ (continuation_byte c 0%Z ltac:(lia))). done.
Qed.

Lemma utf8_bytes (s : pystr) (b : bytes) :
  utf8 s = Some b -> forallb is_byte b = true.
Proof.
  revert b. induction s as [|c s IH]; simpl; intros b.
  - by intros [= <-].
  - destruct (utf8_char c) as [bc|] eqn:Hc; [|done].
    destruct (utf8 s) as [bs|]; [|done].
    intros [= <-]. rewrite forallb_app, (utf8_char_bytes _ _ Hc). by apply IH.
Qed.

Lemma utf8_ascii (s : pystr) :
  forallb is_ascii s = true -> utf8 s = Some s.
Proof.
  induction s as [|c s IH]; simpl; [done|].
  intros [Hc Hs]%andb_true_iff. rewrite (IH Hs).
  unfold is_ascii in Hc. apply andb_true_iff in Hc as [H0 H1].
  apply Z.leb_le in H0. unfold utf8_char.
  rewrite (proj2 (Z.ltb_ge c 0%Z)), H1 by done. reflexivity.
Qed.

(** X14.  The body of a response is a sequence of bytes (each one
    between 0 and 255); when the page source read from the driver is pure
    ASCII, the body is that page source, character for character. *)
Theorem response_body_bytes
    env (request : ref) (spider : Spider) (st st' : State) (resp : HtmlResponse) :
  process_request env request spider st = (Ok (Some resp), st') ->
  forallb is_byte (resp_body resp) = true /\
  exists d h,
    trace st' = h ++ [PageSource d; CurrentUrl d] /\
    (forallb is_ascii (page_source_text env h d) = true ->
     resp_body resp = page_source_text env h d).
Proof.
  intros Hrun.
  destruct (process_request_success _ _ _ _ _ _ Hrun)
    as (req & st3 & st4 & st5 & st6 & _ & _ & _ & _ & _ & _ & Hext).
  apply extraction_run in Hext as (d & _ & Hbody & _ & _ & _ & ->).
  split; [by eapply utf8_bytes|].
  exists d, (trace st6). simpl. split; [by rewrite <- app_assoc|].
  intros Hascii. rewrite (utf8_ascii _ Hascii) in Hbody. congruence.
Qed.

Lemma response_body_bytes_witness :
  process_request quiet_env 1 {| settings := local_settings |} (live_state quiet_env)
    = (Ok (Some example_response),
       (process_request quiet_env 1 {| settings := local_settings |}
          (live_state quiet_env)).2) /\
  forallb is_byte (resp_body example_response) = true /\
  exists d h,
    trace (process_request quiet_env 1 {| settings := local_settings |}
             (live_state quiet_env)).2 = h ++ [PageSource d; CurrentUrl d] /\
    (forallb is_ascii (page_source_text quiet_env h d) = true ->
     resp_body example_response = page_source_text quiet_env h d).
Proof.
  assert (H : process_request quiet_env 1 {| settings := local_settings |}
                (live_state quiet_env)
              = (Ok (Some example_response),
                 (process_request quiet_env 1 {| settings := local_settings |}
                    (live_state quiet_env)).2))
    by (vm_compute; reflexivity).
  split; [exact H|].
  apply (response_body_bytes quiet_env 1 {| settings := local_settings |}
           (live_state quiet_env) _ example_response H).
Defined.

(** ** [setup.py]: [get_requirements] *)

Lemma requirement_line_acc (acc : Requirements) (line : string) :
  required (requirement_line acc line)
    = required acc ++ required (requirement_line (no_requirements []) line) /\
  stdout (requirement_line acc line)
    = stdout acc ++ stdout (requirement_line (no_requirements []) line).
Proof.
  unfold requirement_line.
  destruct (is_git_line line); [destruct (str_contains EGG_MARK line)|];
    simpl; by rewrite ?app_nil_r.
Qed.

Lemma fold_requirement_line_acc (lines : list string) (acc : Requirements) :
  required (fold_left requirement_line lines acc)
    = required acc
      ++ required (fold_left requirement_line lines (no_requirements [])) /\
  stdout (fold_left requirement_line lines acc)
    = stdout acc
      ++ stdout (fold_left requirement_line lines (no_requirements [])).
Proof.
  revert acc. induction lines as [|line lines IH]; intros acc; simpl.
  - by rewrite !app_nil_r.
  - destruct (IH (requirement_line acc line)) as [R1 O1].
    destruct (IH (requirement_line (no_requirements []) line)) as [R2 O2].
    destruct (requirement_line_acc acc line) as [R3 O3].
    rewrite R1, O1, R2, O2, R3, O3, <- !app_assoc. done.
Qed.

Lemma get_requirements_run (read_lines : string -> Result (list string))
    (source : string) (out : list string) (lines : list string) :
  read_lines source = Ok lines ->
  get_requirements read_lines source out =
  (Ok (required (fold_left requirement_line lines (no_requirements []))),
   out ++ stdout (fold_left requirement_line lines (no_requirements []))).
Proof.
  intros H. unfold get_requirements. rewrite H.
  destruct (fold_requirement_line_acc lines (no_requirements out)) as [R O].
  fold (no_requirements out). by rewrite R, O.
Qed.

(** X15.  A requirements file without git lines is returned as it is,
    line for line, and nothing is printed. *)
Theorem get_requirements_plain (read_lines : string -> Result (list string))
    (source : string) (out : list string) (lines : list string) :
  read_lines source = Ok lines ->
  forallb (fun line => negb (is_git_line line)) lines = true ->
  get_requirements read_lines source out = (Ok lines, out).
Proof.
  intros Hread Hplain. rewrite (get_requirements_run _ _ _ _ Hread).
  assert (H : required (fold_left requirement_line lines (no_requirements [])) = lines
              /\ stdout (fold_left requirement_line lines (no_requirements [])) = []).
  { clear Hread. induction lines as [|line lines IH]; [done|].
    simpl in Hplain. apply andb_true_iff in Hplain as [Hl Hr].
    apply negb_true_iff in Hl. simpl.
    destruct (fold_requirement_line_acc lines
                (requirement_line (no_requirements []) line)) as [R O].
    destruct (IH Hr) as [R' O'].
    rewrite R, O, R', O'. unfold requirement_line. by rewrite Hl. }
  destruct H as [-> ->]. by rewrite app_nil_r.
Qed.

Lemma get_requirements_plain_witness :
  get_requirements (fun _ => Ok ["scrapy>=1.0.0"; "selenium>=3.9.0"]%string)
    "requirements.txt" []
  = (Ok ["scrapy>=1.0.0"; "selenium>=3.9.0"]%string, []).
Proof.
  apply (get_requirements_plain
           (fun _ => Ok ["scrapy>=1.0.0"; "selenium>=3.9.0"]%string)
           "requirements.txt" [] ["scrapy>=1.0.0"; "selenium>=3.9.0"]%string);
    reflexivity.
Defined.

(** X17.  Every line of the file gives one requirement, except the git
    lines without an egg mark: each of those gives none and makes
    [get_requirements] print two lines of advice. *)
Theorem get_requirements_accounting (read_lines : string -> Result (list string))
    (source : string) (out : list string) (lines : list string) :
  read_lines source = Ok lines ->
  exists r out',
    get_requirements read_lines source out = (Ok r, out') /\
    length r + length (List.filter is_dropped lines) = length lines /\
    length out' = length out + 2 * length (List.filter is_dropped lines).
Proof.
  intros Hread. rewrite (get_requirements_run _ _ _ _ Hread).
  eexists _, _. split; [reflexivity|]. rewrite length_app.
  assert (H : length (required (fold_left requirement_line lines (no_requirements [])))
                + length (List.filter is_dropped lines) = length lines /\
              length (stdout (fold_left requirement_line lines (no_requirements [])))
                = 2 * length (List.filter is_dropped lines)).
  { clear Hread. induction lines as [|line lines [IH1 IH2]]; [done|]. simpl.
    destruct (fold_requirement_line_acc lines
                (requirement_line (no_requirements []) line)) as [R O].
    rewrite R, O, !length_app.
    assert (Hd : is_dropped line
                 = is_git_line line && negb (str_contains EGG_MARK line))
      by reflexivity.
    set (rest := fold_left requirement_line lines (no_requirements [])) in *.
    unfold requirement_line. rewrite Hd.
    destruct (is_git_line line); [destruct (str_contains EGG_MARK line)|];
      simpl; lia. }
  lia.
Qed.

(** X18.  Requirements add up: the requirements of a file made of the
    lines of one file followed by the lines of another are those of the
    first followed by those of the second, and so is what is printed. *)
Theorem get_requirements_app (read_lines : string -> Result (list string))
    (a b ab : string) (l1 l2 out : list string) :
  read_lines a = Ok l1 ->
  read_lines b = Ok l2 ->
  read_lines ab = Ok (l1 ++ l2) ->
  exists r1 o1 r2 o2,
    get_requirements read_lines a out = (Ok r1, o1) /\
    get_requirements read_lines b o1 = (Ok r2, o2) /\
    get_requirements read_lines ab out = (Ok (r1 ++ r2), o2).
Proof.
  intros Ha Hb Hab.
  rewrite (get_requirements_run _ _ _ _ Ha), (get_requirements_run _ _ _ _ Hab).
  eexists _, _, _, _. split; [reflexivity|].
  rewrite (get_requirements_run _ _ _ _ Hb). split; [reflexivity|].
  rewrite fold_left_app.
  destruct (fold_requirement_line_acc l2
              (fold_left requirement_line l1 (no_requirements []))) as [R O].
  by rewrite R, O, <- app_assoc.
Qed.

Lemma get_requirements_accounting_witness :
  example_files "requirements/requirements.txt" = Ok example_requirements /\
  exists r out',
    get_requirements example_files "requirements/requirements.txt" [] = (Ok r, out') /\
    length r + length (List.filter is_dropped example_requirements)
      = length example_requirements /\
    length out' = length (@nil string)
                  + 2 * length (List.filter is_dropped example_requirements).
Proof.
  split; [reflexivity|].
  apply (get_requirements_accounting example_files "requirements/requirements.txt"
           [] example_requirements).
  reflexivity.
Defined.

Lemma get_requirements_app_witness :
  exists r1 o1 r2 o2,
    get_requirements both_files "requirements/requirements.txt" [] = (Ok r1, o1) /\
    get_requirements both_files "requirements/requirements.txt" o1 = (Ok r2, o2) /\
    get_requirements both_files "both.txt" [] = (Ok (r1 ++ r2), o2).
Proof.
  apply (get_requirements_app both_files
           "requirements/requirements.txt" "requirements/requirements.txt"
           "both.txt" example_requirements example_requirements []);
    reflexivity.
Defined.

Lemma string_length_append (a b : string) :
  String.length (a ++ b) = String.length a + String.length b.
Proof. induction a as [|c a IH]; simpl; [done | by rewrite IH]. Qed.

Lemma substring_skip (a b : string) (n m : nat) :
  String.substring (String.length a + n) m (a ++ b) = String.substring n m b.
Proof. induction a as [|c a IH]; simpl; done. Qed.

Lemma substring_all (s : string) :
  String.substring 0 (String.length s) s = s.
Proof. induction s as [|c s IH]; simpl; [done | by rewrite IH]. Qed.

Lemma substring_prefix_app (a b : string) :
  String.substring 0 (String.length a) (a ++ b) = a.
Proof.
  induction a as [|c a IH]; simpl; [by destruct b | by rewrite IH].
Qed.

(** The first occurrence of the egg mark is where [find] says. *)
Lemma index_first_occurrence (pre pkg : string) :
  (forall k, k < String.length pre ->
     String.substring k (String.length EGG_MARK) (pre ++ EGG_MARK ++ pkg) <> EGG_MARK) ->
  String.index 0 EGG_MARK (pre ++ EGG_MARK ++ pkg) = Some (String.length pre).
Proof.
  intros Hfirst.
  assert (Hat : String.substring (String.length pre) (String.length EGG_MARK)
                  (pre ++ EGG_MARK ++ pkg) = EGG_MARK).
  { rewrite <- (Nat.add_0_r (String.length pre)), substring_skip.
    apply substring_prefix_app. }
  destruct (String.index 0 EGG_MARK (pre ++ EGG_MARK ++ pkg)) as [m|] eqn:Hi.
  - f_equal. destruct (Nat.lt_trichotomy m (String.length pre)) as [Hlt|[->|Hgt]].
    + apply String.index_correct1 in Hi. by apply Hfirst in Hlt.
    + done.
    + exfalso. eapply (String.index_correct2 _ _ _ _ Hi (String.length pre)); [lia|done|done].
  - exfalso. eapply (String.index_correct3 _ (String.length pre) _ _ Hi); [done|lia|done].
Qed.

Lemma requirement_line_egg (pre pkg : string) (acc : Requirements) :
  is_git_line (pre ++ EGG_MARK ++ pkg) = true ->
  (forall k, k < String.length pre ->
     String.substring k (String.length EGG_MARK) (pre ++ EGG_MARK ++ pkg) <> EGG_MARK) ->
  required (requirement_line acc (pre ++ EGG_MARK ++ pkg)) = required acc ++ [pkg].
Proof.
  intros Hgit Hfirst. unfold requirement_line, str_contains, str_find.
  rewrite Hgit, (index_first_occurrence _ _ Hfirst). cbn [required]. f_equal. f_equal.
  unfold slice_from.
  assert (Hk : (Z.of_nat (String.length pre) + Z.of_nat (String.length EGG_MARK) <? 0)%Z
               = false) by (apply Z.ltb_ge; lia).
  rewrite Hk, <- Nat2Z.inj_add, Nat2Z.id, !string_length_append.
  replace (String.length pre + (String.length EGG_MARK + String.length pkg)
           - (String.length pre + String.length EGG_MARK))
    with (String.length pkg) by lia.
  rewrite substring_skip, <- (Nat.add_0_r (String.length EGG_MARK)), substring_skip.
  apply substring_all.
Qed.

Lemma fold_requirement_line_In (lines : list string) (line pkg : string) :
  In line lines ->
  In pkg (required (requirement_line (no_requirements []) line)) ->
  In pkg (required (fold_left requirement_line lines (no_requirements []))).
Proof.
  induction lines as [|l lines IH]; [done|]. simpl. intros [->|Hin] Hpkg.
  - destruct (fold_requirement_line_acc lines
                (requirement_line (no_requirements []) line)) as [R _].
    rewrite R. apply in_or_app. by left.
  - destruct (fold_requirement_line_acc lines
                (requirement_line (no_requirements []) l)) as [R _].
    rewrite R. apply in_or_app. right. by apply IH.
Qed.

(** X16.  For a git line with an egg mark, the requirement kept is the
    text that follows the first ['#egg='] of the line, whatever precedes
    it. *)
Theorem get_requirements_egg (read_lines : string -> Result (list string))
    (source : string) (out lines : list string) (pre pkg : string) :
  read_lines source = Ok lines ->
  In (pre ++ EGG_MARK ++ pkg)%string lines ->
  is_git_line (pre ++ EGG_MARK ++ pkg) = true ->
  (forall k, k < String.length pre ->
     String.substring k (String.length EGG_MARK) (pre ++ EGG_MARK ++ pkg) <> EGG_MARK) ->
  exists r out',
    get_requirements read_lines source out = (Ok r, out') /\ In pkg r.
Proof.
  intros Hread Hin Hgit Hfirst. rewrite (get_requirements_run _ _ _ _ Hread).
  eexists _, _. split; [reflexivity|].
  eapply fold_requirement_line_In; [exact Hin|].
  rewrite (requirement_line_egg _ _ _ Hgit Hfirst). simpl. by left.
Qed.

Lemma get_requirements_egg_witness :
  exists r out',
    get_requirements example_files "requirements/requirements.txt" []
      = (Ok r, out') /\ In "scrapy-selenium"%string r.
Proof.
  apply (get_requirements_egg example_files "requirements/requirements.txt" []
           example_requirements
           "-e git+https://github.com/clemfromspace/scrapy-selenium"
           "scrapy-selenium").
  - reflexivity.
  - vm_compute. tauto.
  - reflexivity.
  - intros k Hk.
    do 55 (destruct k as [|k]; [intros H; vm_compute in H; discriminate|]).
    vm_compute in Hk. lia.
Defined.

(** ** [replace_driver]: when the new driver cannot be built *)

(** X19.  In a state the session manager can reach, when the old driver
    has been purged and quit and the construction of the new driver then
    raises, [replace_driver] raises that exception and leaves the
    middleware without any session alive: [self.driver] is still the old,
    terminated driver. *)
Theorem replace_driver_creation_failure
    env (st : State) (d0 : sid) (path : string) (e : exn) :
  reachable env st ->
  driver (self st) = Some d0 ->
  executable_path (_driver_kwargs (self st)) = Some path ->
  raises env (trace st) (DeleteAllCookies d0) = None ->
  raises env (trace st ++ [DeleteAllCookies d0]) (Quit d0) = None ->
  raises env (trace st ++ [DeleteAllCookies d0; Quit d0])
    (NewWebDriver (Local (_driver_klass (self st)) (_driver_kwargs (self st))))
    = Some e ->
  (replace_driver env st).1 = Raise e /\
  live_sessions (replace_driver env st).2 = [] /\
  driver (self (replace_driver env st).2) = Some d0.
Proof.
  intros Hreach Hd Hp Hpurge Hquit Hnew.
  pose proof (reachable_single_session _ _ Hreach) as Hinv.
  pose proof (old_driver_cleanup_invariant env st Hinv) as Hclean.
  rewrite replace_driver_steps, bind_run.
  rewrite old_driver_cleanup_run, Hd, Hpurge, Hquit in *.
  destruct Hclean as (Hdead & _ & _ & _).
  set (st1 := update_session d0 mark_dead _) in *.
  assert (Hs1 : self st1 = self st) by (subst st1; by rewrite update_session_self).
  assert (Ht1 : trace st1 = trace st ++ [DeleteAllCookies d0; Quit d0]).
  { subst st1. rewrite update_session_trace. simpl. by rewrite <- app_assoc. }
  rewrite bind_run. unfold driver_creation. rewrite bind_run. simpl.
  rewrite Hs1, Hp, bind_run, new_webdriver_run, Ht1, Hnew. simpl.
  split; [done|]. split; [|by rewrite Hs1].
  apply live_sessions_none. intros i. specialize (Hdead i).
  unfold is_alive in *. simpl. exact Hdead.
Qed.

Lemma replace_driver_creation_failure_witness :
  (replace_driver no_relaunch_env (live_state no_relaunch_env)).1
    = Raise (LibraryError "unable to start the driver") /\
  live_sessions (replace_driver no_relaunch_env (live_state no_relaunch_env)).2 = [] /\
  driver (self (replace_driver no_relaunch_env (live_state no_relaunch_env)).2)
    = Some 0%nat.
Proof.
  apply (replace_driver_creation_failure no_relaunch_env
           (live_state no_relaunch_env) 0%nat "/usr/bin/chromedriver"
           (LibraryError "unable to start the driver")).
  - constructor.
  - vm_compute; reflexivity.
  - vm_compute; reflexivity.
  - vm_compute; reflexivity.
  - vm_compute; reflexivity.
  - vm_compute; reflexivity.
Defined.
